(** * Tribler tunnel community: a shallow embedding of
      [tribler/core/tunnel/community.py] and of the EVA incoming transfer,
      with the properties the specification states about them. *)

From Stdlib Require Import ZArith QArith Lia Lqa.
From Stdlib.Strings Require Import Byte.
From Stdlib Require Strings.String.
From stdpp Require Import gmap strings list fin_maps.

Local Open Scope Z_scope.

(** * Byte strings *)

(** Python [bytes] are lists of [Byte.byte]. *)
Abbreviation bytes := (list Byte.byte).

#[global] Instance byte_eq_dec : EqDecision Byte.byte.
Proof. intros x y. destruct (Byte.byte_eq_dec x y); [left | right]; assumption. Defined.

#[global] Instance byte_countable : Countable Byte.byte :=
  inj_countable Byte.to_N Byte.of_N Byte.of_to_N.

Definition byte_to_Z (b : Byte.byte) : Z := Z.of_N (Byte.to_N b).

Definition byte_of_Z (z : Z) : Byte.byte :=
  match Byte.of_N (Z.to_N (z mod 256)) with
  | Some b => b
  | None => Byte.x00
  end.

(** A [bytes] literal written as text, as in [b'...']. *)
Definition b_lit (s : String.string) : bytes := String.list_byte_of_string s.

(** * hashlib.sha1 (FIPS 180-4), on 32-bit words held in [Z] *)

Module SHA1.

Definition w32 (x : Z) : Z := x mod 2 ^ 32.
Definition add32 (a b : Z) : Z := w32 (a + b).
Definition rotl32 (n x : Z) : Z :=
  Z.lor (w32 (Z.shiftl x n)) (Z.shiftr x (32 - n)).
Definition not32 (x : Z) : Z := Z.lxor x 0xFFFFFFFF.

(** Big-endian serialisation of a [k]-byte unsigned integer. *)
Fixpoint be_bytes (k : nat) (x : Z) : list Z :=
  match k with
  | O => []
  | S k' => be_bytes k' (Z.shiftr x 8) ++ [x mod 256]
  end.

Definition be_word (bs : list Z) : Z :=
  fold_left (fun acc b => acc * 256 + b) bs 0.

(** Message padding: a 1 bit, zeros up to 56 mod 64, the bit length on 64 bits. *)
Definition pad (msg : list Z) : list Z :=
  let len := Z.of_nat (length msg) in
  msg ++ [0x80] ++ repeat 0 (Z.to_nat ((55 - len) mod 64)) ++ be_bytes 8 (8 * len).

Fixpoint chunks {A} (fuel size : nat) (l : list A) : list (list A) :=
  match fuel with
  | O => []
  | S fuel' =>
      match l with
      | [] => []
      | _ => take size l :: chunks fuel' size (drop size l)
      end
  end.

Definition block_words (blk : list Z) : list Z :=
  map be_word (chunks 16 4 blk).

(** The message schedule, most recent word first. *)
Fixpoint extend (n : nat) (rev_w : list Z) : list Z :=
  match n with
  | O => rev_w
  | S n' =>
      let x := Z.lxor (Z.lxor (nth 2 rev_w 0) (nth 7 rev_w 0))
                      (Z.lxor (nth 13 rev_w 0) (nth 15 rev_w 0)) in
      extend n' (rotl32 1 x :: rev_w)
  end.

Definition schedule (blk : list Z) : list Z :=
  rev (extend 64 (rev (block_words blk))).

Record hstate := H { ha : Z; hb : Z; hc : Z; hd : Z; he : Z }.

Definition h0 : hstate :=
  H 0x67452301 0xEFCDAB89 0x98BADCFE 0x10325476 0xC3D2E1F0.

Definition f_k (t : nat) (b c d : Z) : Z * Z :=
  if (t <? 20)%nat then
    (Z.lor (Z.land b c) (Z.land (not32 b) d), 0x5A827999)
  else if (t <? 40)%nat then
    (Z.lxor (Z.lxor b c) d, 0x6ED9EBA1)
  else if (t <? 60)%nat then
    (Z.lor (Z.lor (Z.land b c) (Z.land b d)) (Z.land c d), 0x8F1BBCDC)
  else
    (Z.lxor (Z.lxor b c) d, 0xCA62C1D6).

Definition round (s : hstate) (tw : nat * Z) : hstate :=
  let '(t, w) := tw in
  let '(f, k) := f_k t (hb s) (hc s) (hd s) in
  let temp := add32 (add32 (add32 (add32 (rotl32 5 (ha s)) f) (he s)) k) w in
  H temp (ha s) (rotl32 30 (hb s)) (hc s) (hd s).

Definition compress (s : hstate) (blk : list Z) : hstate :=
  let ws := schedule blk in
  let r := fold_left round (combine (seq 0 80) ws) s in
  H (add32 (ha s) (ha r)) (add32 (hb s) (hb r)) (add32 (hc s) (hc r))
    (add32 (hd s) (hd r)) (add32 (he s) (he r)).

Definition digest_words (msg : list Z) : hstate :=
  let p := pad msg in
  fold_left compress (chunks (length p) 64 p) h0.

Definition digest (msg : bytes) : bytes :=
  let s := digest_words (map byte_to_Z msg) in
  map byte_of_Z
      (be_bytes 4 (ha s) ++ be_bytes 4 (hb s) ++ be_bytes 4 (hc s)
       ++ be_bytes 4 (hd s) ++ be_bytes 4 (he s)).

End SHA1.

(** * binascii.hexlify *)

Definition hex_table : bytes := b_lit "0123456789abcdef".

Definition hexlify_byte (b : Byte.byte) : bytes :=
  let n := byte_to_Z b in
  [nth (Z.to_nat (Z.shiftr n 4)) hex_table Byte.x00;
   nth (Z.to_nat (Z.land n 15)) hex_table Byte.x00].

Definition hexlify (data : bytes) : bytes := flat_map hexlify_byte data.

(** [get_lookup_info_hash]: the key of the hidden swarm of a download. *)
Definition get_lookup_info_hash (info_hash : bytes) : bytes :=
  SHA1.digest (b_lit "tribler anonymous download" ++ hexlify info_hash).

(** The specification's wording of the same, with its own hexadecimal
    encoding: two lower-case base-16 digits per byte, high digit first. *)
Definition hex_digit (n : N) : Byte.byte :=
  match n with
  | 0%N => "0"%byte | 1%N => "1"%byte | 2%N => "2"%byte | 3%N => "3"%byte
  | 4%N => "4"%byte | 5%N => "5"%byte | 6%N => "6"%byte | 7%N => "7"%byte
  | 8%N => "8"%byte | 9%N => "9"%byte | 10%N => "a"%byte | 11%N => "b"%byte
  | 12%N => "c"%byte | 13%N => "d"%byte | 14%N => "e"%byte | _ => "f"%byte
  end.

Fixpoint hex_encoding (data : bytes) : bytes :=
  match data with
  | [] => []
  | b :: rest =>
      hex_digit (Byte.to_N b / 16) :: hex_digit (Byte.to_N b mod 16) :: hex_encoding rest
  end.

Definition spec_lookup_info_hash (real_info_hash : bytes) : bytes :=
  SHA1.digest (b_lit "tribler anonymous download" ++ hex_encoding real_info_hash).

(** * The community state and its effects *)

Abbreviation address := (string * Z)%type.

(** Modelled from the spec: the enum [DownloadStatus] (download_state.py is
    not under src/). The members are those the sources under src/ name;
    every other member is an [OTHER_STATUS]. *)
Inductive DownloadStatus :=
| DOWNLOADING
| SEEDING
| STOPPED
| METADATA
| CIRCUITS
| EXIT_NODES
| OTHER_STATUS (value : Z).

#[global] Instance DownloadStatus_eq_dec : EqDecision DownloadStatus.
Proof. solve_decision. Defined.

(** The circuit types of the anonymization layer that the community tests for. *)
Inductive CircuitType :=
| CIRCUIT_TYPE_IP_SEEDER
| CIRCUIT_TYPE_RP_SEEDER
| CIRCUIT_TYPE_OTHER (name : string).

#[global] Instance CircuitType_eq_dec : EqDecision CircuitType.
Proof. solve_decision. Defined.

Record Circuit := {
  circuit_id : Z;
  ctype : CircuitType;
  info_hash : option bytes;
  goal_hops : Z
}.

Record RelayRoute := { relay_circuit_id : Z; relay_peer : address }.
Record TunnelExitSocket := { exit_circuit_id : Z; exit_peer : address }.

(** The cell payloads of HTTP-over-tunnel (fields in constructor order). *)
Record HTTPRequestPayload := {
  req_circuit_id : Z;
  req_identifier : Z;
  req_target : address;
  req_request : bytes
}.

Record HTTPResponsePayload := {
  resp_circuit_id : Z;
  resp_identifier : Z;
  resp_part : Z;
  resp_total : Z;
  resp_response : bytes
}.

(** Entries of [request_cache._identifiers]: an [HTTPRequestCache] carries
    the circuit it was made for; other cache classes need not. *)
Inductive Cache :=
| HTTPRequestCache (cache_circuit_id : Z)
| OtherCache (prefix : string).

(** A download and the state snapshot the download manager hands out. *)
Record Download := {
  hidden : bool;
  config_hops : Z;                 (* download.config.get_hops() *)
  def_infohash : bytes;            (* download.get_def().get_infohash() *)
  state_status : DownloadStatus    (* download.get_state().get_status() *)
}.

Record DownloadState := {
  ds_download : Download;          (* ds.get_download() *)
  ds_status : DownloadStatus;      (* ds.get_status() *)
  ds_peer_list : list address      (* ds.get_peer_list() *)
}.

(** What the file named by [settings.exitnode_cache] does when touched. *)
Record Path := {
  is_file : bool;
  open_read : string + bytes;            (* inl: the OSError raised by open/read *)
  write_bytes : bytes -> option string   (* Some: the OSError raised *)
}.

Inductive exn :=
| OSError (what : string)
| AsyncTimeoutError
| KeyError (key : bytes)
| AttributeError.

Inductive outcome (A : Type) :=
| Ret (a : A)
| Raise (e : exn).
Arguments Ret {A} a.
Arguments Raise {A} e.

Inductive level := DEBUG | INFO | WARNING | ERROR.

(** Calls that leave the community: logging, the anonymization layer,
    libtorrent, sockets and files. [ForceDhtAnnounce] notes how many
    readings of the clock preceded the call. *)
Inductive event :=
| Log (lvl : level) (msg : string)
| JoinSwarm (ih : bytes) (hops : Z) (seeding : bool)
| LeaveSwarm (ih : bytes)
| CreateIntroductionPoint (ih : bytes)
| ForceDhtAnnounce (real_info_hash : bytes) (readings : nat)
| OpenConnection (target : address)
| WriterWrite (data : bytes)
| WriterClose
| SendCell (to : address) (cell : HTTPResponsePayload)
| SendIntroductionRequest (to : address)
| WriteBytes (snapshot : bytes).

Record Community := {
  (* settings *)
  max_joined_circuits : Z;
  min_circuits : Z;
  max_circuits : Z;
  default_hops : Z;
  exitnode_cache : option Path;
  has_session : Z -> bool;         (* settings.download_manager.has_session *)
  (* circuit registry *)
  circuits : gmap Z Circuit;
  relay_from_to : gmap Z RelayRoute;
  exit_sockets : gmap Z TunnelExitSocket;
  request_cache : gmap (string * Z) Cache;
  exit_candidates : list address;  (* get_candidates(PEER_FLAG_EXIT_BT) *)
  (* download monitor *)
  download_states : gmap bytes DownloadStatus;
  last_forced_announce : gmap bytes Q;
  circuits_needed : gmap Z Z;
  (* the world *)
  ticks : nat;                     (* readings of time.time() so far *)
  trace : list event
}.

Definition with_trace (c : Community) (t : list event) : Community :=
  {| max_joined_circuits := max_joined_circuits c; min_circuits := min_circuits c;
     max_circuits := max_circuits c; default_hops := default_hops c;
     exitnode_cache := exitnode_cache c; has_session := has_session c;
     circuits := circuits c; relay_from_to := relay_from_to c;
     exit_sockets := exit_sockets c; request_cache := request_cache c;
     exit_candidates := exit_candidates c;
     download_states := download_states c;
     last_forced_announce := last_forced_announce c;
     circuits_needed := circuits_needed c; ticks := ticks c; trace := t |}.

Definition with_ticks (c : Community) (n : nat) : Community :=
  {| max_joined_circuits := max_joined_circuits c; min_circuits := min_circuits c;
     max_circuits := max_circuits c; default_hops := default_hops c;
     exitnode_cache := exitnode_cache c; has_session := has_session c;
     circuits := circuits c; relay_from_to := relay_from_to c;
     exit_sockets := exit_sockets c; request_cache := request_cache c;
     exit_candidates := exit_candidates c;
     download_states := download_states c;
     last_forced_announce := last_forced_announce c;
     circuits_needed := circuits_needed c; ticks := n; trace := trace c |}.

Definition with_last_forced_announce (c : Community) (m : gmap bytes Q) : Community :=
  {| max_joined_circuits := max_joined_circuits c; min_circuits := min_circuits c;
     max_circuits := max_circuits c; default_hops := default_hops c;
     exitnode_cache := exitnode_cache c; has_session := has_session c;
     circuits := circuits c; relay_from_to := relay_from_to c;
     exit_sockets := exit_sockets c; request_cache := request_cache c;
     exit_candidates := exit_candidates c;
     download_states := download_states c;
     last_forced_announce := m;
     circuits_needed := circuits_needed c; ticks := ticks c; trace := trace c |}.

Definition with_download_states (c : Community) (m : gmap bytes DownloadStatus) : Community :=
  {| max_joined_circuits := max_joined_circuits c; min_circuits := min_circuits c;
     max_circuits := max_circuits c; default_hops := default_hops c;
     exitnode_cache := exitnode_cache c; has_session := has_session c;
     circuits := circuits c; relay_from_to := relay_from_to c;
     exit_sockets := exit_sockets c; request_cache := request_cache c;
     exit_candidates := exit_candidates c;
     download_states := m;
     last_forced_announce := last_forced_announce c;
     circuits_needed := circuits_needed c; ticks := ticks c; trace := trace c |}.

Definition with_circuits_needed (c : Community) (m : gmap Z Z) : Community :=
  {| max_joined_circuits := max_joined_circuits c; min_circuits := min_circuits c;
     max_circuits := max_circuits c; default_hops := default_hops c;
     exitnode_cache := exitnode_cache c; has_session := has_session c;
     circuits := circuits c; relay_from_to := relay_from_to c;
     exit_sockets := exit_sockets c; request_cache := request_cache c;
     exit_candidates := exit_candidates c;
     download_states := download_states c;
     last_forced_announce := last_forced_announce c;
     circuits_needed := m; ticks := ticks c; trace := trace c |}.

(** ** A state-and-exception monad for the methods of the community *)

Definition M (A : Type) : Type := Community -> outcome A * Community.

Definition ret {A} (a : A) : M A := fun c => (Ret a, c).

Definition raise {A} (e : exn) : M A := fun c => (Raise e, c).

Definition bind {A B} (m : M A) (k : A -> M B) : M B :=
  fun c =>
    match m c with
    | (Ret a, c') => k a c'
    | (Raise e, c') => (Raise e, c')
    end.

Declare Scope community_scope.
Delimit Scope community_scope with M.
Notation "x <- m ;; k" := (bind m (fun x => k))
  (at level 100, m at next level, right associativity) : community_scope.
Notation "m ;; k" := (bind m (fun _ => k))
  (at level 100, right associativity) : community_scope.
Local Open Scope community_scope.

Definition gets {A} (f : Community -> A) : M A := fun c => (Ret (f c), c).

Definition emit (e : event) : M unit :=
  fun c => (Ret tt, with_trace c (trace c ++ [e])).

Definition logger (lvl : level) (msg : string) : M unit := emit (Log lvl msg).

Fixpoint for_each {A} (l : list A) (body : A -> M unit) : M unit :=
  match l with
  | [] => ret tt
  | x :: rest => body x ;; for_each rest body
  end.

Fixpoint fold_each {A S} (l : list A) (body : S -> A -> M S) (s : S) : M S :=
  match l with
  | [] => ret s
  | x :: rest => s' <- body s x ;; fold_each rest body s'
  end.

(** try: body except Exception as e: handler *)
Definition try_except {A} (body : M A) (handler : exn -> M A) : M A :=
  fun c =>
    match body c with
    | (Ret a, c') => (Ret a, c')
    | (Raise e, c') => handler e c'
    end.

(** try: body finally: cleanup *)
Definition try_finally {A} (body : M A) (cleanup : M unit) : M A :=
  fun c =>
    match body c with
    | (r, c') =>
        match cleanup c' with
        | (Ret _, c'') => (r, c'')
        | (Raise e, c'') => (Raise e, c'')
        end
    end.

(** ** Python helpers on bytes and numbers *)

Fixpoint startswith (data pre : bytes) : bool :=
  match pre, data with
  | [], _ => true
  | p :: pre', d :: data' => bool_decide (p = d) && startswith data' pre'
  | _ :: _, [] => false
  end.

(** [data.partition(sep)] for a non-empty [sep]: split at the first
    occurrence, or [(data, b'', b'')] when there is none. *)
Fixpoint partition (data sep : bytes) : bytes * bytes * bytes :=
  match data with
  | [] => ([], [], [])
  | d :: rest =>
      if startswith data sep then ([], sep, drop (length sep) data)
      else let '(before, found, after) := partition rest sep in
           (d :: before, found, after)
  end.

(** ASCII whitespace, as [bytes.strip()] removes it. *)
Definition is_space (b : Byte.byte) : bool :=
  bool_decide (b ∈ [" "%byte; x09; x0a; x0d; x0b; x0c]).

Fixpoint lstrip (data : bytes) : bytes :=
  match data with
  | [] => []
  | b :: rest => if is_space b then lstrip rest else data
  end.

Definition strip (data : bytes) : bytes := rev (lstrip (rev (lstrip data))).

(** [data[a:b]] for [0 <= a <= b]. *)
Definition slice (data : bytes) (a b : Z) : bytes :=
  take (Z.to_nat (b - a)) (drop (Z.to_nat a) data).

(** [math.ceil(n / d)] for integers [0 <= n], [0 < d]. The source divides
    as floats; at the sizes a response can have the float quotient has
    the same ceiling as the exact one. *)
Definition ceil_div (n d : Z) : Z :=
  let (q, r) := Z.div_eucl n d in
  if r =? 0 then q else q + 1.

(** [range(n)] *)
Definition range (n : Z) : list Z := map Z.of_nat (seq 0 (Z.to_nat n)).

(** [collections.Counter(l)] *)
Definition Counter `{Countable K} (l : list K) : gmap K Z :=
  foldr (fun k m => <[k := default 0 (m !! k) + 1]> m) ∅ l.

(** [asyncio.Future] already resolved: [ipv8.util.succeed]. *)
Inductive Future (A : Type) := succeed (result : A).
Arguments succeed {A} result.

Definition DESTROY_REASON_BALANCE : Z := 65535.
Definition PEER_FLAG_EXIT_HTTP : Z := 32768.
Definition MAX_HTTP_PACKET_SIZE : Z := 1400.

(** What the peer of [open_connection] does: refuse, stall, or deliver
    lines and then a rest, each read of which may itself fail. *)
Inductive read_outcome :=
| Data (data : bytes)
| ReadFails (what : string)     (* OSError *)
| ReadStalls.                   (* the 10 s timeout fires *)

Inductive Connection :=
| ConnectFails (what : string)
| ConnectStalls
| Connected (lines : list read_outcome) (rest : read_outcome).

(** The read loop of [on_http_request]: lines up to a blank one, then at
    most 1 MiB more. At end of stream [readline] returns [b'']. *)
Definition read_body (rest : read_outcome) (response : bytes) : outcome bytes :=
  match rest with
  | Data body => Ret (response ++ take (Z.to_nat (1024 ^ 2)) body)
  | ReadFails what => Raise (OSError what)
  | ReadStalls => Raise AsyncTimeoutError
  end.

Fixpoint read_response (lines : list read_outcome) (rest : read_outcome)
    (response : bytes) : outcome bytes :=
  match lines with
  | [] => read_body rest response
  | Data line :: more =>
      let response := response ++ line in
      if bool_decide (strip line = []) then read_body rest response
      else read_response more rest response
  | ReadFails what :: _ => Raise (OSError what)
  | ReadStalls :: _ => Raise AsyncTimeoutError
  end.

Definition lift {A} (o : outcome A) : M A := fun c => (o, c).

Definition active : list (option DownloadStatus) :=
  [Some DOWNLOADING; Some SEEDING; Some METADATA].

(** The locals of [monitor_downloads]. *)
Record locals := {
  new_states : gmap bytes DownloadStatus;
  hops : gmap bytes Z;
  active_downloads_per_hop : gmap Z Z
}.

(** ** The methods of [TriblerTunnelCommunity] *)

Section Methods.

(** The readings [time.time()] returns, in order. *)
Variable clock : nat -> Q.
(** [find_circuits(hops=h)] of the anonymization layer, on [self.circuits]. *)
Variable find_circuits : gmap Z Circuit -> Z -> list Circuit.
(** [libtorrent.bdecode]: [None] when the bytes do not decode. *)
Variable entry : Type.
Variable bdecode : bytes -> option entry.
(** [Network.snapshot()] of the verified peers, and the walkable
    addresses after [Network.load_snapshot]. *)
Variable Network_snapshot : list address -> bytes.
Variable Network_load_snapshot : bytes -> list address.

Definition is_bencoded (x : bytes) : bool :=
  match bdecode x with
  | Some _ => true
  | None => false
  end.

Definition time_time : M Q :=
  fun c => (Ret (clock (ticks c)), with_ticks c (S (ticks c))).

Definition cache_exitnodes_to_disk : M unit :=
  c <- gets id ;;
  let snapshot := Network_snapshot (exit_candidates c) in
  logger INFO "Writing exit nodes to cache file" ;;
  try_except
    (match exitnode_cache c with
     | None => raise AttributeError
     | Some cache =>
         match write_bytes cache snapshot with
         | None => emit (WriteBytes snapshot)
         | Some what => raise (OSError what)
         end
     end)
    (fun e => match e with
              | OSError what => logger WARNING what
              | _ => raise e
              end).

Definition restore_exitnodes_from_disk : M unit :=
  c <- gets id ;;
  match exitnode_cache c with
  | None => raise AttributeError
  | Some cache =>
      if is_file cache then
        logger DEBUG "Loading exit nodes from cache: %s" ;;
        data <- match open_read cache with
                | inl what => raise (OSError what)
                | inr data => ret data
                end ;;
        for_each (Network_load_snapshot data)
                 (fun exit_node => emit (SendIntroductionRequest exit_node))
      else
        logger WARNING "Could not retrieve backup exitnode cache, file does not exist!"
  end.

Definition should_join_circuit {P} (create_payload : P) (previous_node_address : address)
  : M (Future bool) :=
  c <- gets id ;;
  let joined_circuits :=
    Z.of_nat (size (relay_from_to c)) + Z.of_nat (size (exit_sockets c)) in
  if max_joined_circuits c <=? joined_circuits then
    logger WARNING "too many relays (%d)" ;;
    ret (succeed false)
  else
    ret (succeed true).

Definition join_swarm (ih : bytes) (h : Z) (seeding : bool) : M unit :=
  emit (JoinSwarm ih h seeding).
Definition leave_swarm (ih : bytes) : M unit := emit (LeaveSwarm ih).
Definition create_introduction_point (ih : bytes) : M unit :=
  emit (CreateIntroductionPoint ih).

(** "Join/leave hidden swarm as needed." *)
Definition join_or_leave_swarm (hops : gmap bytes Z) (ih : bytes)
    (old_state new_state : option DownloadStatus) : M unit :=
  let state_changed := bool_decide (new_state ≠ old_state) in
  if state_changed && bool_decide (new_state ∈ active) then
    if bool_decide (old_state ≠ Some METADATA)
       || bool_decide (new_state ≠ Some DOWNLOADING) then
      match hops !! ih with
      | None => raise (KeyError ih)
      | Some h => join_swarm ih h (bool_decide (new_state = Some SEEDING))
      end
    else ret tt
  else if state_changed && bool_decide (new_state ∈ [Some STOPPED; None]) then
    leave_swarm ih
  else ret tt.

(** "Ensure we have enough introduction points for this infohash." *)
Definition ensure_introduction_point (ip_counter : gmap (option bytes) Z) (ih : bytes)
    (new_state : option DownloadStatus) : M unit :=
  if bool_decide (new_state = Some SEEDING) then
    for_each (range (1 - default 0 (ip_counter !! Some ih)))
             (fun _ => logger INFO "Create introducing circuit for %s" ;;
                       create_introduction_point ih)
  else ret tt.

(** One turn of the loop of [monitor_hidden_swarms]. *)
Definition monitor_hidden_swarm (new_states : gmap bytes DownloadStatus)
    (hops : gmap bytes Z) (ip_counter : gmap (option bytes) Z) (ih : bytes) : M unit :=
  c <- gets id ;;
  let new_state := new_states !! ih in
  let old_state := download_states c !! ih in
  join_or_leave_swarm hops ih old_state new_state ;;
  ensure_introduction_point ip_counter ih new_state.

Definition monitor_hidden_swarms (new_states : gmap bytes DownloadStatus)
    (hops : gmap bytes Z) : M unit :=
  c <- gets id ;;
  let ip_counter :=
    Counter (map info_hash
                 (List.filter (fun c => bool_decide (ctype c = CIRCUIT_TYPE_IP_SEEDER))
                              (map snd (map_to_list (circuits c))))) in
  for_each (elements (dom new_states ∪ dom (download_states c)))
           (monitor_hidden_swarm new_states hops ip_counter).

(** One turn of the loop of [monitor_downloads]. *)
Definition monitor_download (l : locals) (ds : DownloadState) : M locals :=
  let download := ds_download ds in
  if hidden download then ret l
  else
    let hop_count := config_hops download in
    if 0 <? hop_count then
      let real_info_hash := def_infohash download in
      let ih := get_lookup_info_hash real_info_hash in
      let l1 := {| new_states := <[ih := ds_status ds]> (new_states l);
                   hops := <[ih := hop_count]> (hops l);
                   active_downloads_per_hop := active_downloads_per_hop l |} in
      if bool_decide (Some (state_status download) ∈ active) then
        let l2 := {| new_states := new_states l1;
                     hops := hops l1;
                     active_downloads_per_hop :=
                       <[hop_count :=
                           default 0 (active_downloads_per_hop l1 !! hop_count) + 1]>
                         (active_downloads_per_hop l1) |} in
        c <- gets id ;;
        now <- time_time ;;
        (if Qle_bool (default 0%Q (last_forced_announce c !! real_info_hash) + 60) now
            && bool_decide (find_circuits (circuits c) hop_count ≠ [])
            && bool_decide (ds_peer_list ds = [])
            && has_session c hop_count
         then
           n <- gets ticks ;;
           emit (ForceDhtAnnounce real_info_hash n) ;;
           recorded <- time_time ;;
           (fun c => (Ret tt,
                      with_last_forced_announce c
                        (<[real_info_hash := recorded]> (last_forced_announce c))))
         else ret tt) ;;
        ret l2
      else ret l1
    else ret l.

Definition monitor_downloads (dslist : list DownloadState) : M unit :=
  c <- gets id ;;
  let l0 := {| new_states := ∅; hops := ∅;
               active_downloads_per_hop :=
                 if 0 <? default_hops c then {[default_hops c := 0]} else ∅ |} in
  l <- fold_each dslist monitor_download l0 ;;
  (fun c => (Ret tt,
             with_circuits_needed c
               ((fun download_count =>
                   Z.min (Z.max download_count (min_circuits c)) (max_circuits c))
                  <$> active_downloads_per_hop l))) ;;
  monitor_hidden_swarms (new_states l) (hops l) ;;
  (fun c => (Ret tt, with_download_states c (new_states l))).

Definition _poll_download_manager (dl_states : list DownloadState) : M unit :=
  try_except (monitor_downloads dl_states)
             (fun e => logger ERROR "Error on polling Download Manager: %s").

Definition unload : M unit :=
  c <- gets id ;;
  match exitnode_cache c with
  | Some _ => cache_exitnodes_to_disk
  | None => ret tt
  end.

(** The [HTTPRequestCache]s made for a circuit. *)
Definition http_caches_of (c : Community) (cid : Z) : list Cache :=
  List.filter (fun cache => match cache with
                            | HTTPRequestCache cache_cid => bool_decide (cache_cid = cid)
                            | OtherCache _ => false
                            end)
              (map snd (map_to_list (request_cache c))).

Definition http_caches_count (c : Community) (cid : Z) : Z :=
  Z.of_nat (length (http_caches_of c cid)).

Definition open_connection (target : address) (conn : Connection)
  : M (list read_outcome * read_outcome) :=
  emit (OpenConnection target) ;;
  match conn with
  | ConnectFails what => raise (OSError what)
  | ConnectStalls => raise AsyncTimeoutError
  | Connected lines rest => ret (lines, rest)
  end.

Definition is_connected (conn : Connection) : bool :=
  match conn with
  | Connected _ _ => true
  | _ => false
  end.

(** The fragments of a response, in sending order. *)
Definition response_cells (circuit_id identifier : Z) (response : bytes)
  : list HTTPResponsePayload :=
  let num_cells := ceil_div (Z.of_nat (length response)) MAX_HTTP_PACKET_SIZE in
  map (fun i =>
         {| resp_circuit_id := circuit_id; resp_identifier := identifier;
            resp_part := i; resp_total := num_cells;
            resp_response :=
              slice response (i * MAX_HTTP_PACKET_SIZE) ((i + 1) * MAX_HTTP_PACKET_SIZE) |})
      (range num_cells).

Definition on_http_request (source_address : address) (payload : HTTPRequestPayload)
    (circuit_id : Z) (conn : Connection) : M unit :=
  c <- gets id ;;
  if bool_decide (exit_sockets c !! circuit_id = None) then
    logger WARNING "Received unexpected http-request"
  else if 5 <? http_caches_count c circuit_id then
    logger WARNING "Too many HTTP requests coming from circuit %s"
  else
    logger DEBUG "Got http-request from %s" ;;
    fetched <-
      try_finally
        (try_except
           (logger DEBUG "Opening TCP connection to %s" ;;
            reader <- open_connection (req_target payload) conn ;;
            emit (WriterWrite (req_request payload)) ;;
            response <- lift (read_response (fst reader) (snd reader) []) ;;
            ret (Some response))
           (fun e => match e with
                     | OSError _ =>
                         logger WARNING "Tunnel HTTP request failed" ;; ret None
                     | AsyncTimeoutError =>
                         logger WARNING "Tunnel HTTP request timed out" ;; ret None
                     | _ => raise e
                     end))
        (if is_connected conn then emit WriterClose else ret tt) ;;
    match fetched with
    | None => ret tt
    | Some response =>
        let send :=
          for_each (response_cells circuit_id (req_identifier payload) response)
                   (fun cell => emit (SendCell source_address cell)) in
        if negb (startswith response (b_lit "HTTP/1.1 307")) then
          let '(_, _, bencoded_data) := partition response [x0d; x0a; x0d; x0a] in
          if negb (is_bencoded bencoded_data) then
            logger WARNING "Tunnel HTTP request not allowed"
          else send
        else send
    end.

End Methods.

(** ** [get_available_strategies] *)

Inductive Strategy :=
| GoldenRatioStrategy
| LibraryStrategy (name : string).

(** [d.update(other)]: the dictionary is changed in place and the call
    returns [None]; the pair is the dictionary afterwards and the value
    returned. *)
Definition dict_update {V R} (d other : gmap string V) : gmap string V * option R :=
  (other ∪ d, None).

(** [super_strategies] is what [super().get_available_strategies()] returns. *)
Definition get_available_strategies (super_strategies : gmap string Strategy)
  : option (gmap string Strategy) :=
  snd (dict_update super_strategies {["GoldenRatioStrategy" := GoldenRatioStrategy]}).

(** * The EVA incoming transfer *)

Module EVA.

(** Modelled from the spec: [TransferWindow] (transfer_window.py is not
    under src/): [size] empty slots from block [start], nothing processed. *)
Record TransferWindow := {
  blocks : list (option bytes);
  start : Z;
  processed : Z;
  finished : bool
}.

Definition new_window (start : Z) (size : nat) : TransferWindow :=
  {| blocks := replicate size None; start := start; processed := 0; finished := false |}.

(** The blocks up to the first empty slot. *)
Fixpoint consecutive_blocks (blocks : list (option bytes)) : list bytes :=
  match blocks with
  | Some b :: rest => b :: consecutive_blocks rest
  | _ => []
  end.

Record Acknowledgement := { number : Z; window_size : Z; ack_nonce : Z }.

Record IncomingTransfer := {
  info : bytes;
  data_size : Z;
  nonce : Z;
  protocol_window_size : nat;
  data_list : list bytes;
  window : option TransferWindow;
  attempt : Z;
  last_window : bool
}.

(** Modelled from the spec: [IncomingTransfer.make_acknowledgement]
    (incoming_transfer.py is not under src/). Section 4.9: flush the
    window's blocks into [data_list], start the next window at the
    number of blocks consumed so far with [processed = 0] and
    [window_size] slots, and acknowledge with that start as the next
    expected block (section 9: the two are the same quantity). *)
Definition make_acknowledgement (t : IncomingTransfer)
  : Acknowledgement * IncomingTransfer :=
  let data_list' :=
    data_list t ++ match window t with
                   | Some w => consecutive_blocks (blocks w)
                   | None => []
                   end in
  let w' := new_window (Z.of_nat (length data_list')) (protocol_window_size t) in
  ({| number := start w'; window_size := Z.of_nat (length (blocks w'));
      ack_nonce := nonce t |},
   {| info := info t; data_size := data_size t; nonce := nonce t;
      protocol_window_size := protocol_window_size t;
      data_list := data_list'; window := Some w';
      attempt := attempt t; last_window := last_window t |}).

(** The fixture of the unit test, for a protocol with the given window size. *)
Definition incoming_transfer (window_size : nat) : IncomingTransfer :=
  {| info := b_lit "info"; data_size := 100; nonce := 0;
     protocol_window_size := window_size;
     data_list := []; window := None; attempt := 0; last_window := false |}.

Definition set_window (t : IncomingTransfer) (w : TransferWindow) : IncomingTransfer :=
  {| info := info t; data_size := data_size t; nonce := nonce t;
     protocol_window_size := protocol_window_size t;
     data_list := data_list t; window := Some w;
     attempt := attempt t; last_window := last_window t |}.

Definition set_blocks (w : TransferWindow) (bs : list (option bytes)) : TransferWindow :=
  {| blocks := bs; start := start w; processed := processed w; finished := finished w |}.

Definition d : bytes := b_lit "d".
Definition a : bytes := b_lit "a".
Definition t : bytes := b_lit "t".

End EVA.

(** * Vocabulary of the specification *)

(** The circuits joined for others: relays and exit sockets. *)
Definition joined (c : Community) : Z :=
  Z.of_nat (size (relay_from_to c)) + Z.of_nat (size (exit_sockets c)).

(** The transition predicate for joining a swarm, as section 4.6 writes it. *)
Definition swarm_join_predicate (old_state new_state : option DownloadStatus) : bool :=
  bool_decide (new_state ≠ old_state)
  && bool_decide (new_state ∈ [Some DOWNLOADING; Some SEEDING; Some METADATA])
  && negb (bool_decide (old_state = Some METADATA)
           && bool_decide (new_state = Some DOWNLOADING)).

Definition is_join (ih : bytes) (e : event) : bool :=
  match e with
  | JoinSwarm ih' _ _ => bool_decide (ih' = ih)
  | _ => false
  end.

(** How many times [join_swarm] was called for an infohash. *)
Definition join_count (ih : bytes) (es : list event) : nat :=
  length (List.filter (is_join ih) es).

(** The cells handed to [send_cell], in order. *)
Fixpoint sent_cells (es : list event) : list (address * HTTPResponsePayload) :=
  match es with
  | [] => []
  | SendCell to cell :: rest => (to, cell) :: sent_cells rest
  | _ :: rest => sent_cells rest
  end.

(** The forced announces in a trace, in order, each with the number of
    clock readings that preceded it. *)
Fixpoint announces (es : list event) : list (bytes * nat) :=
  match es with
  | [] => []
  | ForceDhtAnnounce real_info_hash n :: rest => (real_info_hash, n) :: announces rest
  | _ :: rest => announces rest
  end.

(** A community as [__init__] leaves the announce throttle. *)
Definition fresh (c : Community) : Prop :=
  last_forced_announce c = ∅ /\ announces (trace c) = [].

(** The life of a community, as far as the throttle can tell: a poll of
    the download manager, or anything else, which neither announces nor
    touches [last_forced_announce]. *)
Inductive step (clock : nat -> Q) (find_circuits : gmap Z Circuit -> Z -> list Circuit)
  : Community -> Community -> Prop :=
| step_poll c dl_states :
    step clock find_circuits c
         (snd (_poll_download_manager clock find_circuits dl_states c))
| step_other c c' :
    last_forced_announce c' = last_forced_announce c ->
    announces (trace c') = announces (trace c) ->
    (ticks c <= ticks c')%nat ->
    step clock find_circuits c c'.

(** Any two announces of one infohash are 60 s apart: the reading taken
    right after the earlier call and the one taken right before the later. *)
Definition throttled (clock : nat -> Q) (log : list (bytes * nat)) : Prop :=
  forall (i j : nat) ih n1 n2,
    (i < j)%nat -> log !! i = Some (ih, n1) -> log !! j = Some (ih, n2) ->
    (0 < n2)%nat /\ (clock n1 + 60 <= clock (pred n2))%Q.

(** What the exit node tests before it passes a response on (section
    4.10): the part after the first CR LF CR LF. *)
Definition body_of (response : bytes) : bytes :=
  snd (partition response [x0d; x0a; x0d; x0a]).

(** The invariant behind the throttle: every announce made is recorded
    with a reading no earlier than the one that followed it. *)
Definition announce_inv (clock : nat -> Q) (c : Community) : Prop :=
  (forall ih n, (ih, n) ∈ announces (trace c) ->
     exists v, last_forced_announce c !! ih = Some v /\ (clock n <= v)%Q)
  /\ throttled clock (announces (trace c)).

(** A method keeps an invariant of the community, however it ends. *)
Definition preserves (I : Community -> Prop) {A} (m : M A) : Prop :=
  forall c, I c -> I (snd (m c)).

(** The exit node turns the request away at the cap on requests per circuit. *)
Definition refuses_http_request (entry : Type) (bdecode : bytes -> option entry)
    (source_address : address) (payload : HTTPRequestPayload) (circuit_id : Z)
    (conn : Connection) (c : Community) : Prop :=
  on_http_request entry bdecode source_address payload circuit_id conn c
  = (Ret tt,
     with_trace c
       (trace c ++ [Log WARNING "Too many HTTP requests coming from circuit %s"])).

(** The bytes of the fragments of the cells sent, joined in sending order. *)
Definition reassembled (cells : list (address * HTTPResponsePayload)) : bytes :=
  concat (map (fun sent => resp_response (snd sent)) cells).

(** * Scenarios *)

Module Scenario.

(** A community with nothing in it. *)
Definition idle : Community :=
  {| max_joined_circuits := 5; min_circuits := 1; max_circuits := 8; default_hops := 1;
     exitnode_cache := None; has_session := fun _ => true;
     circuits := ∅; relay_from_to := ∅; exit_sockets := ∅; request_cache := ∅;
     exit_candidates := [];
     download_states := ∅; last_forced_announce := ∅; circuits_needed := ∅;
     ticks := 0; trace := [] |}.

Definition with_exit_sockets (c : Community) (m : gmap Z TunnelExitSocket) : Community :=
  {| max_joined_circuits := max_joined_circuits c; min_circuits := min_circuits c;
     max_circuits := max_circuits c; default_hops := default_hops c;
     exitnode_cache := exitnode_cache c; has_session := has_session c;
     circuits := circuits c; relay_from_to := relay_from_to c;
     exit_sockets := m; request_cache := request_cache c;
     exit_candidates := exit_candidates c;
     download_states := download_states c;
     last_forced_announce := last_forced_announce c;
     circuits_needed := circuits_needed c; ticks := ticks c; trace := trace c |}.

Definition with_request_cache (c : Community) (m : gmap (string * Z) Cache) : Community :=
  {| max_joined_circuits := max_joined_circuits c; min_circuits := min_circuits c;
     max_circuits := max_circuits c; default_hops := default_hops c;
     exitnode_cache := exitnode_cache c; has_session := has_session c;
     circuits := circuits c; relay_from_to := relay_from_to c;
     exit_sockets := exit_sockets c; request_cache := m;
     exit_candidates := exit_candidates c;
     download_states := download_states c;
     last_forced_announce := last_forced_announce c;
     circuits_needed := circuits_needed c; ticks := ticks c; trace := trace c |}.

Definition with_exitnode_cache (c : Community) (p : option Path) : Community :=
  {| max_joined_circuits := max_joined_circuits c; min_circuits := min_circuits c;
     max_circuits := max_circuits c; default_hops := default_hops c;
     exitnode_cache := p; has_session := has_session c;
     circuits := circuits c; relay_from_to := relay_from_to c;
     exit_sockets := exit_sockets c; request_cache := request_cache c;
     exit_candidates := exit_candidates c;
     download_states := download_states c;
     last_forced_announce := last_forced_announce c;
     circuits_needed := circuits_needed c; ticks := ticks c; trace := trace c |}.

Definition initiator : address := ("10.0.0.7"%string, 7759).
Definition tracker : address := ("tracker.example"%string, 80).

Definition request : HTTPRequestPayload :=
  {| req_circuit_id := 1; req_identifier := 42; req_target := tracker;
     req_request := b_lit "GET /announce HTTP/1.1" |}.

(** An exit node serving circuit 1. *)
Definition exit_node : Community :=
  with_exit_sockets idle {[1 := {| exit_circuit_id := 1; exit_peer := initiator |}]}.

(** The same, with five [HTTPRequestCache]s made for circuit 1. *)
Definition five_outstanding : Community :=
  with_request_cache exit_node
    (list_to_map (map (fun n => (("http-request"%string, n), HTTPRequestCache 1))
                      [101; 102; 103; 104; 105])).

Definition crlf : bytes := [x0d; x0a].

(** A redirect of 3,000 bytes in all, as the tracker sends it. *)
Definition redirect_head : bytes := b_lit "HTTP/1.1 307 Temporary Redirect" ++ crlf.
Definition redirect : Connection :=
  Connected [Data redirect_head; Data crlf] (Data (replicate 2965 "x"%byte)).
Definition redirect_bytes : bytes := redirect_head ++ crlf ++ replicate 2965 "x"%byte.

(** A page that is no tracker answer. *)
Definition page_head : bytes := b_lit "HTTP/1.1 200 OK" ++ crlf.
Definition page : Connection :=
  Connected [Data page_head; Data crlf] (Data (b_lit "<html></html>")).
Definition page_bytes : bytes := page_head ++ crlf ++ b_lit "<html></html>".

(** A decoder that takes dictionaries only, to stand in for libtorrent's. *)
Definition dictionaries_only (x : bytes) : option unit :=
  if startswith x (b_lit "d") then Some tt else None.

(** A cache file that is there and cannot be read. *)
Definition unreadable : Path :=
  {| is_file := true; open_read := inl "Permission denied"%string;
     write_bytes := fun _ => Some "Permission denied"%string |}.

Definition missing : Path :=
  {| is_file := false; open_read := inl "No such file or directory"%string;
     write_bytes := fun _ => None |}.

Definition no_peers (snapshot : bytes) : list address := [].
Definition empty_snapshot (peers : list address) : bytes := [].

(** One anonymous download that went from fetching metadata to downloading. *)
Definition real_info_hash : bytes := replicate 20 "001"%byte.
Definition lookup : bytes := Eval vm_compute in get_lookup_info_hash real_info_hash.

Definition with_old_states (c : Community) : Community :=
  with_download_states c {[lookup := METADATA]}.

Definition download : Download :=
  {| hidden := false; config_hops := 1; def_infohash := real_info_hash;
     state_status := DOWNLOADING |}.

Definition polled : list DownloadState :=
  [{| ds_download := download; ds_status := DOWNLOADING; ds_peer_list := [] |}].

(** A clock read every 100 s, and a layer that always has a circuit. *)
Definition every_100s (n : nat) : Q := inject_Z (1000 + 100 * Z.of_nat n).

Definition a_circuit : Circuit :=
  {| circuit_id := 9; ctype := CIRCUIT_TYPE_OTHER "DATA"; info_hash := None; goal_hops := 1 |}.
Definition always_a_circuit (circuits : gmap Z Circuit) (hops : Z) : list Circuit :=
  [a_circuit].

Definition after_one_poll : Community :=
  snd (_poll_download_manager every_100s always_a_circuit polled idle).
Definition after_two_polls : Community :=
  snd (_poll_download_manager every_100s always_a_circuit polled after_one_poll).

End Scenario.

(** * Vocabulary for the rest of the community *)

(** A download the monitor takes up: no metainfo download, and anonymous. *)
Definition monitored (ds : DownloadState) : bool :=
  negb (hidden (ds_download ds)) && (0 <? config_hops (ds_download ds)).

(** The key of a download in the hidden-swarm bookkeeping. *)
Definition lookup_of (ds : DownloadState) : bytes :=
  get_lookup_info_hash (def_infohash (ds_download ds)).

Definition is_active (ds : DownloadState) : bool :=
  bool_decide (Some (state_status (ds_download ds)) ∈ active).

(** The locals of [monitor_downloads] after one turn of its loop: they do
    not depend on the community. *)
Definition monitor_download_locals (l : locals) (ds : DownloadState) : locals :=
  let download := ds_download ds in
  if hidden download then l
  else
    let hop_count := config_hops download in
    if 0 <? hop_count then
      let ih := get_lookup_info_hash (def_infohash download) in
      let l1 := {| new_states := <[ih := ds_status ds]> (new_states l);
                   hops := <[ih := hop_count]> (hops l);
                   active_downloads_per_hop := active_downloads_per_hop l |} in
      if bool_decide (Some (state_status download) ∈ active) then
        {| new_states := new_states l1;
           hops := hops l1;
           active_downloads_per_hop :=
             <[hop_count := default 0 (active_downloads_per_hop l1 !! hop_count) + 1]>
               (active_downloads_per_hop l1) |}
      else l1
    else l.

(** The locals [monitor_downloads] starts from. *)
Definition monitor_locals_start (c : Community) : locals :=
  {| new_states := ∅; hops := ∅;
     active_downloads_per_hop :=
       if 0 <? default_hops c then {[default_hops c := 0]} else ∅ |}.

(** The active anonymous downloads that ask for [h] hops. *)
Definition active_count (dslist : list DownloadState) (h : Z) : Z :=
  Z.of_nat (length (List.filter
                      (fun ds => monitored ds && is_active ds
                                 && (config_hops (ds_download ds) =? h))
                      dslist)).

Definition clamp (lo hi n : Z) : Z := Z.min (Z.max n lo) hi.

(** What a poll leaves alone: everything but the throttle, the clock and the trace. *)
Definition same_registry (c c' : Community) : Prop :=
  min_circuits c' = min_circuits c /\ max_circuits c' = max_circuits c
  /\ default_hops c' = default_hops c /\ circuits c' = circuits c
  /\ download_states c' = download_states c
  /\ circuits_needed c' = circuits_needed c.

Definition count_events (f : event -> bool) (es : list event) : nat :=
  length (List.filter f es).

Definition is_leave (ih : bytes) (e : event) : bool :=
  match e with
  | LeaveSwarm ih' => bool_decide (ih' = ih)
  | _ => false
  end.

Definition is_introduction (ih : bytes) (e : event) : bool :=
  match e with
  | CreateIntroductionPoint ih' => bool_decide (ih' = ih)
  | _ => false
  end.

Definition is_swarm_change (e : event) : bool :=
  match e with
  | JoinSwarm _ _ _ | LeaveSwarm _ => true
  | _ => false
  end.

Definition is_event (e0 : event) (e : event) : bool :=
  match e0, e with
  | WriterWrite _, WriterWrite _ => true
  | WriterClose, WriterClose => true
  | OpenConnection _, OpenConnection _ => true
  | _, _ => false
  end.

(** The test of [monitor_hidden_swarms] for leaving a swarm. *)
Definition swarm_leave_predicate (old_state new_state : option DownloadStatus) : bool :=
  bool_decide (new_state ≠ old_state)
  && bool_decide (new_state ∈ [Some STOPPED; None]).

(** The circuits that introduce for an infohash. *)
Definition introducing_circuits (c : Community) (ih : bytes) : Z :=
  Z.of_nat (length (List.filter
                      (fun x => bool_decide (ctype x = CIRCUIT_TYPE_IP_SEEDER)
                                && bool_decide (info_hash x = Some ih))
                      (map snd (map_to_list (circuits c))))).

(** The counter [monitor_hidden_swarms] builds before its loop. *)
Definition ip_counter_of (c : Community) : gmap (option bytes) Z :=
  Counter (map info_hash
               (List.filter (fun c => bool_decide (ctype c = CIRCUIT_TYPE_IP_SEEDER))
                            (map snd (map_to_list (circuits c))))).

(** What a read delivered, when it did. *)
Definition line_data (o : read_outcome) : bytes :=
  match o with
  | Data data => data
  | _ => []
  end.

(** What one turn of the loop of [monitor_hidden_swarms] sends out. *)
Definition swarm_events (new_states old_states : gmap bytes DownloadStatus)
    (hops : gmap bytes Z) (ip_counter : gmap (option bytes) Z) (ih : bytes) : list event :=
  let new_state := new_states !! ih in
  let old_state := old_states !! ih in
  (if swarm_join_predicate old_state new_state then
     [JoinSwarm ih (default 0 (hops !! ih)) (bool_decide (new_state = Some SEEDING))]
   else if swarm_leave_predicate old_state new_state then [LeaveSwarm ih]
   else [])
  ++ (if bool_decide (new_state = Some SEEDING) then
        flat_map (fun _ : Z => [Log INFO "Create introducing circuit for %s";
                                CreateIntroductionPoint ih])
                 (range (1 - default 0 (ip_counter !! Some ih)))
      else []).

(** * Downloads, their peers and the circuits that carried them *)

Module Torrents.

(** [download.handle]: the libtorrent handle and the peers it is connected to. *)
Record TorrentHandle := {
  is_valid : bool;
  peer_info : list address        (* pi.ip for pi in handle.get_peer_info() *)
}.

(** A download as an object: its identity, what the monitor reads of it,
    and its handle. *)
Record Torrent := {
  torrent_id : nat;
  download : Download;
  handle : option TorrentHandle
}.

(** What the methods ask of libtorrent and of the log. *)
Inductive call :=
| AddPeer (torrent : nat) (peer : address)
| LogInfo (msg : string)
| LogError (msg : string).

(** The loop of [get_download] over [get_downloads()]. *)
Fixpoint first_download (downloads : list Torrent) (lookup_info_hash : bytes)
  : option Torrent :=
  match downloads with
  | [] => None
  | t :: rest =>
      if bool_decide (lookup_info_hash = get_lookup_info_hash (def_infohash (download t)))
      then Some t
      else first_download rest lookup_info_hash
  end.

(** [download_manager] is [None] when the community has none. *)
Definition get_download (download_manager : option (list Torrent))
    (lookup_info_hash : bytes) : option Torrent :=
  match download_manager with
  | None => None
  | Some downloads => first_download downloads lookup_info_hash
  end.

Definition on_e2e_finished (download_manager : option (list Torrent))
    (peer : address) (ih : bytes) : list call :=
  match get_download download_manager ih with
  | Some dl => [AddPeer (torrent_id dl) peer]
  | None => [LogError "Could not find download for adding hidden services peer %s:%d!"]
  end.

(** [bittorrent_peers]: the peers to give back to each download, by the
    identity of the download. The order of the dictionary is not kept. *)
Abbreviation peers_by_torrent := (gmap nat (gset address)).

Definition readd_torrent (acc : list call * peers_by_torrent)
    (item : nat * gset address) : list call * peers_by_torrent :=
  let '(torrent, peers) := item in
  (fst acc ++ flat_map (fun peer => [LogInfo "Re-adding peer %s to torrent %s";
                                     AddPeer torrent peer])
                       (elements peers),
   delete torrent (snd acc)).

Definition readd_bittorrent_peers (bittorrent_peers : peers_by_torrent)
  : list call * peers_by_torrent :=
  fold_left readd_torrent (map_to_list bittorrent_peers) ([], bittorrent_peers).

(** [has_circuits]: whether [find_circuits()] finds any. *)
Definition update_torrent (has_circuits : bool) (peers : gset address)
    (download : Torrent) (bittorrent_peers : peers_by_torrent)
  : list call * peers_by_torrent :=
  match handle download with
  | None => ([], bittorrent_peers)
  | Some h =>
      if negb (is_valid h) then ([], bittorrent_peers)
      else
        let peers := peers ∩ list_to_set (peer_info h) in
        if bool_decide (peers ≠ ∅) then
          let bittorrent_peers :=
            match bittorrent_peers !! torrent_id download with
            | None => <[torrent_id download := peers]> bittorrent_peers
            | Some old => <[torrent_id download := peers ∪ old]> bittorrent_peers
            end in
          if has_circuits then readd_bittorrent_peers bittorrent_peers
          else ([], bittorrent_peers)
        else ([], bittorrent_peers)
  end.

End Torrents.

(** * The notifier ([tribler/core/notifier.py]) *)

Module Notifier.

Record Desc := {
  name : string;
  fields : list string;
  types : list string
}.

Inductive Notification :=
| torrent_finished
| tribler_shutdown_state
| tribler_new_version
| channel_discovered
| remote_query_results
| local_query_results
| circuit_removed
| tunnel_removed
| watch_folder_corrupt_file
| channel_entity_updated
| low_space
| events_start
| tribler_exception
| content_discovery_community_unknown_torrent_added
| report_config_error
| peer_disconnected
| tribler_torrent_peer_update
| torrent_metadata_added
| new_torrent_metadata_created.

#[global] Instance Notification_eq_dec : EqDecision Notification.
Proof. solve_decision. Defined.

(** [topic.value] *)
Definition value (topic : Notification) : Desc :=
  match topic with
  | torrent_finished =>
      {| name := "torrent_finished"; fields := ["infohash"; "name"; "hidden"];
         types := ["str"; "str"; "bool"] |}
  | tribler_shutdown_state =>
      {| name := "tribler_shutdown_state"; fields := ["state"]; types := ["str"] |}
  | tribler_new_version =>
      {| name := "tribler_new_version"; fields := ["version"]; types := ["str"] |}
  | channel_discovered =>
      {| name := "channel_discovered"; fields := ["data"]; types := ["dict"] |}
  | remote_query_results =>
      {| name := "remote_query_results"; fields := ["data"]; types := ["dict"] |}
  | local_query_results =>
      {| name := "local_query_results"; fields := ["data"]; types := ["dict"] |}
  | circuit_removed =>
      {| name := "circuit_removed"; fields := ["circuit"; "additional_info"];
         types := ["str"; "Circuit"] |}
  | tunnel_removed =>
      {| name := "tunnel_removed";
         fields := ["circuit_id"; "bytes_up"; "bytes_down"; "uptime"; "additional_info"];
         types := ["int"; "int"; "int"; "float"; "str"] |}
  | watch_folder_corrupt_file =>
      {| name := "watch_folder_corrupt_file"; fields := ["file_name"]; types := ["str"] |}
  | channel_entity_updated =>
      {| name := "channel_entity_updated"; fields := ["channel_update_dict"];
         types := ["dict"] |}
  | low_space =>
      {| name := "low_space"; fields := ["disk_usage_data"]; types := ["dict"] |}
  | events_start =>
      {| name := "events_start"; fields := ["public_key"; "version"];
         types := ["str"; "str"] |}
  | tribler_exception =>
      {| name := "tribler_exception"; fields := ["error"]; types := ["dict"] |}
  | content_discovery_community_unknown_torrent_added =>
      {| name := "content_discovery_community_unknown_torrent_added";
         fields := []; types := [] |}
  | report_config_error =>
      {| name := "report_config_error"; fields := ["error"]; types := ["str"] |}
  | peer_disconnected =>
      {| name := "peer_disconnected"; fields := ["peer_id"]; types := ["bytes"] |}
  | tribler_torrent_peer_update =>
      {| name := "tribler_torrent_peer_update";
         fields := ["peer_id"; "infohash"; "balance"];
         types := ["bytes"; "bytes"; "int"] |}
  | torrent_metadata_added =>
      {| name := "torrent_metadata_added"; fields := ["metadata"]; types := ["dict"] |}
  | new_torrent_metadata_created =>
      {| name := "new_torrent_metadata_created"; fields := ["infohash"; "title"];
         types := ["Optional[bytes]"; "Optional[str]"] |}
  end.

(** The members of the enum under their attribute names, in the order of
    the class body. *)
Definition members : list (string * Notification) :=
  [("torrent_finished", torrent_finished);
   ("tribler_shutdown_state", tribler_shutdown_state);
   ("tribler_new_version", tribler_new_version);
   ("channel_discovered", channel_discovered);
   ("remote_query_results", remote_query_results);
   ("local_query_results", local_query_results);
   ("circuit_removed", circuit_removed);
   ("tunnel_removed", tunnel_removed);
   ("watch_folder_corrupt_file", watch_folder_corrupt_file);
   ("channel_entity_updated", channel_entity_updated);
   ("low_space", low_space);
   ("events_start", events_start);
   ("tribler_exception", tribler_exception);
   ("content_discovery_community_unknown_torrent_added",
    content_discovery_community_unknown_torrent_added);
   ("report_config_error", report_config_error);
   ("peer_disconnected", peer_disconnected);
   ("tribler_torrent_peer_update", tribler_torrent_peer_update);
   ("torrent_metadata_added", torrent_metadata_added);
   ("new_torrent_metadata_created", new_torrent_metadata_created)].

(** [getattr(Notification, topic)], where it gives a member; any other
    attribute has no [value], and the unpacking raises [AttributeError]. *)
Fixpoint lookup_member (l : list (string * Notification)) (attr : string)
  : option Notification :=
  match l with
  | [] => None
  | (n, topic) :: rest => if bool_decide (n = attr) then Some topic else lookup_member rest attr
  end.

Definition getattr (attr : string) : option Notification := lookup_member members attr.

(** The values handed over as keyword arguments. *)
Inductive kwvalue :=
| KwCircuit (circuit : Circuit)
| KwRelay (relay : RelayRoute)
| KwExitSocket (exit_socket : TunnelExitSocket)
| KwStr (s : string)
| KwInt (z : Z)
| KwBytes (b : bytes).

Abbreviation kwargs := (list (string * kwvalue)).

(** An observer or delegate: who it is, and the exception it raises when
    called, if it raises. *)
Record callback := {
  callback_id : nat;
  callback_raises : option string
}.

(** [observers] is a [defaultdict(list)]: every topic has a list, empty
    until something is added. [delegates] is a set, here in the order it
    is gone through. *)
Record Notifier := {
  observers : Notification -> list callback;
  delegates : list callback
}.

Definition init : Notifier := {| observers := fun _ => []; delegates := [] |}.

Definition add (n : Notifier) (topic : Notification) (observer : callback) : Notifier :=
  {| observers := fun t => if bool_decide (t = topic) then observers n t ++ [observer]
                           else observers n t;
     delegates := delegates n |}.

Inductive delivery :=
| Observed (observer : nat) (args : kwargs)
| Delegated (delegate : nat) (topic : Notification) (args : kwargs).

Inductive raised :=
| AttributeError
| ValueError (message : string)
| CallbackError (message : string).

(** Calling the callbacks one after the other: the first that raises ends it. *)
Fixpoint call_all (deliver : nat -> delivery) (callbacks : list callback)
  : list delivery * option raised :=
  match callbacks with
  | [] => ([], None)
  | cb :: rest =>
      match callback_raises cb with
      | Some message => ([deliver (callback_id cb)], Some (CallbackError message))
      | None =>
          let '(made, r) := call_all deliver rest in
          (deliver (callback_id cb) :: made, r)
      end
  end.

(** [set(args) ^ set(kwargs.keys())] *)
Definition field_mismatch (args : list string) (given : kwargs) : gset string :=
  let expected : gset string := list_to_set args in
  let received : gset string := list_to_set (map fst given) in
  (expected ∖ received) ∪ (received ∖ expected).

(** [notify(topic, **kwargs)]: the calls made, and the exception if one
    leaves the method. *)
Definition notify (n : Notifier) (topic : Notification + string) (given : kwargs)
  : list delivery * option raised :=
  match (match topic with
         | inl member => Some member
         | inr attr => getattr attr
         end) with
  | None => ([], Some AttributeError)
  | Some topic =>
      let d := value topic in
      if bool_decide (field_mismatch (fields d) given ≠ ∅) then
        ([], Some (ValueError (name d ++ " expecting arguments")))
      else
        match call_all (fun o => Observed o given) (observers n topic) with
        | (made, Some e) => (made, Some e)
        | (made, None) =>
            let '(made', r) := call_all (fun d => Delegated d topic given) (delegates n) in
            (made ++ made', r)
        end
  end.

End Notifier.

(** * Removing circuits, relays and exit sockets *)

Module Removal.
Import Notifier Torrents.

(** What the removal methods do besides notifying. *)
Inductive step :=
| Delivered (d : delivery)
| Warned (msg : string)
| CircuitDead (circuit : Circuit)        (* dispatcher.circuit_dead(circuit) *)
| CircuitClose (circuit : Circuit)       (* circuit.close() *)
| Torrent (c : call)                     (* what update_torrent asks for *)
| SuperRemoveCircuit (circuit_id : Z)
| SuperRemoveExitSocket (circuit_id : Z).

Definition circuit_removed_args (circuit : kwvalue) (additional_info : string) : kwargs :=
  [("circuit"%string, circuit); ("additional_info"%string, KwStr additional_info)].

(** [notifier] is [settings.notifier], [None] when there is none. The
    result is what was done and the exception that ended it, if any. *)
Definition remove_exit_socket (c : Community) (notifier : option Notifier)
    (circuit_id : Z) (additional_info : string) : list step * option raised :=
  let notified :=
    match exit_sockets c !! circuit_id, notifier with
    | Some exit_socket, Some n =>
        notify n (inl circuit_removed)
               (circuit_removed_args (KwExitSocket exit_socket) additional_info)
    | _, _ => ([], None)
    end in
  match notified with
  | (made, Some e) => (map Delivered made, Some e)
  | (made, None) => (map Delivered made ++ [SuperRemoveExitSocket circuit_id], None)
  end.

(** [removed_relay] is what [super().remove_relay] returned. *)
Definition remove_relay (notifier : option Notifier) (removed_relay : option RelayRoute)
    (additional_info : string) : list step * option raised :=
  match notifier, removed_relay with
  | Some n, Some relay =>
      let '(made, r) := notify n (inl circuit_removed)
                               (circuit_removed_args (KwRelay relay) additional_info) in
      (map Delivered made, r)
  | _, _ => ([], None)
  end.

(** The loop of [remove_circuit] over the downloads. *)
Fixpoint update_torrents (has_circuits : bool) (affected_peers : gset address)
    (downloads : list Torrents.Torrent) (bittorrent_peers : peers_by_torrent)
  : list call * peers_by_torrent :=
  match downloads with
  | [] => ([], bittorrent_peers)
  | download :: rest =>
      let '(calls, bittorrent_peers) :=
        update_torrent has_circuits affected_peers download bittorrent_peers in
      let '(calls', bittorrent_peers) :=
        update_torrents has_circuits affected_peers rest bittorrent_peers in
      (calls ++ calls', bittorrent_peers)
  end.

(** [affected_peers] is what [dispatcher.circuit_dead] answers for the
    circuit, [has_circuits] whether [find_circuits()] finds any once the
    circuit is closed. *)
Definition remove_circuit (c : Community) (notifier : option Notifier)
    (download_manager : option (list Torrents.Torrent))
    (affected_peers : gset address) (has_circuits : bool)
    (circuit_id : Z) (additional_info : string) (bittorrent_peers : peers_by_torrent)
  : list step * option raised * peers_by_torrent :=
  match circuits c !! circuit_id with
  | None =>
      ([Warned "Circuit %d not found when trying to remove it"], None, bittorrent_peers)
  | Some circuit =>
      let notified :=
        match notifier with
        | Some n => notify n (inl circuit_removed)
                           (circuit_removed_args (KwCircuit circuit) additional_info)
        | None => ([], None)
        end in
      match notified with
      | (made, Some e) => (map Delivered made, Some e, bittorrent_peers)
      | (made, None) =>
          let '(calls, bittorrent_peers) :=
            match download_manager with
            | Some downloads =>
                update_torrents has_circuits affected_peers downloads bittorrent_peers
            | None => ([], bittorrent_peers)
            end in
          (map Delivered made ++ [CircuitDead circuit; CircuitClose circuit]
           ++ map Torrent calls ++ [SuperRemoveCircuit circuit_id],
           None, bittorrent_peers)
      end
  end.

End Removal.

(** * Binding the SOCKS5 sessions to libtorrent ([create_introduction_point]) *)

Module Socks.
Import Torrents.

Record UdpConnection := { remote_udp_address : option address }.
Record Socks5Session := { udp_connection : option UdpConnection }.
Record Socks5Server := { sessions : list Socks5Session }.

(** [settings.download_manager], as far as the method reads it. The
    dictionaries keep their order. *)
Record DownloadManager := {
  downloads : list Torrent;                       (* get_downloads() *)
  listen_ports : list (Z * list (string * Z));    (* hops -> interface -> port *)
  session_listen_port : Z -> Z                    (* get_session(hops).listen_port() *)
}.

Inductive raised :=
| AttributeError     (* listen_ports.get(hops) is None *)
| IndexError.        (* socks_servers[hops - 1] *)

(** [d.get(k)] and [d[k]] on a dictionary kept as a list of items. *)
Fixpoint dict_get {K V} `{EqDecision K} (d : list (K * V)) (k : K) : option V :=
  match d with
  | [] => None
  | (k', v) :: rest => if decide (k' = k) then Some v else dict_get rest k
  end.

(** The position [l[i]] names, counting from the end when [i] is negative. *)
Definition list_position {A} (l : list A) (i : Z) : option nat :=
  let n := Z.of_nat (length l) in
  if (0 <=? i) && (i <? n) then Some (Z.to_nat i)
  else if (i <? 0) && (- n <=? i) then Some (Z.to_nat (i + n))
  else None.

Definition loopback : string := "127.0.0.1".

(** The port libtorrent listens on for [hops]: that of the first
    interface that is not the loopback, or else, and also when that port
    is 0, what the session says. *)
Definition lt_listen_port (dm : DownloadManager) (interfaces : list (string * Z)) (hops : Z)
  : Z :=
  let lt_listen_interfaces :=
    List.filter (fun k => negb (bool_decide (k = loopback))) (map fst interfaces) in
  let port :=
    match lt_listen_interfaces with
    | k :: _ => dict_get interfaces k
    | [] => None
    end in
  match port with
  | Some p => if bool_decide (p ≠ 0) then p else session_listen_port dm hops
  | None => session_listen_port dm hops
  end.

Definition bind_session (port : Z) (session : Socks5Session) : Socks5Session :=
  match udp_connection session with
  | Some connection =>
      if bool_decide (port ≠ 0)
         && bool_decide (remote_udp_address connection = None)
      then {| udp_connection := Some {| remote_udp_address := Some (loopback, port) |} |}
      else session
  | None => session
  end.

(** The servers afterwards, on the way to [super().create_introduction_point];
    or the exception, raised before any session is touched. *)
Definition create_introduction_point (download_manager : option DownloadManager)
    (socks_servers : list Socks5Server) (ih : bytes) : raised + list Socks5Server :=
  match download_manager with
  | None => inr socks_servers
  | Some dm =>
      match get_download (Some (downloads dm)) ih with
      | None => inr socks_servers
      | Some dl =>
          if bool_decide (socks_servers = []) then inr socks_servers
          else
            let hops := config_hops (download dl) in
            match dict_get (listen_ports dm) hops with
            | None => inl AttributeError
            | Some interfaces =>
                let port := lt_listen_port dm interfaces hops in
                match list_position socks_servers (hops - 1) with
                | None => inl IndexError
                | Some i =>
                    match socks_servers !! i with
                    | None => inl IndexError
                    | Some server =>
                        inr (<[i := {| sessions := map (bind_session port) (sessions server) |}]>
                               socks_servers)
                    end
                end
            end
      end
  end.

End Socks.

(** * HTTP responses coming back ([on_http_response]) *)

(** [complete] stands for [cache.add_response(payload)]: whether the
    fragment was the last one missing. *)
Definition on_http_response (complete : Cache -> HTTPResponsePayload -> bool)
    (source_address : address) (payload : HTTPResponsePayload) (circuit_id : Z) : M unit :=
  (c <- gets id ;;
   match request_cache c !! ("http-request"%string, resp_identifier payload) with
   | None => logger WARNING "Received unexpected http-response"
   | Some cache =>
       match cache with
       | OtherCache _ => raise AttributeError
       | HTTPRequestCache cache_circuit_id =>
           if bool_decide (cache_circuit_id ≠ resp_circuit_id payload) then
             logger WARNING "Received http-response from wrong circuit %s != %s"
           else
             logger DEBUG "Got http-response from %s" ;;
             if complete cache payload then
               fun c => (Ret tt,
                         Scenario.with_request_cache c
                           (delete ("http-request"%string, resp_identifier payload)
                                   (request_cache c)))
             else ret tt
       end
   end)%M.

(** * More scenarios *)

Module Cases.

Definition with_circuits (c : Community) (m : gmap Z Circuit) : Community :=
  {| max_joined_circuits := max_joined_circuits c; min_circuits := min_circuits c;
     max_circuits := max_circuits c; default_hops := default_hops c;
     exitnode_cache := exitnode_cache c; has_session := has_session c;
     circuits := m; relay_from_to := relay_from_to c;
     exit_sockets := exit_sockets c; request_cache := request_cache c;
     exit_candidates := exit_candidates c;
     download_states := download_states c;
     last_forced_announce := last_forced_announce c;
     circuits_needed := circuits_needed c; ticks := ticks c; trace := trace c |}.

(** A community whose only circuit is circuit 9. *)
Definition one_circuit : Community :=
  with_circuits Scenario.idle {[9 := Scenario.a_circuit]}.

(** A download that stopped being tracked, and one that started seeding. *)
Definition stopped_tracking : Community := Scenario.with_old_states Scenario.idle.
Definition seeding : gmap bytes DownloadStatus := {[Scenario.lookup := SEEDING]}.
Definition one_hop : gmap bytes Z := {[Scenario.lookup := 1]}.

(** A tracker answer that never ends in a blank line of its own. *)
Definition status_line : bytes := b_lit "HTTP/1.1 200 OK" ++ Scenario.crlf.

(** Two peers and a download connected to the first of them. *)
Definition peer1 : address := ("10.1.0.1"%string, 6881).
Definition peer2 : address := ("10.1.0.2"%string, 6881).

Definition connected : Torrents.Torrent :=
  {| Torrents.torrent_id := 3;
     Torrents.download := Scenario.download;
     Torrents.handle := Some {| Torrents.is_valid := true;
                                Torrents.peer_info := [peer1] |} |}.

Definition waiting : Torrents.peers_by_torrent := {[7%nat := {[peer2]}]}.

(** Callbacks that return, and one that raises. *)
Definition quiet (id : nat) : Notifier.callback :=
  {| Notifier.callback_id := id; Notifier.callback_raises := None |}.
Definition failing (id : nat) : Notifier.callback :=
  {| Notifier.callback_id := id; Notifier.callback_raises := Some "boom"%string |}.

Definition one_observer : Notifier.Notifier :=
  Notifier.add Notifier.init Notifier.circuit_removed (quiet 1).
Definition failing_first : Notifier.Notifier :=
  Notifier.add (Notifier.add Notifier.init Notifier.circuit_removed (failing 1))
               Notifier.circuit_removed (quiet 2).

(** One SOCKS5 server for one hop, with a bound session, a free one and
    one without connection; libtorrent listens on the loopback and on one
    other interface. *)
Definition bound_session : Socks.Socks5Session :=
  {| Socks.udp_connection :=
       Some {| Socks.remote_udp_address := Some ("127.0.0.1"%string, 5000) |} |}.
Definition free_session : Socks.Socks5Session :=
  {| Socks.udp_connection := Some {| Socks.remote_udp_address := None |} |}.
Definition idle_session : Socks.Socks5Session := {| Socks.udp_connection := None |}.

Definition one_server : list Socks.Socks5Server :=
  [{| Socks.sessions := [bound_session; free_session; idle_session] |}].

Definition manager : Socks.DownloadManager :=
  {| Socks.downloads := [connected];
     Socks.listen_ports := [(1, [("127.0.0.1"%string, 1000); ("0.0.0.0"%string, 6881)])];
     Socks.session_listen_port := fun _ => 7000 |}.

End Cases.

(** * The initiator's side of HTTP-over-tunnel ([perform_http_request]) *)

Module Requests.

(** What [perform_http_request] looks at in a circuit of its own. *)
Record TunnelCircuit := {
  circuit : Circuit;
  state_ready : bool;       (* circuit.state == CIRCUIT_STATE_READY *)
  ready : bool;             (* await circuit.ready *)
  hop_address : address     (* circuit.hop.address *)
}.

Inductive raised :=
| RuntimeError (message : string)
| AttributeError.

(** What has happened when the method comes to wait for
    [cache.response_future]: the cell handed to [send_cell]. *)
Abbreviation sent := (address * HTTPRequestPayload)%type.

(** Modelled from the spec: [HTTPRequestCache] (tunnel/caches.py is not
    under src/) is the entry the initiator registers for a request (section
    4.10), of kind "http-request" and with a number of its own, drawn when
    it is made; it carries the id of the circuit the request goes down.
    [request_cache.add] files it under kind and number and answers with the
    entry, or with [None] and nothing filed when the two are taken. *)
Definition request_cache_add (number : Z) (cache : Cache) (c : Community)
  : option Z * Community :=
  match request_cache c !! ("http-request"%string, number) with
  | Some _ => (None, c)
  | None =>
      (Some number,
       Scenario.with_request_cache c
         (<[("http-request"%string, number) := cache]> (request_cache c)))
  end.

(** The loop that tries to build a circuit, [attempts] times at most. *)
Fixpoint build_circuit (attempts : nat)
    (create_circuit : Community -> option TunnelCircuit * Community)
    (circuit : option TunnelCircuit) (c : Community)
  : option TunnelCircuit * Community :=
  match attempts with
  | O => (circuit, c)
  | S more =>
      let '(circuit, c) := create_circuit c in
      match circuit with
      | Some built =>
          if ready built then (circuit, c)
          else build_circuit more create_circuit circuit c
      | None => build_circuit more create_circuit circuit c
      end
  end.

(** [perform_http_request] up to its last await. [http_circuits] is what
    [find_circuits(exit_flags=[PEER_FLAG_EXIT_HTTP])] returns,
    [create_circuit] what [create_circuit(hops, exit_flags=[PEER_FLAG_EXIT_HTTP])]
    does, and [number] the number drawn for the new cache. *)
Definition perform_http_request (http_circuits : list TunnelCircuit)
    (create_circuit : Community -> option TunnelCircuit * Community)
    (number : Z) (destination : address) (request : bytes) (c : Community)
  : (raised + sent) * Community :=
  let '(circuit, c) :=
    match http_circuits with
    | first :: _ => (Some first, c)
    | [] => build_circuit 3 create_circuit None c
    end in
  match circuit with
  | Some found =>
      if state_ready found then
        match request_cache_add number
                (HTTPRequestCache (circuit_id (Requests.circuit found))) c with
        | (Some cache_number, c) =>
            (inr (hop_address found,
                  {| req_circuit_id := circuit_id (Requests.circuit found);
                     req_identifier := cache_number;
                     req_target := destination;
                     req_request := request |}), c)
        | (None, c) => (inl AttributeError, c)
        end
      else (inl (RuntimeError "No HTTP circuit available"), c)
  | None => (inl (RuntimeError "No HTTP circuit available"), c)
  end.

(** A caller that asks for several pages, one call after the other, none
    of them answered yet. *)
Fixpoint perform_http_requests (http_circuits : list TunnelCircuit)
    (create_circuit : Community -> option TunnelCircuit * Community)
    (numbers : list Z) (destination : address) (request : bytes) (c : Community)
  : list (raised + sent) * Community :=
  match numbers with
  | [] => ([], c)
  | number :: more =>
      let '(result, c) :=
        perform_http_request http_circuits create_circuit number destination request c in
      let '(results, c) :=
        perform_http_requests http_circuits create_circuit more destination request c in
      (result :: results, c)
  end.

End Requests.

(** * Inputs that tell the code from the specification *)

Module Inputs.

(** A circuit of our own that ends at an HTTP exit, and a layer that can
    build no other. *)
Definition http_circuit : Requests.TunnelCircuit :=
  {| Requests.circuit := Scenario.a_circuit; Requests.state_ready := true;
     Requests.ready := true; Requests.hop_address := ("10.0.0.9"%string, 7760) |}.

Definition no_circuit (c : Community) : option Requests.TunnelCircuit * Community :=
  (None, c).

Definition get : bytes := b_lit "GET /announce HTTP/1.1".

(** A circuit of our own that happens to carry the id of the exit circuit
    of the scenarios. *)
Definition circuit_1 : Requests.TunnelCircuit :=
  {| Requests.circuit :=
       {| circuit_id := 1; ctype := CIRCUIT_TYPE_OTHER "DATA"; info_hash := None;
          goal_hops := 1 |};
     Requests.state_ready := true; Requests.ready := true;
     Requests.hop_address := ("10.0.0.9"%string, 7760) |}.

(** A page behind a status line and a blank line that end in a bare line
    feed, with a bencoded dictionary after a later CR LF CR LF. *)
Definition lf : bytes := [x0a].
Definition lenient_head : bytes := b_lit "HTTP/1.1 200 OK" ++ lf.
Definition lenient_body : bytes :=
  b_lit "<html></html>" ++ Scenario.crlf ++ Scenario.crlf ++ b_lit "de".
Definition lenient_page : Connection :=
  Connected [Data lenient_head; Data lf] (Data lenient_body).

End Inputs.

(** * Vocabulary for the writer of the exit *)

(** The calls made on the writer of a connection, in order. *)
Definition writer_calls (es : list event) : list event :=
  List.filter (fun e => match e with
                        | WriterWrite _ | WriterClose => true
                        | _ => false
                        end) es.

(** * Properties *)

(** The FIPS 180-4 test vectors. *)
Example sha1_abc :
  hexlify (SHA1.digest (b_lit "abc")) = b_lit "a9993e364706816aba3e25717850c26c9cd0d89d".
Proof. vm_compute. reflexivity. Qed.

Example sha1_empty :
  hexlify (SHA1.digest []) = b_lit "da39a3ee5e6b4b0d3255bfef95601890afd80709".
Proof. vm_compute. reflexivity. Qed.

Example sha1_two_blocks :
  hexlify (SHA1.digest (b_lit "abcdbcdecdefdefgefghfghighijhijkijkljklmklmnlmnomnopnopq"))
  = b_lit "84983e441c3bd26ebaae4aa1f95129e5e54670f1".
Proof. vm_compute. reflexivity. Qed.

Lemma hexlify_byte_spec (b : Byte.byte) :
  hexlify_byte b = [hex_digit (Byte.to_N b / 16); hex_digit (Byte.to_N b mod 16)].
Proof. destruct b; vm_compute; reflexivity. Qed.

Lemma hexlify_hex_encoding (data : bytes) : hexlify data = hex_encoding data.
Proof.
  induction data as [|b rest IH]; [reflexivity|].
  change (hexlify (b :: rest)) with (hexlify_byte b ++ hexlify rest).
  rewrite hexlify_byte_spec, IH. reflexivity.
Qed.

Lemma hexlify_length (data : bytes) : length (hexlify data) = (2 * length data)%nat.
Proof.
  rewrite hexlify_hex_encoding.
  induction data as [|b rest IH]; simpl; [reflexivity | rewrite IH; lia].
Qed.

(** C2: for every infohash, [get_lookup_info_hash] is the SHA1 digest of
    the bytes "tribler anonymous download" followed by the hexadecimal
    encoding of the infohash. *)
Theorem get_lookup_info_hash_spec (ih : bytes) :
  get_lookup_info_hash ih = spec_lookup_info_hash ih.
Proof.
  unfold get_lookup_info_hash, spec_lookup_info_hash.
  rewrite hexlify_hex_encoding. reflexivity.
Qed.

(** ** Admission of circuits *)

Section Admission.
Context {P : Type} (create_payload : P) (previous_node_address : address).

Lemma should_join_circuit_refuses c :
  max_joined_circuits c <= joined c ->
  should_join_circuit create_payload previous_node_address c
  = (Ret (succeed false),
     with_trace c (trace c ++ [Log WARNING "too many relays (%d)"])).
Proof.
  intros Hfull. unfold should_join_circuit, bind, gets, joined in *. cbn.
  destruct (Z.leb_spec (max_joined_circuits c)
              (Z.of_nat (size (relay_from_to c)) + Z.of_nat (size (exit_sockets c))));
    [reflexivity | lia].
Qed.

Lemma should_join_circuit_accepts c :
  joined c < max_joined_circuits c ->
  should_join_circuit create_payload previous_node_address c = (Ret (succeed true), c).
Proof.
  intros Hroom. unfold should_join_circuit, bind, gets, joined in *. cbn.
  destruct (Z.leb_spec (max_joined_circuits c)
              (Z.of_nat (size (relay_from_to c)) + Z.of_nat (size (exit_sockets c))));
    [lia | reflexivity].
Qed.

(** C1: [should_join_circuit] answers with a future holding [True]
    exactly when the relays and exit sockets together number strictly
    fewer than [max_joined_circuits]; whatever the answer, the circuits,
    relays and exit sockets are left as they were. *)
Theorem should_join_circuit_budget c :
  exists b c',
    should_join_circuit create_payload previous_node_address c = (Ret (succeed b), c')
    /\ (b = true <-> joined c < max_joined_circuits c)
    /\ (b = false <-> max_joined_circuits c <= joined c)
    /\ circuits c' = circuits c
    /\ relay_from_to c' = relay_from_to c
    /\ exit_sockets c' = exit_sockets c.
Proof.
  destruct (Z.le_gt_cases (max_joined_circuits c) (joined c)) as [Hfull | Hroom].
  - exists false, (with_trace c (trace c ++ [Log WARNING "too many relays (%d)"])).
    rewrite should_join_circuit_refuses by assumption.
    repeat split; try reflexivity; try discriminate; try lia; intros; assumption.
  - exists true, c.
    rewrite should_join_circuit_accepts by lia.
    repeat split; try reflexivity; try discriminate; try lia; intros; lia.
Qed.
End Admission.

(** ** [get_available_strategies] *)

Lemma dict_update_merges (d : gmap string Strategy) :
  fst (dict_update (R := gmap string Strategy) d
         {["GoldenRatioStrategy" := GoldenRatioStrategy]}) !! "GoldenRatioStrategy"
  = Some GoldenRatioStrategy.
Proof.
  unfold dict_update. cbn. apply lookup_union_Some_l. apply lookup_singleton_eq.
Qed.

(** C10: whatever dictionary the superclass hands out,
    [get_available_strategies] returns [None], the value of [dict.update],
    and not the dictionary now holding [GoldenRatioStrategy]. *)
Theorem get_available_strategies_none (super_strategies : gmap string Strategy) :
  get_available_strategies super_strategies = None.
Proof. reflexivity. Qed.

(** ** EVA: the acknowledgement of a window *)

Module EVAProps.
Import EVA.

Lemma new_window_slots start size : length (blocks (new_window start size)) = size.
Proof. unfold new_window. cbn. apply length_replicate. Qed.

(** C8: with the window [TransferWindow(start=10, size=7)] holding
    [d, a, t, a, None, None, None], [make_acknowledgement] acknowledges
    block 4 with the protocol's window size, appends the four blocks of
    the prefix to [data_list], and leaves a window starting at 4 with
    nothing processed and as many slots as the protocol's window size. *)
Theorem make_acknowledgement_next_window (protocol_window : nat) :
  let transfer :=
    set_window (incoming_transfer protocol_window)
      (set_blocks (new_window 10 7) [Some d; Some a; Some t; Some a; None; None; None]) in
  let '(acknowledgement, transfer') := make_acknowledgement transfer in
  number acknowledgement = 4
  /\ window_size acknowledgement = Z.of_nat protocol_window
  /\ data_list transfer' = data_list transfer ++ [d; a; t; a]
  /\ length (data_list transfer') = 4%nat
  /\ exists w, window transfer' = Some w
               /\ start w = 4 /\ processed w = 0
               /\ length (blocks w) = protocol_window.
Proof.
  cbn. rewrite length_replicate. repeat split.
  eexists. split; [reflexivity|]. cbn. rewrite length_replicate. repeat split.
Qed.
End EVAProps.

(** ** Running the monad *)

Lemma with_trace_same c : with_trace c (trace c) = c.
Proof. destruct c; reflexivity. Qed.

Lemma with_trace_nil c : with_trace c (trace c ++ []) = c.
Proof. rewrite app_nil_r. apply with_trace_same. Qed.

Lemma for_each_events {A} (body : A -> M unit) (f : A -> list event) (l : list A) :
  (forall x c, body x c = (Ret tt, with_trace c (trace c ++ f x))) ->
  forall c, for_each l body c = (Ret tt, with_trace c (trace c ++ flat_map f l)).
Proof.
  intros Hbody. induction l as [|x rest IH]; intros c.
  - cbn. unfold ret. rewrite with_trace_nil. reflexivity.
  - cbn. unfold bind. rewrite Hbody, IH. cbn. rewrite <- app_assoc. reflexivity.
Qed.

Lemma join_count_app ih es1 es2 :
  join_count ih (es1 ++ es2) = (join_count ih es1 + join_count ih es2)%nat.
Proof. unfold join_count. rewrite List.filter_app, length_app. reflexivity. Qed.

Lemma join_count_introductions ih ih' (l : list Z) :
  join_count ih'
    (flat_map (fun _ : Z => [Log INFO "Create introducing circuit for %s";
                             CreateIntroductionPoint ih]) l) = 0%nat.
Proof. induction l as [|x rest IH]; [reflexivity | exact IH]. Qed.

Lemma join_count_self ih h s : join_count ih [JoinSwarm ih h s] = 1%nat.
Proof. unfold join_count. cbn. rewrite bool_decide_true by reflexivity. reflexivity. Qed.

Lemma join_count_other ih ih' h s : ih ≠ ih' -> join_count ih' [JoinSwarm ih h s] = 0%nat.
Proof. intros Hne. unfold join_count. cbn. rewrite bool_decide_false by assumption. reflexivity. Qed.

Lemma join_count_positive ih es :
  (0 < join_count ih es)%nat <-> exists h seeding, JoinSwarm ih h seeding ∈ es.
Proof.
  unfold join_count. induction es as [|e rest IH].
  - cbn. split; [lia|]. intros (h & s & Hin). apply elem_of_nil in Hin. contradiction.
  - cbn [List.filter]. destruct (is_join ih e) eqn:Hjoin.
    + split; [intros _ | cbn; lia].
      destruct e; try discriminate Hjoin. cbn in Hjoin.
      apply bool_decide_eq_true in Hjoin. subst. eexists _, _. left.
    + rewrite IH. split; intros (h & s & Hin); exists h, s.
      * right. exact Hin.
      * apply elem_of_cons in Hin as [<- | Hin]; [|exact Hin].
        cbn in Hjoin. rewrite bool_decide_true in Hjoin by reflexivity. discriminate.
Qed.

Section Swarms.
Context (new_states : gmap bytes DownloadStatus) (hops : gmap bytes Z)
        (ip_counter : gmap (option bytes) Z).

(** The code's nested test is the predicate of the specification. *)
Lemma join_test_predicate (old new : option DownloadStatus) :
  (bool_decide (new ≠ old) && bool_decide (new ∈ active))
  && (bool_decide (old ≠ Some METADATA) || bool_decide (new ≠ Some DOWNLOADING))
  = swarm_join_predicate old new.
Proof.
  unfold swarm_join_predicate, active.
  destruct (bool_decide (new ≠ old)), (bool_decide (new ∈ _)); cbn; try reflexivity.
  repeat case_bool_decide; cbn; try reflexivity; tauto.
Qed.

Lemma ensure_introduction_point_run ih new c :
  exists es,
    ensure_introduction_point ip_counter ih new c = (Ret tt, with_trace c (trace c ++ es))
    /\ forall ih', join_count ih' es = 0%nat.
Proof.
  unfold ensure_introduction_point. destruct (bool_decide _).
  - eexists. split.
    + apply (for_each_events _
               (fun _ => [Log INFO "Create introducing circuit for %s";
                          CreateIntroductionPoint ih])).
      intros x c1. unfold bind, logger, create_introduction_point, emit. cbn.
      rewrite <- app_assoc. reflexivity.
    + intros ih'. apply join_count_introductions.
  - exists []. split; [unfold ret; rewrite with_trace_nil; reflexivity | reflexivity].
Qed.

Lemma join_or_leave_swarm_run ih old new c :
  (is_Some new -> is_Some (hops !! ih)) ->
  exists es,
    join_or_leave_swarm hops ih old new c = (Ret tt, with_trace c (trace c ++ es))
    /\ join_count ih es = (if swarm_join_predicate old new then 1 else 0)%nat
    /\ forall ih', ih' ≠ ih -> join_count ih' es = 0%nat.
Proof.
  intros Hhops. unfold join_or_leave_swarm. rewrite <- join_test_predicate.
  destruct (bool_decide (new ≠ old) && bool_decide (new ∈ active)) eqn:Hact.
  - destruct (bool_decide (old ≠ Some METADATA) || bool_decide (new ≠ Some DOWNLOADING)).
    + destruct (hops !! ih) as [h|] eqn:Hh.
      * eexists. split; [reflexivity|]. split; [apply join_count_self|].
        intros ih' Hne. apply join_count_other. congruence.
      * exfalso. apply andb_prop in Hact as [_ Hin]. apply bool_decide_eq_true in Hin.
        destruct new as [s|].
        -- destruct Hhops as [h' Hh']; [eauto | discriminate].
        -- unfold active in Hin. rewrite !elem_of_cons in Hin.
           destruct Hin as [?|[?|[?|Hnil]]]; try discriminate.
           apply elem_of_nil in Hnil. exact Hnil.
    + exists []. unfold ret. rewrite with_trace_nil. repeat split.
  - cbn [andb]. destruct (bool_decide (new ≠ old) && bool_decide (new ∈ [Some STOPPED; None])).
    + eexists. split; [reflexivity|]. split; [reflexivity | intros; reflexivity].
    + exists []. unfold ret. rewrite with_trace_nil. repeat split.
Qed.

Lemma monitor_hidden_swarm_run ih c :
  (is_Some (new_states !! ih) -> is_Some (hops !! ih)) ->
  exists es,
    monitor_hidden_swarm new_states hops ip_counter ih c
    = (Ret tt, with_trace c (trace c ++ es))
    /\ join_count ih es
       = (if swarm_join_predicate (download_states c !! ih) (new_states !! ih)
          then 1 else 0)%nat
    /\ forall ih', ih' ≠ ih -> join_count ih' es = 0%nat.
Proof.
  intros Hhops.
  destruct (join_or_leave_swarm_run ih (download_states c !! ih) (new_states !! ih) c Hhops)
    as (es1 & Hrun1 & Hself & Hothers).
  destruct (ensure_introduction_point_run ih (new_states !! ih)
              (with_trace c (trace c ++ es1))) as (es2 & Hrun2 & Hnone).
  exists (es1 ++ es2). unfold monitor_hidden_swarm, bind, gets. cbn [id].
  rewrite Hrun1, Hrun2. cbn. rewrite <- app_assoc. split; [reflexivity|]. split.
  - rewrite join_count_app, Hself, Hnone. lia.
  - intros ih' Hne. rewrite join_count_app, Hothers, Hnone by assumption. reflexivity.
Qed.

Lemma monitor_hidden_swarm_loop (l : list bytes) :
  NoDup l ->
  (forall ih, ih ∈ l -> is_Some (new_states !! ih) -> is_Some (hops !! ih)) ->
  forall c, exists es,
    for_each l (monitor_hidden_swarm new_states hops ip_counter) c
    = (Ret tt, with_trace c (trace c ++ es))
    /\ forall ih,
         join_count ih es
         = (if bool_decide (ih ∈ l)
               && swarm_join_predicate (download_states c !! ih) (new_states !! ih)
            then 1 else 0)%nat.
Proof.
  induction 1 as [|ih0 rest Hnotin Hnodup IH]; intros Hhops c.
  - exists []. cbn. unfold ret. rewrite with_trace_nil. split; reflexivity.
  - destruct (monitor_hidden_swarm_run ih0 c) as (es1 & Hrun & Hself & Hothers).
    { apply Hhops. left. }
    destruct (IH (fun ih Hin => Hhops ih (list_elem_of_further _ _ _ Hin))
                (with_trace c (trace c ++ es1))) as (es2 & Hrest & Hcount).
    exists (es1 ++ es2). cbn. unfold bind. rewrite Hrun, Hrest. cbn.
    rewrite <- app_assoc. split; [reflexivity|].
    intros ih. rewrite join_count_app, Hcount. cbn.
    destruct (decide (ih = ih0)) as [->|Hne].
    + rewrite Hself. rewrite (bool_decide_true (ih0 ∈ ih0 :: rest)) by left.
      rewrite (bool_decide_false (ih0 ∈ rest)) by assumption. cbn.
      destruct (swarm_join_predicate _ _); reflexivity.
    + rewrite Hothers by assumption.
      destruct (decide (ih ∈ rest)) as [Hin|Hout].
      * rewrite !bool_decide_true; [reflexivity | right; assumption | assumption].
      * rewrite !bool_decide_false; [reflexivity | | assumption].
        rewrite elem_of_cons. tauto.
Qed.
End Swarms.

Lemma monitor_hidden_swarms_run (new_states : gmap bytes DownloadStatus)
    (hops : gmap bytes Z) (c : Community) :
  dom new_states ⊆ dom hops ->
  exists es,
    monitor_hidden_swarms new_states hops c = (Ret tt, with_trace c (trace c ++ es))
    /\ forall ih,
         ih ∈ dom new_states ∪ dom (download_states c) ->
         join_count ih es
         = (if swarm_join_predicate (download_states c !! ih) (new_states !! ih)
            then 1 else 0)%nat.
Proof.
  intros Hdom. unfold monitor_hidden_swarms, bind, gets. cbn.
  edestruct (monitor_hidden_swarm_loop new_states hops) as (es & Hrun & Hcount);
    [apply (NoDup_elements (dom new_states ∪ dom (download_states c)))
    | | exists es; split; [exact Hrun|]].
  - intros ih _ Hsome. apply elem_of_dom. apply Hdom. apply elem_of_dom. exact Hsome.
  - intros ih Hin. rewrite Hcount. rewrite bool_decide_true; [reflexivity|].
    apply elem_of_elements. exact Hin.
Qed.

(** C3: for every infohash [monitor_hidden_swarms] examines, [join_swarm]
    is called, once, exactly when the state changed, the new state is one
    of DOWNLOADING, SEEDING, METADATA and the change is not METADATA to
    DOWNLOADING; in particular a change from METADATA to DOWNLOADING
    calls it zero times. [hops] covers the new states, as it does in
    [monitor_downloads]. *)
Theorem monitor_hidden_swarms_joins (new_states : gmap bytes DownloadStatus)
    (hops : gmap bytes Z) (c : Community) :
  dom new_states ⊆ dom hops ->
  exists es,
    monitor_hidden_swarms new_states hops c = (Ret tt, with_trace c (trace c ++ es))
    /\ forall ih,
         ih ∈ dom new_states ∪ dom (download_states c) ->
         join_count ih es
         = (if swarm_join_predicate (download_states c !! ih) (new_states !! ih)
            then 1 else 0)%nat
         /\ ((exists h seeding, JoinSwarm ih h seeding ∈ es)
             <-> swarm_join_predicate (download_states c !! ih) (new_states !! ih) = true)
         /\ (download_states c !! ih = Some METADATA ->
             new_states !! ih = Some DOWNLOADING ->
             join_count ih es = 0%nat).
Proof.
  intros Hdom.
  destruct (monitor_hidden_swarms_run new_states hops c Hdom) as (es & Hrun & Hcount).
  exists es. split; [exact Hrun|]. intros ih Hin. specialize (Hcount ih Hin).
  split; [exact Hcount|]. split.
  - rewrite <- (join_count_positive ih es), Hcount.
    destruct (swarm_join_predicate _ _); split; intros; first [reflexivity | lia | discriminate].
  - intros Hold Hnew. rewrite Hcount, Hold, Hnew. reflexivity.
Qed.

(** ** The announce throttle *)

Section Preservation.
Context (I : Community -> Prop).

Lemma preserves_ret {A} (a : A) : preserves I (ret a).
Proof. intros c Hc. exact Hc. Qed.

Lemma preserves_raise {A} e : preserves I (raise (A := A) e).
Proof. intros c Hc. exact Hc. Qed.

Lemma preserves_gets {A} (f : Community -> A) : preserves I (gets f).
Proof. intros c Hc. exact Hc. Qed.

Lemma preserves_bind {A B} (m : M A) (k : A -> M B) :
  preserves I m -> (forall a, preserves I (k a)) -> preserves I (bind m k).
Proof.
  intros Hm Hk c Hc. unfold bind. specialize (Hm c Hc).
  destruct (m c) as [[a|e] c']; cbn in *; [apply Hk; exact Hm | exact Hm].
Qed.

Lemma preserves_try_except {A} (m : M A) (h : exn -> M A) :
  preserves I m -> (forall e, preserves I (h e)) -> preserves I (try_except m h).
Proof.
  intros Hm Hh c Hc. unfold try_except. specialize (Hm c Hc).
  destruct (m c) as [[a|e] c']; cbn in *; [exact Hm | apply Hh; exact Hm].
Qed.

Lemma preserves_for_each {A} (l : list A) (body : A -> M unit) :
  (forall x, preserves I (body x)) -> preserves I (for_each l body).
Proof.
  intros Hbody. induction l as [|x rest IH]; cbn.
  - apply preserves_ret.
  - apply preserves_bind; [apply Hbody | intros _; exact IH].
Qed.

Lemma preserves_fold_each {A S} (l : list A) (body : S -> A -> M S) :
  (forall s x, preserves I (body s x)) -> forall s, preserves I (fold_each l body s).
Proof.
  intros Hbody. induction l as [|x rest IH]; intros s; cbn.
  - apply preserves_ret.
  - apply preserves_bind; [apply Hbody | intros s'; apply IH].
Qed.
End Preservation.

Lemma announces_app es1 es2 : announces (es1 ++ es2) = announces es1 ++ announces es2.
Proof.
  induction es1 as [|e rest IH]; [reflexivity|].
  destruct e; cbn; rewrite ?IH; reflexivity.
Qed.

Section Throttle.
Context (clock : nat -> Q) (find_circuits : gmap Z Circuit -> Z -> list Circuit).
Hypothesis clock_monotone : forall k, (clock k <= clock (S k))%Q.


Lemma announce_inv_quiet c c' :
  last_forced_announce c' = last_forced_announce c ->
  announces (trace c') = announces (trace c) ->
  announce_inv clock c -> announce_inv clock c'.
Proof. intros Hlfa Hann Hc. unfold announce_inv in *. rewrite Hlfa, Hann. exact Hc. Qed.

Lemma announce_inv_announce c c' real :
  announce_inv clock c ->
  (default 0%Q (last_forced_announce c !! real) + 60 <= clock (ticks c))%Q ->
  trace c' = trace c ++ [ForceDhtAnnounce real (S (ticks c))] ->
  last_forced_announce c' = <[real := clock (S (ticks c))]> (last_forced_announce c) ->
  announce_inv clock c'.
Proof.
  intros [Hrec Hthr] Hold Htrace Hlfa. unfold announce_inv. rewrite Htrace, Hlfa.
  rewrite announces_app. cbn.
  assert (Hprev : forall n, (real, n) ∈ announces (trace c) ->
                            (clock n + 60 <= clock (ticks c))%Q).
  { intros n Hin. destruct (Hrec _ _ Hin) as (v & Hv & Hle).
    rewrite Hv in Hold. cbn in Hold. lra. }
  split.
  - intros ih n Hin. apply elem_of_app in Hin as [Hin | Hin].
    + destruct (decide (ih = real)) as [->|Hne].
      * rewrite lookup_insert_eq. eexists. split; [reflexivity|].
        specialize (Hprev n Hin). specialize (clock_monotone (ticks c)). lra.
      * rewrite lookup_insert_ne by congruence. apply Hrec. exact Hin.
    + apply list_elem_of_singleton in Hin. injection Hin as -> ->.
      rewrite lookup_insert_eq. eexists. split; [reflexivity|]. lra.
  - intros i j ih n1 n2 Hlt Hi Hj.
    destruct (decide (j < length (announces (trace c)))%nat) as [Hjold | Hjnew].
    + rewrite lookup_app_l in Hi by lia. rewrite lookup_app_l in Hj by lia.
      exact (Hthr i j ih n1 n2 Hlt Hi Hj).
    + rewrite lookup_app_r in Hj by lia.
      destruct (j - length (announces (trace c)))%nat as [|k] eqn:Hk; [|discriminate].
      cbn in Hj. injection Hj as <- <-.
      rewrite lookup_app_l in Hi by lia.
      split; [lia|]. cbn. apply Hprev. apply list_elem_of_lookup. eauto.
Qed.

Lemma preserves_emit e :
  announces [e] = [] -> preserves (announce_inv clock) (emit e).
Proof.
  intros Hquiet c Hc. apply (announce_inv_quiet c); [reflexivity | | exact Hc].
  cbn. rewrite announces_app, Hquiet, app_nil_r. reflexivity.
Qed.

Lemma preserves_assign (f : Community -> Community) :
  (forall c, last_forced_announce (f c) = last_forced_announce c) ->
  (forall c, trace (f c) = trace c) ->
  preserves (announce_inv clock) (fun c => (Ret tt, f c)).
Proof.
  intros Hlfa Htrace c Hc. apply (announce_inv_quiet c); [apply Hlfa | | exact Hc].
  cbn. rewrite Htrace. reflexivity.
Qed.

Lemma preserves_monitor_download l ds :
  preserves (announce_inv clock) (monitor_download clock find_circuits l ds).
Proof.
  intros c Hc. unfold monitor_download.
  generalize (get_lookup_info_hash (def_infohash (ds_download ds))). intros ih.
  destruct (hidden (ds_download ds)); [exact Hc|].
  destruct (0 <? config_hops (ds_download ds)); [|exact Hc].
  destruct (bool_decide (Some (state_status (ds_download ds)) ∈ active)); [|exact Hc].
  unfold bind, gets, time_time, emit, ret. cbn.
  destruct (Qle_bool _ _) eqn:Hdue; cbn;
    [|apply (announce_inv_quiet c); [reflexivity .. | exact Hc]].
  destruct (bool_decide (find_circuits _ _ ≠ [])); cbn;
    [|apply (announce_inv_quiet c); [reflexivity .. | exact Hc]].
  destruct (bool_decide (ds_peer_list ds = [])); cbn;
    [|apply (announce_inv_quiet c); [reflexivity .. | exact Hc]].
  destruct (has_session c _); cbn;
    [|apply (announce_inv_quiet c); [reflexivity .. | exact Hc]].
  eapply (announce_inv_announce c); [exact Hc | | reflexivity | reflexivity].
  apply Qle_bool_iff. exact Hdue.
Qed.

Lemma preserves_monitor_hidden_swarms new_states hops :
  preserves (announce_inv clock) (monitor_hidden_swarms new_states hops).
Proof.
  unfold monitor_hidden_swarms.
  apply preserves_bind; [apply preserves_gets | intros c0].
  apply preserves_for_each. intros ih. unfold monitor_hidden_swarm.
  apply preserves_bind; [apply preserves_gets | intros c1].
  apply preserves_bind; [|intros _].
  - unfold join_or_leave_swarm.
    repeat match goal with
           | |- preserves _ (if ?b then _ else _) => destruct b
           | |- preserves _ (match ?o with Some _ => _ | None => _ end) => destruct o
           end;
      first [apply preserves_ret | apply preserves_raise
            | apply preserves_emit; reflexivity].
  - unfold ensure_introduction_point. destruct (bool_decide _); [|apply preserves_ret].
    apply preserves_for_each. intros _.
    apply preserves_bind; [|intros _]; apply preserves_emit; reflexivity.
Qed.

Lemma preserves_poll dl_states :
  preserves (announce_inv clock) (_poll_download_manager clock find_circuits dl_states).
Proof.
  unfold _poll_download_manager.
  apply preserves_try_except; [|intros e; apply preserves_emit; reflexivity].
  unfold monitor_downloads.
  apply preserves_bind; [apply preserves_gets | intros c0].
  apply preserves_bind; [apply preserves_fold_each; apply preserves_monitor_download|].
  intros l. apply preserves_bind; [apply preserves_assign; reflexivity | intros _].
  apply preserves_bind; [apply preserves_monitor_hidden_swarms | intros _].
  apply preserves_assign; reflexivity.
Qed.

Lemma announce_inv_fresh c : fresh c -> announce_inv clock c.
Proof.
  intros [Hempty Hnone]. unfold announce_inv, throttled. rewrite Hnone. split.
  - intros ih n Hin. apply elem_of_nil in Hin. contradiction.
  - intros i j ih n1 n2 _ Hi. rewrite lookup_nil in Hi. discriminate.
Qed.

Lemma announce_inv_step c c' :
  step clock find_circuits c c' -> announce_inv clock c -> announce_inv clock c'.
Proof.
  intros Hstep Hc. destruct Hstep as [c dl_states | c c' Hlfa Hann _].
  - apply preserves_poll. exact Hc.
  - exact (announce_inv_quiet c c' Hlfa Hann Hc).
Qed.

(** C7: under a clock that does not run backwards, in every state a
    fresh community reaches, any two forced DHT announces of one
    infohash are at least 60 s apart: the clock reading taken right
    after the earlier call, plus 60, is at most the reading taken right
    before the later call. *)
Theorem forced_announce_throttle c0 c :
  fresh c0 ->
  rtc (step clock find_circuits) c0 c ->
  throttled clock (announces (trace c)).
Proof.
  intros Hfresh Hrun.
  enough (announce_inv clock c) as [_ Hthr] by exact Hthr.
  apply announce_inv_fresh in Hfresh.
  induction Hrun as [c | c1 c2 c3 Hstep _ IH]; [exact Hfresh|].
  apply IH. exact (announce_inv_step c1 c2 Hstep Hfresh).
Qed.
End Throttle.

(** ** Fragmentation of HTTP responses *)

Lemma ceil_div_bounds (n d : Z) :
  0 <= n -> 0 < d ->
  0 <= ceil_div n d /\ n <= ceil_div n d * d /\ ceil_div n d * d < n + d.
Proof.
  intros Hn Hd. unfold ceil_div.
  pose proof (Z_div_mod n d ltac:(lia)) as Hdm.
  destruct (Z.div_eucl n d) as [q r]. destruct Hdm as [Heq Hr].
  destruct (Z.eqb_spec r 0); nia.
Qed.

Lemma length_range (n : Z) : length (range n) = Z.to_nat n.
Proof. unfold range. rewrite length_map, length_seq. reflexivity. Qed.

Lemma lookup_range (n : Z) (i : nat) :
  (i < Z.to_nat n)%nat -> range n !! i = Some (Z.of_nat i).
Proof.
  intros Hi. unfold range. rewrite list_lookup_fmap, lookup_seq_lt by assumption.
  reflexivity.
Qed.

Lemma slice_chunk (data : bytes) (i : nat) (k : Z) :
  0 < k ->
  slice data (Z.of_nat i * k) ((Z.of_nat i + 1) * k)
  = take (Z.to_nat k) (drop (i * Z.to_nat k) data).
Proof.
  intros Hk. unfold slice. f_equal; [f_equal; lia | f_equal; lia].
Qed.

Lemma concat_chunks {A} (l : list A) (k : nat) (n s : nat) :
  concat (map (fun i => take k (drop ((s + i) * k) l)) (seq 0 n))
  = take (n * k) (drop (s * k) l).
Proof.
  revert s. induction n as [|n IH]; intros s.
  - reflexivity.
  - cbn [seq map concat]. rewrite <- seq_shift, map_map.
    rewrite (map_ext _ (fun i => take k (drop ((S s + i) * k) l)))
      by (intros i; do 2 f_equal; lia).
    rewrite IH. replace (s + 0)%nat with s by lia.
    replace (S s * k)%nat with (s * k + k)%nat by lia.
    rewrite <- drop_drop. rewrite take_take_drop. f_equal.
Qed.

Section Fragments.
Context (circuit_id identifier : Z) (response : bytes).

Local Abbreviation num_cells :=
  (ceil_div (Z.of_nat (length response)) MAX_HTTP_PACKET_SIZE).

Lemma response_cells_length :
  Z.of_nat (length (response_cells circuit_id identifier response)) = num_cells.
Proof.
  unfold response_cells. rewrite length_map, length_range.
  pose proof (ceil_div_bounds (Z.of_nat (length response)) MAX_HTTP_PACKET_SIZE
                ltac:(lia) ltac:(reflexivity)) as [Hpos _].
  lia.
Qed.

Lemma response_cells_lookup (i : nat) :
  Z.of_nat i < num_cells ->
  response_cells circuit_id identifier response !! i
  = Some {| resp_circuit_id := circuit_id; resp_identifier := identifier;
            resp_part := Z.of_nat i; resp_total := num_cells;
            resp_response := take 1400 (drop (i * 1400) response) |}.
Proof.
  intros Hi. unfold response_cells.
  rewrite list_lookup_fmap, lookup_range by lia. cbn. do 2 f_equal.
  rewrite slice_chunk by reflexivity. reflexivity.
Qed.

Lemma response_cells_concat :
  concat (map resp_response (response_cells circuit_id identifier response)) = response.
Proof.
  unfold response_cells. rewrite map_map.
  unfold range. rewrite map_map. cbn [resp_response].
  rewrite (map_ext _ (fun i => take 1400 (drop ((0 + i) * 1400) response)))
    by (intros i; rewrite slice_chunk by reflexivity; reflexivity).
  rewrite concat_chunks. cbn [drop Nat.mul]. apply take_ge.
  pose proof (ceil_div_bounds (Z.of_nat (length response)) MAX_HTTP_PACKET_SIZE
                ltac:(lia) ltac:(reflexivity)) as (Hpos & Hcover & _).
  change MAX_HTTP_PACKET_SIZE with 1400 in *. lia.
Qed.
End Fragments.

Lemma sent_cells_app es1 es2 : sent_cells (es1 ++ es2) = sent_cells es1 ++ sent_cells es2.
Proof.
  induction es1 as [|e rest IH]; [reflexivity|].
  destruct e; cbn; rewrite ?IH; reflexivity.
Qed.

Lemma sent_cells_send to cells : sent_cells (map (SendCell to) cells) = map (pair to) cells.
Proof. induction cells as [|cell rest IH]; [reflexivity | cbn; rewrite IH; reflexivity]. Qed.

(** ** The HTTP exit *)

Lemma for_each_emit {A} (f : A -> event) (l : list A) (c : Community) :
  for_each l (fun x => emit (f x)) c = (Ret tt, with_trace c (trace c ++ map f l)).
Proof.
  rewrite (for_each_events _ (fun x => [f x])) by reflexivity.
  replace (flat_map (fun x => [f x]) l) with (map f l); [reflexivity|].
  induction l as [|x rest IH]; [reflexivity | cbn; rewrite IH; reflexivity].
Qed.

Lemma emit_run e c : emit e c = (Ret tt, with_trace c (trace c ++ [e])).
Proof. reflexivity. Qed.

Ltac run_exit :=
  unfold try_finally, try_except, open_connection, logger, lift, bind, ret, raise;
  repeat (rewrite ?emit_run; cbn [fst snd is_connected trace with_trace]).

Section Exit.
Context (entry : Type) (bdecode : bytes -> option entry).
Context (source_address : address) (payload : HTTPRequestPayload) (circuit_id : Z).

Local Abbreviation on_request :=
  (on_http_request entry bdecode source_address payload circuit_id).
Local Abbreviation is_bencoded := (is_bencoded entry bdecode).
Local Abbreviation cells response :=
  (response_cells circuit_id (req_identifier payload) response).

Lemma on_http_request_not_exit conn c :
  exit_sockets c !! circuit_id = None ->
  on_request conn c
  = (Ret tt, with_trace c (trace c ++ [Log WARNING "Received unexpected http-request"])).
Proof.
  intros Hexit. unfold on_http_request, bind, gets. cbn [id].
  rewrite bool_decide_true by assumption. reflexivity.
Qed.

Lemma on_http_request_too_many conn c :
  exit_sockets c !! circuit_id ≠ None ->
  5 < http_caches_count c circuit_id ->
  on_request conn c
  = (Ret tt, with_trace c
               (trace c ++ [Log WARNING "Too many HTTP requests coming from circuit %s"])).
Proof.
  intros Hexit Hmany. unfold on_http_request, bind, gets. cbn [id].
  rewrite bool_decide_false by assumption.
  rewrite (proj2 (Z.ltb_lt _ _)) by assumption. reflexivity.
Qed.

(** What the exit node does once both guards are passed. *)
Lemma on_http_request_fetched lines rest response c :
  exit_sockets c !! circuit_id ≠ None ->
  http_caches_count c circuit_id <= 5 ->
  read_response lines rest [] = Ret response ->
  on_request (Connected lines rest) c
  = (Ret tt,
     with_trace c
       (trace c
        ++ [Log DEBUG "Got http-request from %s";
            Log DEBUG "Opening TCP connection to %s";
            OpenConnection (req_target payload);
            WriterWrite (req_request payload);
            WriterClose]
        ++ (if startswith response (b_lit "HTTP/1.1 307")
               || is_bencoded (body_of response)
            then map (SendCell source_address) (cells response)
            else [Log WARNING "Tunnel HTTP request not allowed"]))).
Proof.
  intros Hexit Hfew Hread. unfold on_http_request, bind, gets. cbn [id].
  rewrite bool_decide_false by assumption.
  rewrite (proj2 (Z.ltb_ge _ _)) by assumption.
  run_exit. rewrite Hread. run_exit.
  unfold body_of.
  destruct (startswith response _); cbn [negb orb].
  - rewrite for_each_emit. cbn [trace with_trace]. rewrite <- !app_assoc. reflexivity.
  - destruct (partition response _) as [[before found] after]. cbn [snd].
    destruct (is_bencoded after); cbn [negb].
    + rewrite for_each_emit. cbn [trace with_trace]. rewrite <- !app_assoc. reflexivity.
    + run_exit. rewrite <- !app_assoc. reflexivity.
Qed.

(** Past the guards the request is always taken up: a connection is opened. *)
Lemma on_http_request_taken_up conn c :
  exit_sockets c !! circuit_id ≠ None ->
  http_caches_count c circuit_id <= 5 ->
  exists es,
    on_request conn c
    = (Ret tt,
       with_trace c
         (trace c
          ++ [Log DEBUG "Got http-request from %s";
              Log DEBUG "Opening TCP connection to %s";
              OpenConnection (req_target payload)] ++ es)).
Proof.
  intros Hexit Hfew.
  destruct conn as [what | | lines rest].
  - eexists. unfold on_http_request, bind, gets. cbn [id].
    rewrite bool_decide_false by assumption.
    rewrite (proj2 (Z.ltb_ge _ _)) by assumption.
    run_exit. rewrite <- !app_assoc. reflexivity.
  - eexists. unfold on_http_request, bind, gets. cbn [id].
    rewrite bool_decide_false by assumption.
    rewrite (proj2 (Z.ltb_ge _ _)) by assumption.
    run_exit. rewrite <- !app_assoc. reflexivity.
  - destruct (read_response lines rest []) as [response | e] eqn:Hread.
    + rewrite (on_http_request_fetched lines rest response) by assumption.
      eexists. cbn. reflexivity.
    + assert (Hexn : (exists what, e = OSError what) \/ e = AsyncTimeoutError).
      { clear -Hread. revert Hread. generalize (@nil Byte.byte).
        induction lines as [|[line|what|] more IH]; intros acc Hread; cbn in Hread.
        - destruct rest; cbn in Hread; inversion Hread; eauto.
        - destruct (bool_decide _); [|eauto].
          destruct rest; cbn in Hread; inversion Hread; eauto.
        - inversion Hread; eauto.
        - inversion Hread; eauto. }
      destruct Hexn as [[what ->] | ->]; eexists;
        unfold on_http_request, bind, gets; cbn [id];
        rewrite bool_decide_false by assumption;
        rewrite (proj2 (Z.ltb_ge _ _)) by assumption;
        run_exit; rewrite Hread; run_exit; rewrite <- !app_assoc; reflexivity.
Qed.
End Exit.

Section ExitPolicy.
Context (entry : Type) (bdecode : bytes -> option entry).
Context (source_address : address) (payload : HTTPRequestPayload) (circuit_id : Z).

Local Abbreviation on_request :=
  (on_http_request entry bdecode source_address payload circuit_id).
Local Abbreviation is_bencoded := (is_bencoded entry bdecode).
Local Abbreviation cells response :=
  (response_cells circuit_id (req_identifier payload) response).
Local Abbreviation refuses :=
  (refuses_http_request entry bdecode source_address payload circuit_id).

Lemma sent_cells_forwarded response :
  sent_cells
    ([Log DEBUG "Got http-request from %s"; Log DEBUG "Opening TCP connection to %s";
      OpenConnection (req_target payload); WriterWrite (req_request payload);
      WriterClose] ++ map (SendCell source_address) (cells response))
  = map (pair source_address) (cells response).
Proof. rewrite sent_cells_app, sent_cells_send. reflexivity. Qed.

Lemma reassembled_cells response :
  reassembled (map (pair source_address) (cells response)) = response.
Proof.
  unfold reassembled. rewrite map_map. cbn [snd]. apply response_cells_concat.
Qed.

(** C4: a response the exit node forwards goes out as exactly
    [ceil(len(response) / 1400)] cells, numbered from 0 in order, each
    giving that count as the total and carrying at most 1400 bytes, and
    the fragments joined in that order are the response; a response of
    3,000 bytes goes out as 3 cells. *)
Theorem on_http_request_fragments lines rest response c :
  exit_sockets c !! circuit_id ≠ None ->
  http_caches_count c circuit_id <= 5 ->
  read_response lines rest [] = Ret response ->
  startswith response (b_lit "HTTP/1.1 307") || is_bencoded (body_of response) = true ->
  exists es,
    on_request (Connected lines rest) c = (Ret tt, with_trace c (trace c ++ es))
    /\ MAX_HTTP_PACKET_SIZE = 1400
    /\ Z.of_nat (length (sent_cells es)) = ceil_div (Z.of_nat (length response)) 1400
    /\ (forall i : nat,
          Z.of_nat i < ceil_div (Z.of_nat (length response)) 1400 ->
          exists fragment,
            sent_cells es !! i
            = Some (source_address,
                    {| resp_circuit_id := circuit_id;
                       resp_identifier := req_identifier payload;
                       resp_part := Z.of_nat i;
                       resp_total := ceil_div (Z.of_nat (length response)) 1400;
                       resp_response := fragment |})
            /\ (length fragment <= 1400)%nat)
    /\ reassembled (sent_cells es) = response
    /\ (length response = 3000%nat -> length (sent_cells es) = 3%nat).
Proof.
  intros Hexit Hfew Hread Hallowed.
  eexists. split.
  { rewrite (on_http_request_fetched _ _ _ _ _ lines rest response) by assumption.
    rewrite Hallowed. reflexivity. }
  rewrite sent_cells_forwarded.
  assert (Hlen : Z.of_nat (length (map (pair source_address) (cells response)))
                 = ceil_div (Z.of_nat (length response)) 1400).
  { rewrite length_map. apply response_cells_length. }
  split; [reflexivity|]. split; [exact Hlen|]. split; [|split].
  - intros i Hi. eexists. split.
    + rewrite list_lookup_fmap, response_cells_lookup by exact Hi. reflexivity.
    + rewrite length_take. lia.
  - apply reassembled_cells.
  - intros H3000. rewrite H3000 in Hlen.
    change (ceil_div (Z.of_nat 3000) 1400) with 3 in Hlen. lia.
Qed.

(** The test of the code, as it is written: a fetched response that
    starts with "HTTP/1.1 307" reaches the initiator as it is; any other
    reaches it exactly when what follows the first CR LF CR LF decodes as
    bencoded data, and otherwise no cell is sent and the handler returns
    after logging the refusal. *)
Lemma on_http_request_policy lines rest response c :
  exit_sockets c !! circuit_id ≠ None ->
  http_caches_count c circuit_id <= 5 ->
  read_response lines rest [] = Ret response ->
  exists es,
    on_request (Connected lines rest) c = (Ret tt, with_trace c (trace c ++ es))
    /\ (startswith response (b_lit "HTTP/1.1 307") = true ->
        reassembled (sent_cells es) = response)
    /\ (startswith response (b_lit "HTTP/1.1 307") = false ->
        is_bencoded (body_of response) = true ->
        reassembled (sent_cells es) = response)
    /\ (startswith response (b_lit "HTTP/1.1 307") = false ->
        is_bencoded (body_of response) = false ->
        sent_cells es = []
        /\ last es = Some (Log WARNING "Tunnel HTTP request not allowed")).
Proof.
  intros Hexit Hfew Hread.
  eexists. split.
  { apply (on_http_request_fetched _ _ _ _ _ lines rest response); assumption. }
  split; [|split].
  - intros ->. cbn [orb]. rewrite sent_cells_forwarded. apply reassembled_cells.
  - intros -> ->. cbn [orb]. rewrite sent_cells_forwarded. apply reassembled_cells.
  - intros -> ->. cbn [orb]. split; reflexivity.
Qed.

Lemma on_http_request_appends conn c :
  exists es, on_request conn c = (Ret tt, with_trace c (trace c ++ es)).
Proof.
  destruct (exit_sockets c !! circuit_id) as [sock|] eqn:Hexit.
  - destruct (Z.lt_ge_cases 5 (http_caches_count c circuit_id)) as [Hmany | Hfew].
    + eexists. apply on_http_request_too_many; [congruence | exact Hmany].
    + destruct (on_http_request_taken_up entry bdecode source_address payload
                  circuit_id conn c) as [es Hrun]; [congruence | exact Hfew |].
      eexists. exact Hrun.
  - eexists. apply on_http_request_not_exit. exact Hexit.
Qed.

(** The guard of the code, as it is written: on a circuit that ends
    here, [on_http_request] turns a request away, with a warning and
    nothing else done, when more than five [HTTPRequestCache]s carry the
    circuit's id; with five or fewer it takes the request up and opens
    the connection. It never adds to or removes from the request cache. *)
Lemma on_http_request_cap conn c :
  exit_sockets c !! circuit_id ≠ None ->
  (5 < http_caches_count c circuit_id -> refuses conn c)
  /\ (http_caches_count c circuit_id <= 5 ->
      ~ refuses conn c
      /\ exists es,
           on_request conn c
           = (Ret tt,
              with_trace c
                (trace c
                 ++ [Log DEBUG "Got http-request from %s";
                     Log DEBUG "Opening TCP connection to %s";
                     OpenConnection (req_target payload)] ++ es)))
  /\ request_cache (snd (on_request conn c)) = request_cache c.
Proof.
  intros Hexit. split; [|split].
  - intros Hmany. apply on_http_request_too_many; assumption.
  - intros Hfew.
    destruct (on_http_request_taken_up entry bdecode source_address payload
                circuit_id conn c Hexit Hfew) as [es Hrun].
    split; [|exists es; exact Hrun].
    unfold refuses_http_request. rewrite Hrun. intros Heq.
    apply (f_equal (fun r => trace (snd r))) in Heq. cbn in Heq.
    apply app_inv_head in Heq. discriminate Heq.
  - destruct (on_http_request_appends conn c) as [es ->]. reflexivity.
Qed.
End ExitPolicy.

Import Scenario.

Lemma on_http_request_fragments_witness :
  exists es,
    on_http_request unit dictionaries_only initiator request 1 redirect exit_node
    = (Ret tt, with_trace exit_node (trace exit_node ++ es))
    /\ length (sent_cells es) = 3%nat
    /\ reassembled (sent_cells es) = redirect_bytes.
Proof.
  destruct (on_http_request_fragments unit dictionaries_only initiator request 1
              [Data redirect_head; Data crlf] (Data (replicate 2965 "x"%byte))
              redirect_bytes exit_node)
    as (es & Hrun & _ & _ & _ & Hjoin & H3000).
  - vm_compute. discriminate.
  - apply Z.leb_le. vm_compute. reflexivity.
  - vm_compute. reflexivity.
  - vm_compute. reflexivity.
  - exists es. split; [exact Hrun|]. split; [|exact Hjoin].
    apply H3000. vm_compute. reflexivity.
Defined.

(** With the id of its circuit on five [HTTPRequestCache]s, a request is
    served. *)
Lemma on_http_request_serves_at_five :
  http_caches_count five_outstanding 1 = 5
  /\ ~ refuses_http_request unit dictionaries_only initiator request 1 redirect
         five_outstanding
  /\ length (sent_cells
               (trace (snd (on_http_request unit dictionaries_only initiator request 1
                              redirect five_outstanding)))) = 3%nat.
Proof.
  split; [vm_compute; reflexivity|]. split; [|vm_compute; reflexivity].
  unfold refuses_http_request. intros Heq.
  apply (f_equal (fun r => length (trace (snd r)))) in Heq.
  vm_compute in Heq. discriminate Heq.
Qed.

(** ** The cap on HTTP requests per circuit *)

Lemma filter_length_Permutation {A} (f : A -> bool) (l l' : list A) :
  l ≡ₚ l' -> length (List.filter f l) = length (List.filter f l').
Proof.
  induction 1 as [|x l l' _ IH|x y l|l l' l'' _ IH1 _ IH2]; cbn.
  - reflexivity.
  - destruct (f x); cbn; rewrite IH; reflexivity.
  - destruct (f x), (f y); reflexivity.
  - rewrite IH1. exact IH2.
Qed.

(** Filing one more [HTTPRequestCache] under a free identifier adds one to
    the count of its circuit and nothing to that of any other. *)
Lemma http_caches_count_add c key cid cid' :
  request_cache c !! key = None ->
  http_caches_count
    (with_request_cache c (<[key := HTTPRequestCache cid']> (request_cache c))) cid
  = http_caches_count c cid + (if bool_decide (cid' = cid) then 1 else 0).
Proof.
  intros Hfree. unfold http_caches_count, http_caches_of. cbn [request_cache with_request_cache].
  rewrite (filter_length_Permutation _ _
             (HTTPRequestCache cid' :: map snd (map_to_list (request_cache c)))).
  2:{ rewrite (map_to_list_insert _ _ _ Hfree). reflexivity. }
  cbn [List.filter]. destruct (bool_decide (cid' = cid)); cbn [length]; lia.
Qed.

Module RequestProps.
Import Requests.

Lemma perform_http_request_registers (found : TunnelCircuit) others create_circuit number
    destination request c :
  state_ready found = true ->
  request_cache c !! ("http-request"%string, number) = None ->
  perform_http_request (found :: others) create_circuit number destination request c
  = (inr (hop_address found,
          {| req_circuit_id := circuit_id (circuit found); req_identifier := number;
             req_target := destination; req_request := request |}),
     with_request_cache c
       (<[("http-request"%string, number) := HTTPRequestCache (circuit_id (circuit found))]>
          (request_cache c))).
Proof.
  intros Hready Hfree. unfold perform_http_request, request_cache_add.
  rewrite Hready, Hfree. reflexivity.
Qed.

(** Nothing in [perform_http_request] looks at how many requests the
    circuit has outstanding: every call on a ready circuit registers one
    more. *)
Lemma perform_http_requests_register (found : TunnelCircuit) others create_circuit numbers
    destination request c :
  state_ready found = true ->
  NoDup numbers ->
  (forall number, number ∈ numbers ->
                  request_cache c !! ("http-request"%string, number) = None) ->
  fst (perform_http_requests (found :: others) create_circuit numbers destination request c)
  = map (fun number =>
           inr (hop_address found,
                {| req_circuit_id := circuit_id (circuit found); req_identifier := number;
                   req_target := destination; req_request := request |})) numbers
  /\ http_caches_count
       (snd (perform_http_requests (found :: others) create_circuit numbers destination
               request c))
       (circuit_id (circuit found))
     = http_caches_count c (circuit_id (circuit found)) + Z.of_nat (length numbers)
  /\ exit_sockets
       (snd (perform_http_requests (found :: others) create_circuit numbers destination
               request c))
     = exit_sockets c.
Proof.
  intros Hready Hdistinct. revert c.
  induction Hdistinct as [|number more Hnew _ IH]; intros c Hfree.
  - cbn. split; [reflexivity|]. split; [lia | reflexivity].
  - cbn [perform_http_requests].
    rewrite perform_http_request_registers
      by (try exact Hready; apply Hfree; left).
    set (c1 := with_request_cache c _).
    destruct (IH c1) as (Hsent & Hcount & Hexit).
    { intros other Hother. unfold c1. cbn [request_cache with_request_cache].
      rewrite lookup_insert_ne by (intros [= ->]; exact (Hnew Hother)).
      apply Hfree. right. exact Hother. }
    destruct (perform_http_requests _ _ more _ _ c1) as [results c2].
    cbn [fst snd] in *. split; [|split].
    + cbn [map]. rewrite Hsent. reflexivity.
    + rewrite Hcount. unfold c1.
      rewrite http_caches_count_add by (apply Hfree; left).
      rewrite bool_decide_true by reflexivity. cbn [length]. lia.
    + rewrite Hexit. reflexivity.
Qed.
End RequestProps.

Section CapNotKept.
Context (entry : Type) (bdecode : bytes -> option entry).
Context (source_address : address) (payload : HTTPRequestPayload).

Local Abbreviation on_request := (on_http_request entry bdecode source_address payload).
Local Abbreviation refuses := (refuses_http_request entry bdecode source_address payload).

(** C5: the cap of five outstanding requests per circuit is not kept.
    [perform_http_request], the one place that makes an [HTTPRequestCache],
    looks at no count: asked for any number of pages over one ready
    circuit, none answered yet, it registers and sends them all, so the
    circuit has that many entries outstanding, six as well as five. The
    guard of [on_http_request] counts those entries and never files one
    itself; and where an exit circuit does carry the id of exactly five of
    them, a further request on it is not turned away: the connection to
    the target is opened. *)
Theorem http_request_cap_not_kept (found : Requests.TunnelCircuit)
    (others : list Requests.TunnelCircuit)
    (create_circuit : Community -> option Requests.TunnelCircuit * Community)
    (numbers : list Z) (destination : address) (data : bytes) (conn : Connection)
    (c : Community) :
  Requests.state_ready found = true ->
  NoDup numbers ->
  (forall number, number ∈ numbers ->
                  request_cache c !! ("http-request"%string, number) = None) ->
  let cid := circuit_id (Requests.circuit found) in
  let run :=
    Requests.perform_http_requests (found :: others) create_circuit numbers destination
      data c in
  fst run
  = map (fun number =>
           inr (Requests.hop_address found,
                {| req_circuit_id := cid; req_identifier := number;
                   req_target := destination; req_request := data |})) numbers
  /\ http_caches_count (snd run) cid
     = http_caches_count c cid + Z.of_nat (length numbers)
  /\ (forall circuit_id,
        request_cache (snd (on_request circuit_id conn (snd run))) = request_cache (snd run))
  /\ (exit_sockets c !! cid ≠ None ->
      http_caches_count (snd run) cid = 5 ->
      ~ refuses cid conn (snd run)
      /\ OpenConnection (req_target payload)
         ∈ trace (snd (on_request cid conn (snd run)))).
Proof.
  intros Hready Hdistinct Hfree cid run.
  destruct (RequestProps.perform_http_requests_register found others create_circuit numbers
              destination data c Hready Hdistinct Hfree) as (Hsent & Hcount & Hexit).
  fold cid run in Hsent, Hcount, Hexit.
  split; [exact Hsent|]. split; [exact Hcount|]. split.
  - intros circuit_id.
    destruct (on_http_request_appends entry bdecode source_address payload circuit_id
                conn (snd run)) as [es ->].
    reflexivity.
  - intros Hsocket Hfive.
    assert (Hhere : exit_sockets (snd run) !! cid ≠ None) by (rewrite Hexit; exact Hsocket).
    assert (Hfew : http_caches_count (snd run) cid <= 5) by lia.
    destruct (on_http_request_taken_up entry bdecode source_address payload cid conn
                (snd run) Hhere Hfew) as [es Hrun].
    split.
    + unfold refuses_http_request. rewrite Hrun. intros Heq.
      apply (f_equal (fun r => trace (snd r))) in Heq. cbn in Heq.
      apply app_inv_head in Heq. discriminate Heq.
    + rewrite Hrun. cbn [snd trace with_trace].
      apply elem_of_app. right. do 2 right. left.
Qed.
End CapNotKept.

(** Five requests of its own on a circuit with the id of its exit circuit
    bring the exit node of the scenarios to [five_outstanding]. *)
Lemma five_outstanding_reached :
  snd (Requests.perform_http_requests [Inputs.circuit_1] Inputs.no_circuit
         [101; 102; 103; 104; 105] tracker Inputs.get exit_node)
  = five_outstanding.
Proof. vm_compute. reflexivity. Qed.

Lemma http_request_cap_not_kept_witness :
  http_caches_count
    (snd (Requests.perform_http_requests [Inputs.http_circuit] Inputs.no_circuit
            [101; 102; 103; 104; 105; 106] tracker Inputs.get idle)) 9
  = 6
  /\ OpenConnection tracker
     ∈ trace (snd (on_http_request unit dictionaries_only initiator request 1 redirect
                     (snd (Requests.perform_http_requests [Inputs.circuit_1]
                             Inputs.no_circuit [101; 102; 103; 104; 105] tracker
                             Inputs.get exit_node)))).
Proof.
  split.
  - destruct (http_request_cap_not_kept unit dictionaries_only initiator request
                Inputs.http_circuit [] Inputs.no_circuit [101; 102; 103; 104; 105; 106]
                tracker Inputs.get redirect idle) as (_ & Hcount & _).
    + reflexivity.
    + apply (bool_decide_unpack _). vm_compute. exact I.
    + intros number _. reflexivity.
    + exact Hcount.
  - destruct (http_request_cap_not_kept unit dictionaries_only initiator request
                Inputs.circuit_1 [] Inputs.no_circuit [101; 102; 103; 104; 105]
                tracker Inputs.get redirect exit_node) as (_ & _ & _ & Hserved).
    + reflexivity.
    + apply (bool_decide_unpack _). vm_compute. exact I.
    + intros number _. reflexivity.
    + apply Hserved; [vm_compute; discriminate | vm_compute; reflexivity].
Defined.

(** ** The exit-node cache file *)

Section ExitNodeCache.
Context (Network_snapshot : list address -> bytes)
        (Network_load_snapshot : bytes -> list address).

Lemma restore_exitnodes_absent c cache :
  exitnode_cache c = Some cache -> is_file cache = false ->
  restore_exitnodes_from_disk Network_load_snapshot c
  = (Ret tt,
     with_trace c
       (trace c ++ [Log WARNING
                      "Could not retrieve backup exitnode cache, file does not exist!"])).
Proof.
  intros Hcache Habsent. unfold restore_exitnodes_from_disk, bind, gets. cbn [id].
  rewrite Hcache, Habsent. reflexivity.
Qed.

Lemma restore_exitnodes_read c cache data :
  exitnode_cache c = Some cache -> is_file cache = true -> open_read cache = inr data ->
  restore_exitnodes_from_disk Network_load_snapshot c
  = (Ret tt,
     with_trace c
       (trace c ++ Log DEBUG "Loading exit nodes from cache: %s"
                :: map SendIntroductionRequest (Network_load_snapshot data))).
Proof.
  intros Hcache Hfile Hread. unfold restore_exitnodes_from_disk, bind, gets. cbn [id].
  rewrite Hcache, Hfile, Hread. unfold logger, ret. rewrite emit_run, for_each_emit.
  cbn [trace with_trace]. rewrite <- app_assoc. reflexivity.
Qed.

(** A read error is not caught: it leaves [restore_exitnodes_from_disk]. *)
Lemma restore_exitnodes_read_error c cache what :
  exitnode_cache c = Some cache -> is_file cache = true -> open_read cache = inl what ->
  restore_exitnodes_from_disk Network_load_snapshot c
  = (Raise (OSError what),
     with_trace c (trace c ++ [Log DEBUG "Loading exit nodes from cache: %s"])).
Proof.
  intros Hcache Hfile Hread. unfold restore_exitnodes_from_disk, bind, gets. cbn [id].
  rewrite Hcache, Hfile, Hread. reflexivity.
Qed.

(** A write error is caught and logged. *)
Lemma cache_exitnodes_to_disk_returns c cache :
  exitnode_cache c = Some cache ->
  fst (cache_exitnodes_to_disk Network_snapshot c) = Ret tt.
Proof.
  intros Hcache. unfold cache_exitnodes_to_disk, bind, gets, try_except. cbn [id].
  rewrite Hcache. unfold logger. rewrite emit_run.
  destruct (write_bytes cache _); reflexivity.
Qed.

Lemma unload_returns c : fst (unload Network_snapshot c) = Ret tt.
Proof.
  unfold unload, bind, gets. cbn [id].
  destruct (exitnode_cache c) as [cache|] eqn:Hcache; [|reflexivity].
  apply (cache_exitnodes_to_disk_returns c cache Hcache).
Qed.
End ExitNodeCache.

(** C9 fails on the code: with a cache file that is there and cannot be
    read, [restore_exitnodes_from_disk] raises the [OSError] instead of
    logging it. *)
Theorem restore_exitnodes_unreadable_raises :
  fst (restore_exitnodes_from_disk Scenario.no_peers
         (Scenario.with_exitnode_cache Scenario.idle (Some Scenario.unreadable)))
  = Raise (OSError "Permission denied").
Proof. reflexivity. Qed.

(** ** [monitor_downloads] never lacks a hop count *)

Section Monitor.
Context (clock : nat -> Q) (find_circuits : gmap Z Circuit -> Z -> list Circuit).

Lemma monitor_download_returns l ds c :
  exists l' c',
    monitor_download clock find_circuits l ds c = (Ret l', c')
    /\ (dom (new_states l) = dom (hops l) -> dom (new_states l') = dom (hops l')).
Proof.
  unfold monitor_download.
  generalize (get_lookup_info_hash (def_infohash (ds_download ds))). intros ih.
  destruct (hidden (ds_download ds)); [eexists _, _; split; [reflexivity | tauto]|].
  destruct (0 <? config_hops (ds_download ds));
    [|eexists _, _; split; [reflexivity | tauto]].
  destruct (bool_decide (Some (state_status (ds_download ds)) ∈ active)).
  - unfold bind, gets, time_time, emit, ret. cbn beta iota.
    destruct (Qle_bool _ _ && _ && _ && _); cbn beta iota;
      (eexists _, _; split; [reflexivity|]); cbn [new_states hops];
      intros Hdom; rewrite !dom_insert_L, Hdom; reflexivity.
  - eexists _, _. split; [reflexivity|]. cbn.
    intros Hdom. rewrite !dom_insert_L, Hdom. reflexivity.
Qed.

Lemma monitor_download_loop dslist :
  forall l c, exists l' c',
    fold_each dslist (monitor_download clock find_circuits) l c = (Ret l', c')
    /\ (dom (new_states l) = dom (hops l) -> dom (new_states l') = dom (hops l')).
Proof.
  induction dslist as [|ds rest IH]; intros l c.
  - eexists _, _. split; [reflexivity | tauto].
  - destruct (monitor_download_returns l ds c) as (l1 & c1 & Hrun1 & Hdom1).
    destruct (IH l1 c1) as (l2 & c2 & Hrun2 & Hdom2).
    exists l2, c2. cbn. unfold bind. rewrite Hrun1, Hrun2. split; [reflexivity | tauto].
Qed.

(** The hop counts cover the new states, so no [KeyError] is raised. *)
Lemma monitor_downloads_returns dslist c :
  fst (monitor_downloads clock find_circuits dslist c) = Ret tt.
Proof.
  unfold monitor_downloads, bind, gets. cbn [id].
  match goal with
  | |- context [fold_each dslist _ ?l0 c] =>
      destruct (monitor_download_loop dslist l0 c) as (l & c1 & -> & Hdom)
  end.
  specialize (Hdom eq_refl).
  match goal with
  | |- context [monitor_hidden_swarms ?ns ?hs ?c2] =>
      destruct (monitor_hidden_swarms_run ns hs c2) as (es & -> & _);
        [rewrite Hdom; reflexivity|]
  end.
  reflexivity.
Qed.
End Monitor.

Import Scenario.

Lemma monitor_hidden_swarms_joins_witness :
  exists es,
    monitor_hidden_swarms {[lookup := DOWNLOADING]} {[lookup := 1]} (with_old_states idle)
    = (Ret tt, with_trace (with_old_states idle) (trace (with_old_states idle) ++ es))
    /\ join_count lookup es = 0%nat.
Proof.
  destruct (monitor_hidden_swarms_joins {[lookup := DOWNLOADING]} {[lookup := 1]}
              (with_old_states idle)) as (es & Hrun & Hcount).
  - rewrite !dom_singleton_L. reflexivity.
  - exists es. split; [exact Hrun|].
    destruct (Hcount lookup) as (-> & _ & _).
    + apply elem_of_union_l, elem_of_dom. vm_compute. eauto.
    + vm_compute. reflexivity.
Defined.

Lemma every_100s_monotone k : (every_100s k <= every_100s (S k))%Q.
Proof. unfold every_100s. rewrite <- Zle_Qle. lia. Qed.

Lemma forced_announce_throttle_witness :
  (0 < 3)%nat /\ (every_100s 1 + 60 <= every_100s (pred 3))%Q.
Proof.
  apply (forced_announce_throttle every_100s always_a_circuit every_100s_monotone
           idle after_two_polls) with (i := 0%nat) (j := 1%nat) (ih := real_info_hash).
  - split; reflexivity.
  - eapply rtc_l; [apply (step_poll _ _ idle polled)|].
    eapply rtc_l; [apply (step_poll _ _ after_one_poll polled)|].
    apply rtc_refl.
  - lia.
  - vm_compute. reflexivity.
  - vm_compute. reflexivity.
Defined.

(** * Further properties of the community *)

(** ** The download monitor *)

Lemma same_registry_refl c : same_registry c c.
Proof. repeat split. Qed.

Lemma same_registry_trans c1 c2 c3 :
  same_registry c1 c2 -> same_registry c2 c3 -> same_registry c1 c3.
Proof.
  unfold same_registry. intros (? & ? & ? & ? & ? & ?) (? & ? & ? & ? & ? & ?).
  repeat split; congruence.
Qed.

Section MonitorRun.
Context (clock : nat -> Q) (find_circuits : gmap Z Circuit -> Z -> list Circuit).

Lemma monitor_download_run l ds c :
  exists c',
    monitor_download clock find_circuits l ds c = (Ret (monitor_download_locals l ds), c')
    /\ same_registry c c'
    /\ exists es, trace c' = trace c ++ es
                  /\ Forall (fun e => is_swarm_change e = false) es.
Proof.
  unfold monitor_download, monitor_download_locals.
  generalize (get_lookup_info_hash (def_infohash (ds_download ds))). intros ih.
  destruct (hidden (ds_download ds)).
  { exists c. split; [reflexivity|]. split; [apply same_registry_refl|].
    exists []. rewrite app_nil_r. split; [reflexivity | constructor]. }
  destruct (0 <? config_hops (ds_download ds)).
  2:{ exists c. split; [reflexivity|]. split; [apply same_registry_refl|].
      exists []. rewrite app_nil_r. split; [reflexivity | constructor]. }
  destruct (bool_decide (Some (state_status (ds_download ds)) ∈ active)).
  2:{ exists c. split; [reflexivity|]. split; [apply same_registry_refl|].
      exists []. rewrite app_nil_r. split; [reflexivity | constructor]. }
  unfold bind, gets, time_time, emit, ret. cbn beta iota.
  destruct (Qle_bool _ _ && _ && _ && _); cbn beta iota.
  - eexists. split; [reflexivity|]. split; [repeat split|].
    eexists. cbn [trace with_trace with_ticks with_last_forced_announce].
    split; [reflexivity|]. repeat constructor.
  - eexists. split; [reflexivity|]. split; [repeat split|].
    exists []. cbn [trace with_ticks]. rewrite app_nil_r. split; [reflexivity | constructor].
Qed.

Lemma monitor_download_fold dslist :
  forall l c, exists c',
    fold_each dslist (monitor_download clock find_circuits) l c
    = (Ret (fold_left monitor_download_locals dslist l), c')
    /\ same_registry c c'
    /\ exists es, trace c' = trace c ++ es
                  /\ Forall (fun e => is_swarm_change e = false) es.
Proof.
  induction dslist as [|ds rest IH]; intros l c.
  - exists c. split; [reflexivity|]. split; [apply same_registry_refl|].
    exists []. rewrite app_nil_r. split; [reflexivity | constructor].
  - destruct (monitor_download_run l ds c) as (c1 & Hrun1 & Hsame1 & es1 & Htr1 & Hes1).
    destruct (IH (monitor_download_locals l ds) c1)
      as (c2 & Hrun2 & Hsame2 & es2 & Htr2 & Hes2).
    exists c2. cbn. unfold bind. rewrite Hrun1, Hrun2.
    split; [reflexivity|]. split; [eapply same_registry_trans; eassumption|].
    exists (es1 ++ es2). rewrite Htr2, Htr1, app_assoc. split; [reflexivity|].
    apply Forall_app. split; assumption.
Qed.

(** The keys of [hops] and [new_states] are the same set. *)
Lemma monitor_locals_dom dslist l :
  dom (new_states l) = dom (hops l) ->
  dom (new_states (fold_left monitor_download_locals dslist l))
  = dom (hops (fold_left monitor_download_locals dslist l)).
Proof.
  revert l. induction dslist as [|ds rest IH]; intros l Hdom; [exact Hdom|].
  cbn [fold_left]. apply IH. unfold monitor_download_locals.
  generalize (get_lookup_info_hash (def_infohash (ds_download ds))). intros ih.
  destruct (hidden _); [exact Hdom|]. destruct (0 <? _); [|exact Hdom].
  destruct (bool_decide _); cbn [new_states hops]; rewrite !dom_insert_L, Hdom; reflexivity.
Qed.

(** How [monitor_downloads] runs: the loop, then the circuits needed, the
    swarms, and the new states. *)
Lemma monitor_downloads_run dslist c :
  exists c1 es,
    let l := fold_left monitor_download_locals dslist (monitor_locals_start c) in
    let c2 := with_circuits_needed c1
                (clamp (min_circuits c) (max_circuits c) <$> active_downloads_per_hop l) in
    same_registry c c1
    /\ (exists es1, trace c1 = trace c ++ es1
                    /\ Forall (fun e => is_swarm_change e = false) es1)
    /\ monitor_hidden_swarms (new_states l) (hops l) c2
       = (Ret tt, with_trace c2 (trace c2 ++ es))
    /\ monitor_downloads clock find_circuits dslist c
       = (Ret tt, with_download_states (with_trace c2 (trace c1 ++ es)) (new_states l)).
Proof.
  destruct (monitor_download_fold dslist (monitor_locals_start c) c)
    as (c1 & Hfold & Hsame & Hes1).
  set (l := fold_left monitor_download_locals dslist (monitor_locals_start c)) in *.
  destruct (monitor_hidden_swarms_run (new_states l) (hops l)
              (with_circuits_needed c1
                 (clamp (min_circuits c) (max_circuits c) <$> active_downloads_per_hop l)))
    as (es & Hswarm & _).
  { unfold l. rewrite monitor_locals_dom; [reflexivity|]. reflexivity. }
  exists c1, es. cbn zeta. split; [exact Hsame|]. split; [exact Hes1|].
  split; [exact Hswarm|].
  unfold monitor_downloads, bind, gets. cbn [id].
  change {| new_states := ∅; hops := ∅;
            active_downloads_per_hop :=
              if 0 <? default_hops c then {[default_hops c := 0]} else ∅ |}
    with (monitor_locals_start c).
  rewrite Hfold. fold l.
  destruct Hsame as (Hmin & Hmax & _).
  unfold clamp in Hswarm |- *. rewrite Hmin, Hmax, Hswarm. reflexivity.
Qed.

(** X1: [_poll_download_manager] never comes to its [except] branch on
    account of the monitor: [monitor_downloads] returns normally for every
    list of download states and every community, so in particular the
    lookup [hops[info_hash]] never misses. *)
Theorem poll_download_manager_never_fails dl_states c :
  _poll_download_manager clock find_circuits dl_states c
  = monitor_downloads clock find_circuits dl_states c
  /\ fst (monitor_downloads clock find_circuits dl_states c) = Ret tt.
Proof.
  destruct (monitor_downloads_run dl_states c) as (c1 & es & _ & _ & _ & Hrun).
  cbn zeta in Hrun. unfold _poll_download_manager, try_except. rewrite Hrun.
  split; reflexivity.
Qed.

Lemma active_count_cons ds rest h :
  active_count (ds :: rest) h
  = (if monitored ds && is_active ds && (config_hops (ds_download ds) =? h) then 1 else 0)
    + active_count rest h.
Proof.
  unfold active_count. cbn [List.filter].
  destruct (monitored ds && is_active ds && _); cbn [length]; lia.
Qed.

Lemma monitor_locals_active dslist :
  forall l h,
    active_downloads_per_hop (fold_left monitor_download_locals dslist l) !! h
    = if active_count dslist h =? 0 then active_downloads_per_hop l !! h
      else Some (default 0 (active_downloads_per_hop l !! h) + active_count dslist h).
Proof.
  induction dslist as [|ds rest IH]; intros l h; [reflexivity|].
  cbn [fold_left]. rewrite IH, active_count_cons.
  assert (Hnn : 0 <= active_count rest h) by (unfold active_count; lia).
  unfold monitor_download_locals, monitored, is_active.
  generalize (get_lookup_info_hash (def_infohash (ds_download ds))). intros ih.
  destruct (hidden (ds_download ds)); cbn [negb andb]; [reflexivity|].
  destruct (0 <? config_hops (ds_download ds)); cbn [andb]; [|reflexivity].
  destruct (bool_decide (Some (state_status (ds_download ds)) ∈ active));
    cbn [andb active_downloads_per_hop]; [|reflexivity].
  destruct (Z.eqb_spec (config_hops (ds_download ds)) h) as [->|Hne].
  - rewrite lookup_insert_eq. cbn [default id].
    destruct (Z.eqb_spec (active_count rest h) 0) as [Hz|Hz];
      destruct (Z.eqb_spec (1 + active_count rest h) 0); try lia; f_equal; unfold id; lia.
  - rewrite lookup_insert_ne by assumption. reflexivity.
Qed.

Lemma active_count_nonneg dslist h : 0 <= active_count dslist h.
Proof. unfold active_count. lia. Qed.

(** X2: after [monitor_downloads], [circuits_needed] holds, for the
    default hop count (when positive) and for every hop count some active
    anonymous download asks for, the number of those downloads clamped
    between [min_circuits] and [max_circuits], and nothing for any other
    hop count; no entry exceeds [max_circuits]. *)
Theorem monitor_downloads_circuits_needed dslist c h :
  let c' := snd (monitor_downloads clock find_circuits dslist c) in
  circuits_needed c' !! h
  = (if (0 <? active_count dslist h)
        || ((0 <? default_hops c) && (default_hops c =? h))
     then Some (clamp (min_circuits c) (max_circuits c) (active_count dslist h))
     else None)
  /\ (forall n, circuits_needed c' !! h = Some n -> n <= max_circuits c).
Proof.
  destruct (monitor_downloads_run dslist c) as (c1 & es & _ & _ & _ & Hrun).
  cbn zeta in *. rewrite Hrun. cbn [snd circuits_needed with_download_states with_trace
                                     with_circuits_needed].
  assert (Hlookup :
    (clamp (min_circuits c) (max_circuits c)
       <$> active_downloads_per_hop
             (fold_left monitor_download_locals dslist (monitor_locals_start c))) !! h
    = (if (0 <? active_count dslist h)
          || ((0 <? default_hops c) && (default_hops c =? h))
       then Some (clamp (min_circuits c) (max_circuits c) (active_count dslist h))
       else None)).
  { rewrite lookup_fmap, monitor_locals_active.
    pose proof (active_count_nonneg dslist h) as Hnn.
    unfold monitor_locals_start. cbn [active_downloads_per_hop].
    destruct (Z.eqb_spec (active_count dslist h) 0) as [Hz|Hz].
    - rewrite Hz. cbn [Z.ltb Z.compare orb].
      destruct (0 <? default_hops c); cbn [andb].
      + destruct (Z.eqb_spec (default_hops c) h) as [->|Hne].
        * rewrite lookup_singleton_eq. reflexivity.
        * rewrite lookup_singleton_ne by assumption. reflexivity.
      + rewrite lookup_empty. reflexivity.
    - rewrite (proj2 (Z.ltb_lt 0 (active_count dslist h))) by lia. cbn [orb fmap option_fmap option_map].
      do 2 f_equal.
      destruct (0 <? default_hops c).
      + destruct (Z.eqb_spec (default_hops c) h) as [->|Hne].
        * rewrite lookup_singleton_eq. unfold default. cbn [from_option id]. lia.
        * rewrite lookup_singleton_ne by assumption. unfold default.
          cbn [from_option id]. lia.
      + rewrite lookup_empty. unfold default. cbn [from_option id]. lia. }
  split; [exact Hlookup|].
  intros n. rewrite Hlookup. destruct (_ || _); [|discriminate].
  intros [= <-]. unfold clamp. lia.
Qed.

Lemma monitor_locals_states dslist :
  forall l ih s,
    new_states (fold_left monitor_download_locals dslist l) !! ih = Some s ->
    new_states l !! ih = Some s
    \/ exists ds, ds ∈ dslist /\ monitored ds = true /\ lookup_of ds = ih
                  /\ ds_status ds = s.
Proof.
  induction dslist as [|ds rest IH]; intros l ih s Hlook; [left; exact Hlook|].
  cbn [fold_left] in Hlook. apply IH in Hlook as [Hlook | (ds' & Hin & Hrest)].
  - unfold monitor_download_locals in Hlook. unfold monitored, lookup_of.
    destruct (hidden (ds_download ds)) eqn:Hhid; [left; exact Hlook|].
    destruct (0 <? config_hops (ds_download ds)) eqn:Hhops; [|left; exact Hlook].
    assert (Hnew : <[get_lookup_info_hash (def_infohash (ds_download ds)) := ds_status ds]>
                     (new_states l) !! ih = Some s).
    { destruct (bool_decide _); exact Hlook. }
    destruct (decide (get_lookup_info_hash (def_infohash (ds_download ds)) = ih))
      as [Heq | Hne].
    + rewrite Heq, lookup_insert_eq in Hnew. injection Hnew as <-.
      right. exists ds. rewrite Hhid, Hhops. repeat split; [left | exact Heq].
    + rewrite lookup_insert_ne in Hnew by assumption. left. exact Hnew.
  - right. exists ds'. split; [right; exact Hin | exact Hrest].
Qed.

Lemma monitor_locals_keeps dslist :
  forall l ih, is_Some (new_states l !! ih) ->
               is_Some (new_states (fold_left monitor_download_locals dslist l) !! ih).
Proof.
  induction dslist as [|ds rest IH]; intros l ih Hsome; [exact Hsome|].
  cbn [fold_left]. apply IH. unfold monitor_download_locals.
  destruct (hidden _); [exact Hsome|]. destruct (0 <? _); [|exact Hsome].
  assert (is_Some (<[get_lookup_info_hash (def_infohash (ds_download ds)) := ds_status ds]>
                     (new_states l) !! ih)).
  { rewrite lookup_insert. case_decide; [eauto | exact Hsome]. }
  destruct (bool_decide _); assumption.
Qed.

Lemma monitor_locals_takes_up dslist :
  forall l ds, ds ∈ dslist -> monitored ds = true ->
    is_Some (new_states (fold_left monitor_download_locals dslist l) !! lookup_of ds).
Proof.
  induction dslist as [|ds0 rest IH]; intros l ds Hin Hmon.
  - apply elem_of_nil in Hin. contradiction.
  - cbn [fold_left]. apply elem_of_cons in Hin as [-> | Hin]; [|apply IH; assumption].
    apply monitor_locals_keeps. unfold monitor_download_locals, lookup_of.
    unfold monitored in Hmon. apply andb_prop in Hmon as [Hhid Hhops].
    apply negb_true_iff in Hhid. rewrite Hhid, Hhops.
    assert (is_Some (<[get_lookup_info_hash (def_infohash (ds_download ds0)) := ds_status ds0]>
                       (new_states l)
                     !! get_lookup_info_hash (def_infohash (ds_download ds0)))).
    { rewrite lookup_insert_eq. eauto. }
    destruct (bool_decide _); assumption.
Qed.

(** X3: after [monitor_downloads], [download_states] has an entry for the
    lookup infohash of every download that is neither hidden nor without
    hops, and for nothing else: every entry carries the status of such a
    download of the list. Hidden and zero-hop downloads leave no entry. *)
Theorem monitor_downloads_new_states dslist c :
  let c' := snd (monitor_downloads clock find_circuits dslist c) in
  (forall ds, ds ∈ dslist -> monitored ds = true ->
              is_Some (download_states c' !! lookup_of ds))
  /\ (forall ih s, download_states c' !! ih = Some s ->
        exists ds, ds ∈ dslist /\ monitored ds = true /\ lookup_of ds = ih
                   /\ ds_status ds = s).
Proof.
  destruct (monitor_downloads_run dslist c) as (c1 & es & _ & _ & _ & Hrun).
  cbn zeta in *. rewrite Hrun. cbn [snd download_states with_download_states]. split.
  - intros ds Hin Hmon. apply monitor_locals_takes_up; assumption.
  - intros ih s Hlook. apply monitor_locals_states in Hlook as [Hempty | Hds].
    + cbn in Hempty. rewrite lookup_empty in Hempty. discriminate.
    + exact Hds.
Qed.
End MonitorRun.

(** ** Joining and leaving hidden swarms *)

Lemma count_events_app f es1 es2 :
  count_events f (es1 ++ es2) = (count_events f es1 + count_events f es2)%nat.
Proof. unfold count_events. rewrite List.filter_app, length_app. reflexivity. Qed.

Lemma count_events_flat_map {A} `{EqDecision A} (f : event -> bool)
    (g : A -> list event) (l : list A) (k : A) :
  NoDup l ->
  (forall x, x ≠ k -> count_events f (g x) = 0%nat) ->
  count_events f (flat_map g l)
  = if bool_decide (k ∈ l) then count_events f (g k) else 0%nat.
Proof.
  intros Hnodup Hother. induction Hnodup as [|x rest Hnotin Hnodup IH].
  - reflexivity.
  - cbn [flat_map]. rewrite count_events_app, IH.
    destruct (decide (x = k)) as [->|Hne].
    + rewrite (bool_decide_true (k ∈ k :: rest)) by left.
      rewrite (bool_decide_false (k ∈ rest)) by assumption. lia.
    + rewrite Hother by assumption.
      destruct (decide (k ∈ rest)) as [Hin|Hout].
      * rewrite !bool_decide_true; [reflexivity | right; assumption | assumption].
      * rewrite !bool_decide_false; [reflexivity | | assumption].
        rewrite elem_of_cons. intros [-> | ?]; [congruence | contradiction].
Qed.

Lemma count_introductions ih ih' (l : list Z) :
  count_events (is_introduction ih')
    (flat_map (fun _ : Z => [Log INFO "Create introducing circuit for %s";
                             CreateIntroductionPoint ih]) l)
  = if bool_decide (ih = ih') then length l else 0%nat.
Proof.
  induction l as [|x rest IH]; [destruct (bool_decide _); reflexivity|].
  cbn [flat_map]. rewrite count_events_app, IH. unfold count_events. cbn.
  destruct (bool_decide (ih = ih')); reflexivity.
Qed.

Lemma introductions_no_swarm_change ih (l : list Z) :
  Forall (fun e => is_swarm_change e = false)
    (flat_map (fun _ : Z => [Log INFO "Create introducing circuit for %s";
                             CreateIntroductionPoint ih]) l).
Proof. induction l as [|x rest IH]; cbn; repeat constructor. exact IH. Qed.

Lemma swarm_predicates_exclusive old new :
  swarm_join_predicate old new = true -> swarm_leave_predicate old new = false.
Proof.
  unfold swarm_join_predicate, swarm_leave_predicate.
  intros Hjoin. apply andb_prop in Hjoin as [Hjoin _].
  apply andb_prop in Hjoin as [_ Hin]. apply bool_decide_eq_true in Hin.
  apply andb_false_intro2. apply bool_decide_eq_false. intros Hout.
  repeat rewrite elem_of_cons in Hin. repeat rewrite elem_of_cons in Hout.
  rewrite elem_of_nil in Hin, Hout. intuition congruence.
Qed.

Section SwarmPass.
Context (new_states : gmap bytes DownloadStatus) (hops : gmap bytes Z)
        (ip_counter : gmap (option bytes) Z).

Lemma join_or_leave_swarm_events ih old new c :
  (is_Some new -> is_Some (hops !! ih)) ->
  join_or_leave_swarm hops ih old new c
  = (Ret tt,
     with_trace c
       (trace c
        ++ (if swarm_join_predicate old new then
              [JoinSwarm ih (default 0 (hops !! ih)) (bool_decide (new = Some SEEDING))]
            else if swarm_leave_predicate old new then [LeaveSwarm ih]
            else []))).
Proof.
  intros Hhops. unfold join_or_leave_swarm. rewrite <- join_test_predicate.
  unfold swarm_leave_predicate.
  destruct (bool_decide (new ≠ old) && bool_decide (new ∈ active)) eqn:Hact.
  - destruct (bool_decide (old ≠ Some METADATA) || bool_decide (new ≠ Some DOWNLOADING)).
    + cbn [andb]. destruct (hops !! ih) as [h|] eqn:Hh; [reflexivity|].
      exfalso. apply andb_prop in Hact as [_ Hin]. apply bool_decide_eq_true in Hin.
      destruct new as [s|].
      * destruct Hhops as [h' Hh']; [eauto | discriminate].
      * unfold active in Hin. rewrite !elem_of_cons in Hin.
        destruct Hin as [?|[?|[?|Hnil]]]; try discriminate.
        apply elem_of_nil in Hnil. exact Hnil.
    + cbn [andb].
      assert (Hleave : bool_decide (new ≠ old) && bool_decide (new ∈ [Some STOPPED; None])
                       = false).
      { apply andb_prop in Hact as [_ Hin]. apply bool_decide_eq_true in Hin.
        apply andb_false_intro2, bool_decide_eq_false. intros Hout.
        unfold active in Hin.
        repeat rewrite elem_of_cons in Hin. repeat rewrite elem_of_cons in Hout.
        rewrite elem_of_nil in Hin, Hout. intuition congruence. }
      rewrite Hleave. unfold ret. rewrite with_trace_nil. reflexivity.
  - cbn [andb].
    destruct (bool_decide (new ≠ old) && bool_decide (new ∈ [Some STOPPED; None]));
      [reflexivity|]. unfold ret. rewrite with_trace_nil. reflexivity.
Qed.

Lemma ensure_introduction_point_events ih new c :
  ensure_introduction_point ip_counter ih new c
  = (Ret tt,
     with_trace c
       (trace c
        ++ (if bool_decide (new = Some SEEDING) then
              flat_map (fun _ : Z => [Log INFO "Create introducing circuit for %s";
                                      CreateIntroductionPoint ih])
                       (range (1 - default 0 (ip_counter !! Some ih)))
            else []))).
Proof.
  unfold ensure_introduction_point. destruct (bool_decide _).
  - apply (for_each_events _
             (fun _ => [Log INFO "Create introducing circuit for %s";
                        CreateIntroductionPoint ih])).
    intros x c1. unfold bind, logger, create_introduction_point, emit. cbn.
    rewrite <- app_assoc. reflexivity.
  - unfold ret. rewrite with_trace_nil. reflexivity.
Qed.

Lemma monitor_hidden_swarm_events ih c :
  (is_Some (new_states !! ih) -> is_Some (hops !! ih)) ->
  monitor_hidden_swarm new_states hops ip_counter ih c
  = (Ret tt,
     with_trace c
       (trace c ++ swarm_events new_states (download_states c) hops ip_counter ih)).
Proof.
  intros Hhops. unfold monitor_hidden_swarm, bind, gets. cbn [id].
  rewrite join_or_leave_swarm_events by assumption.
  rewrite ensure_introduction_point_events. cbn [trace with_trace].
  rewrite <- app_assoc. reflexivity.
Qed.

Lemma monitor_hidden_swarm_loop_events (l : list bytes) :
  (forall ih, ih ∈ l -> is_Some (new_states !! ih) -> is_Some (hops !! ih)) ->
  forall c,
    for_each l (monitor_hidden_swarm new_states hops ip_counter) c
    = (Ret tt,
       with_trace c
         (trace c
          ++ flat_map (swarm_events new_states (download_states c) hops ip_counter) l)).
Proof.
  induction l as [|ih rest IH]; intros Hhops c.
  - cbn. unfold ret. rewrite with_trace_nil. reflexivity.
  - cbn [for_each flat_map]. unfold bind.
    rewrite monitor_hidden_swarm_events by (apply Hhops; left).
    rewrite IH by (intros ih' Hin; apply Hhops; right; exact Hin).
    cbn [trace with_trace download_states]. rewrite <- app_assoc. reflexivity.
Qed.
End SwarmPass.

(** The whole pass, written out. *)
Lemma monitor_hidden_swarms_events new_states hops c :
  dom new_states ⊆ dom hops ->
  monitor_hidden_swarms new_states hops c
  = (Ret tt,
     with_trace c
       (trace c
        ++ flat_map (swarm_events new_states (download_states c) hops (ip_counter_of c))
                    (elements (dom new_states ∪ dom (download_states c))))).
Proof.
  intros Hdom. unfold monitor_hidden_swarms, bind, gets. cbn [id].
  apply monitor_hidden_swarm_loop_events.
  intros ih _ Hsome. apply elem_of_dom, Hdom, elem_of_dom. exact Hsome.
Qed.

Lemma swarm_events_leaves new_states old_states hops ipc ih ih' :
  count_events (is_leave ih') (swarm_events new_states old_states hops ipc ih)
  = if bool_decide (ih = ih')
       && swarm_leave_predicate (old_states !! ih) (new_states !! ih)
    then 1%nat else 0%nat.
Proof.
  unfold swarm_events. rewrite count_events_app.
  assert (Hintro : count_events (is_leave ih')
            (if bool_decide (new_states !! ih = Some SEEDING)
             then flat_map (fun _ : Z => [Log INFO "Create introducing circuit for %s";
                                          CreateIntroductionPoint ih])
                           (range (1 - default 0 (ipc !! Some ih)))
             else []) = 0%nat).
  { destruct (bool_decide _); [|reflexivity].
    induction (range _) as [|x rest IH]; [reflexivity | exact IH]. }
  rewrite Hintro, Nat.add_0_r.
  destruct (swarm_join_predicate _ _) eqn:Hjoin.
  - rewrite (swarm_predicates_exclusive _ _ Hjoin), andb_false_r. reflexivity.
  - destruct (swarm_leave_predicate _ _).
    + unfold count_events. cbn. destruct (bool_decide (ih = ih')); reflexivity.
    + rewrite andb_false_r. reflexivity.
Qed.

Lemma swarm_events_introductions new_states old_states hops ipc ih ih' :
  count_events (is_introduction ih') (swarm_events new_states old_states hops ipc ih)
  = if bool_decide (ih = ih') && bool_decide (new_states !! ih = Some SEEDING)
    then Z.to_nat (1 - default 0 (ipc !! Some ih)) else 0%nat.
Proof.
  unfold swarm_events. rewrite count_events_app.
  assert (Hhead : forall es,
            es = [JoinSwarm ih (default 0 (hops !! ih))
                    (bool_decide (new_states !! ih = Some SEEDING))]
            \/ es = [LeaveSwarm ih] \/ es = [] ->
            count_events (is_introduction ih') es = 0%nat).
  { intros es [-> | [-> | ->]]; reflexivity. }
  rewrite Hhead by (destruct (swarm_join_predicate _ _);
                    [|destruct (swarm_leave_predicate _ _)]; auto).
  destruct (bool_decide (new_states !! ih = Some SEEDING)).
  - rewrite count_introductions, length_range.
    destruct (bool_decide (ih = ih')); reflexivity.
  - rewrite andb_false_r. reflexivity.
Qed.

(** X5: for every infohash [monitor_hidden_swarms] examines, [leave_swarm]
    is called, once, exactly when the state changed and the new state is
    STOPPED or the download is gone; and no infohash is both joined and
    left in one pass. *)
Theorem monitor_hidden_swarms_leaves new_states hops c :
  dom new_states ⊆ dom hops ->
  exists es,
    monitor_hidden_swarms new_states hops c = (Ret tt, with_trace c (trace c ++ es))
    /\ forall ih,
         ih ∈ dom new_states ∪ dom (download_states c) ->
         count_events (is_leave ih) es
         = (if swarm_leave_predicate (download_states c !! ih) (new_states !! ih)
            then 1 else 0)%nat
         /\ (0 < join_count ih es -> count_events (is_leave ih) es = 0)%nat.
Proof.
  intros Hdom. eexists. split; [apply monitor_hidden_swarms_events; exact Hdom|].
  intros ih Hin.
  assert (Hleave :
    count_events (is_leave ih)
      (flat_map (swarm_events new_states (download_states c) hops (ip_counter_of c))
                (elements (dom new_states ∪ dom (download_states c))))
    = (if swarm_leave_predicate (download_states c !! ih) (new_states !! ih)
       then 1 else 0)%nat).
  { rewrite (count_events_flat_map _ _ _ ih).
    - rewrite bool_decide_true by (apply elem_of_elements; exact Hin).
      rewrite swarm_events_leaves, bool_decide_true by reflexivity. reflexivity.
    - apply NoDup_elements.
    - intros ih' Hne. rewrite swarm_events_leaves, bool_decide_false by assumption.
      reflexivity. }
  split; [exact Hleave|].
  rewrite Hleave.
  destruct (monitor_hidden_swarms_run new_states hops c Hdom) as (es' & Hrun & Hcount).
  rewrite monitor_hidden_swarms_events in Hrun by exact Hdom.
  injection Hrun as Hrun. apply app_inv_head in Hrun. rewrite Hrun, (Hcount ih Hin).
  destruct (swarm_join_predicate _ _) eqn:Hjoin; [|lia].
  rewrite (swarm_predicates_exclusive _ _ Hjoin). reflexivity.
Qed.

Lemma Counter_lookup `{Countable K} (l : list K) (k : K) :
  default 0 (Counter l !! k)
  = Z.of_nat (length (List.filter (fun x => bool_decide (x = k)) l)).
Proof.
  induction l as [|x rest IH]; [reflexivity|].
  cbn [Counter foldr List.filter]. fold (Counter rest).
  destruct (decide (x = k)) as [->|Hne].
  - rewrite lookup_insert_eq, bool_decide_true by reflexivity.
    cbn [length]. rewrite <- Nat.add_1_r, Nat2Z.inj_add, <- IH. reflexivity.
  - rewrite lookup_insert_ne, bool_decide_false by assumption. exact IH.
Qed.

Lemma ip_counter_of_lookup c ih :
  default 0 (ip_counter_of c !! Some ih) = introducing_circuits c ih.
Proof.
  unfold ip_counter_of, introducing_circuits. rewrite Counter_lookup. f_equal.
  induction (map snd (map_to_list (circuits c))) as [|x rest IH]; [reflexivity|].
  cbn [List.filter]. destruct (bool_decide (ctype x = CIRCUIT_TYPE_IP_SEEDER)); cbn [andb].
  - cbn [map List.filter]. destruct (bool_decide (info_hash x = Some ih)); cbn [length];
      rewrite IH; reflexivity.
  - exact IH.
Qed.

(** X6: in one pass of [monitor_hidden_swarms] an infohash that is now
    seeding gets [1 - n] calls of [create_introduction_point], where [n]
    counts the circuits of type IP_SEEDER for it: one call when there is
    none, no call when there is one already. An infohash that is not
    seeding gets none. *)
Theorem monitor_hidden_swarms_introductions new_states hops c :
  dom new_states ⊆ dom hops ->
  exists es,
    monitor_hidden_swarms new_states hops c = (Ret tt, with_trace c (trace c ++ es))
    /\ forall ih,
         count_events (is_introduction ih) es
         = if bool_decide (new_states !! ih = Some SEEDING)
           then Z.to_nat (1 - introducing_circuits c ih) else 0%nat.
Proof.
  intros Hdom. eexists. split; [apply monitor_hidden_swarms_events; exact Hdom|].
  intros ih. rewrite (count_events_flat_map _ _ _ ih).
  - rewrite swarm_events_introductions, (bool_decide_true (ih = ih)) by reflexivity.
    cbn [andb].
    rewrite ip_counter_of_lookup.
    destruct (decide (ih ∈ elements (dom new_states ∪ dom (download_states c))))
      as [Hin | Hout].
    + rewrite bool_decide_true by assumption. reflexivity.
    + rewrite bool_decide_false by assumption.
      rewrite bool_decide_false; [reflexivity|]. intros Hseed. apply Hout.
      apply elem_of_elements, elem_of_union_l, elem_of_dom. eauto.
  - apply NoDup_elements.
  - intros ih' Hne. rewrite swarm_events_introductions, bool_decide_false by assumption.
    reflexivity.
Qed.

Lemma swarm_events_unchanged states hops ipc ih :
  Forall (fun e => is_swarm_change e = false) (swarm_events states states hops ipc ih).
Proof.
  unfold swarm_events, swarm_join_predicate, swarm_leave_predicate.
  rewrite (bool_decide_false (states !! ih ≠ states !! ih)) by (intros Hne; apply Hne; reflexivity).
  cbn [andb app]. destruct (bool_decide _); [|constructor].
  apply introductions_no_swarm_change.
Qed.

Section Idempotence.
Context (clock : nat -> Q) (find_circuits : gmap Z Circuit -> Z -> list Circuit).

(** X4: polling the same download states a second time joins and leaves
    no swarm: what [monitor_downloads] sends out the second time holds no
    [join_swarm] and no [leave_swarm]. *)
Theorem monitor_downloads_twice dslist c :
  let c1 := snd (monitor_downloads clock find_circuits dslist c) in
  exists es,
    trace (snd (monitor_downloads clock find_circuits dslist c1)) = trace c1 ++ es
    /\ Forall (fun e => is_swarm_change e = false) es.
Proof.
  destruct (monitor_downloads_run clock find_circuits dslist c)
    as (c1 & es1 & Hsame1 & _ & _ & Hrun1).
  cbn zeta in *. rewrite Hrun1. cbn [snd].
  set (l := fold_left monitor_download_locals dslist (monitor_locals_start c)) in *.
  set (c' := with_download_states _ (new_states l)).
  destruct (monitor_downloads_run clock find_circuits dslist c')
    as (c2 & es2 & Hsame2 & (es & Htrace & Hquiet) & Hswarm & Hrun2).
  cbn zeta in *.
  assert (Hstart : monitor_locals_start c' = monitor_locals_start c).
  { destruct Hsame1 as (_ & _ & Hhops & _). unfold monitor_locals_start, c'.
    cbn [default_hops with_download_states with_trace with_circuits_needed].
    rewrite Hhops. reflexivity. }
  rewrite Hstart in Hswarm, Hrun2. fold l in Hswarm, Hrun2.
  rewrite Hrun2. cbn [snd trace with_download_states with_trace].
  exists (es ++ es2). rewrite Htrace, app_assoc. split; [reflexivity|].
  apply Forall_app. split; [exact Hquiet|].
  rewrite monitor_hidden_swarms_events in Hswarm
    by (unfold l; rewrite monitor_locals_dom; reflexivity).
  injection Hswarm as Hswarm. apply app_inv_head in Hswarm. rewrite <- Hswarm.
  cbn [download_states with_circuits_needed].
  destruct Hsame2 as (_ & _ & _ & _ & -> & _). cbn [download_states with_download_states].
  apply Forall_flat_map, Forall_forall. intros ih _. apply swarm_events_unchanged.
Qed.
End Idempotence.

(** ** The HTTP exit, when the fetch goes wrong *)

Lemma read_body_raises rest acc e :
  read_body rest acc = Raise e -> (exists what, e = OSError what) \/ e = AsyncTimeoutError.
Proof. destruct rest; cbn; intros Heq; inversion Heq; eauto. Qed.

Lemma read_response_raises lines rest acc e :
  read_response lines rest acc = Raise e ->
  (exists what, e = OSError what) \/ e = AsyncTimeoutError.
Proof.
  revert acc. induction lines as [|[line|what|] more IH]; intros acc Hread; cbn in Hread.
  - eapply read_body_raises. exact Hread.
  - destruct (bool_decide _); [eapply read_body_raises; exact Hread | eauto].
  - inversion Hread. eauto.
  - inversion Hread. eauto.
Qed.

Lemma count_events_sends f to cells :
  (forall cell, f (SendCell to cell) = false) ->
  count_events f (map (SendCell to) cells) = 0%nat.
Proof.
  intros Hf. unfold count_events.
  induction cells as [|cell rest IH]; [reflexivity|]. cbn. rewrite Hf. exact IH.
Qed.

Lemma writer_calls_app es es' : writer_calls (es ++ es') = writer_calls es ++ writer_calls es'.
Proof. apply List.filter_app. Qed.

Lemma writer_calls_sends to cells : writer_calls (map (SendCell to) cells) = [].
Proof. induction cells as [|cell rest IH]; [reflexivity | exact IH]. Qed.

Section ExitFailure.
Context (entry : Type) (bdecode : bytes -> option entry).
Context (source_address : address) (payload : HTTPRequestPayload) (circuit_id : Z).

Local Abbreviation on_request :=
  (on_http_request entry bdecode source_address payload circuit_id).

Lemma on_http_request_connect_fails what c :
  exit_sockets c !! circuit_id ≠ None ->
  http_caches_count c circuit_id <= 5 ->
  on_request (ConnectFails what) c
  = (Ret tt,
     with_trace c
       (trace c ++ [Log DEBUG "Got http-request from %s";
                    Log DEBUG "Opening TCP connection to %s";
                    OpenConnection (req_target payload);
                    Log WARNING "Tunnel HTTP request failed"])).
Proof.
  intros Hexit Hfew. unfold on_http_request, bind, gets. cbn [id].
  rewrite bool_decide_false by assumption.
  rewrite (proj2 (Z.ltb_ge _ _)) by assumption.
  run_exit. rewrite <- !app_assoc. reflexivity.
Qed.

Lemma on_http_request_connect_stalls c :
  exit_sockets c !! circuit_id ≠ None ->
  http_caches_count c circuit_id <= 5 ->
  on_request ConnectStalls c
  = (Ret tt,
     with_trace c
       (trace c ++ [Log DEBUG "Got http-request from %s";
                    Log DEBUG "Opening TCP connection to %s";
                    OpenConnection (req_target payload);
                    Log WARNING "Tunnel HTTP request timed out"])).
Proof.
  intros Hexit Hfew. unfold on_http_request, bind, gets. cbn [id].
  rewrite bool_decide_false by assumption.
  rewrite (proj2 (Z.ltb_ge _ _)) by assumption.
  run_exit. rewrite <- !app_assoc. reflexivity.
Qed.

Lemma on_http_request_read_fails lines rest e c :
  exit_sockets c !! circuit_id ≠ None ->
  http_caches_count c circuit_id <= 5 ->
  read_response lines rest [] = Raise e ->
  on_request (Connected lines rest) c
  = (Ret tt,
     with_trace c
       (trace c ++ [Log DEBUG "Got http-request from %s";
                    Log DEBUG "Opening TCP connection to %s";
                    OpenConnection (req_target payload);
                    WriterWrite (req_request payload);
                    Log WARNING (match e with
                                 | AsyncTimeoutError => "Tunnel HTTP request timed out"
                                 | _ => "Tunnel HTTP request failed"
                                 end);
                    WriterClose])).
Proof.
  intros Hexit Hfew Hread.
  destruct (read_response_raises _ _ _ _ Hread) as [[what ->] | ->];
    unfold on_http_request, bind, gets; cbn [id];
    rewrite bool_decide_false by assumption;
    rewrite (proj2 (Z.ltb_ge _ _)) by assumption;
    run_exit; rewrite Hread; run_exit; rewrite <- !app_assoc; reflexivity.
Qed.

(** X7: when the fetch fails, because the connection is refused or stalls
    or a read fails or runs into the timeout, [on_http_request] returns
    normally, sends no cell back and logs the failure as a warning. *)
Theorem on_http_request_failed_fetch conn c :
  exit_sockets c !! circuit_id ≠ None ->
  http_caches_count c circuit_id <= 5 ->
  (forall lines rest, conn = Connected lines rest ->
                      exists e, read_response lines rest [] = Raise e) ->
  exists es,
    on_request conn c = (Ret tt, with_trace c (trace c ++ es))
    /\ sent_cells es = []
    /\ (Log WARNING "Tunnel HTTP request failed" ∈ es
        \/ Log WARNING "Tunnel HTTP request timed out" ∈ es).
Proof.
  intros Hexit Hfew Hfails. destruct conn as [what | | lines rest].
  - eexists. split; [apply on_http_request_connect_fails; assumption|].
    split; [reflexivity | left]. do 3 right. left.
  - eexists. split; [apply on_http_request_connect_stalls; assumption|].
    split; [reflexivity | right]. do 3 right. left.
  - destruct (Hfails lines rest eq_refl) as [e Hread].
    eexists. split; [apply (on_http_request_read_fails lines rest e); assumption|].
    split; [reflexivity|].
    destruct (read_response_raises _ _ _ _ Hread) as [[what ->] | ->];
      [left | right]; do 4 right; left.
Qed.

Lemma on_http_request_writer_calls conn c :
  exists es,
    on_request conn c = (Ret tt, with_trace c (trace c ++ es))
    /\ writer_calls es
       = if bool_decide (exit_sockets c !! circuit_id ≠ None)
            && (http_caches_count c circuit_id <=? 5) && is_connected conn
         then [WriterWrite (req_request payload); WriterClose] else [].
Proof.
  destruct (exit_sockets c !! circuit_id) as [sock|] eqn:Hexit.
  2:{ eexists. split; [apply on_http_request_not_exit; exact Hexit|].
      rewrite bool_decide_false by (intros Hne; apply Hne; reflexivity).
      reflexivity. }
  assert (Hsome : exit_sockets c !! circuit_id ≠ None) by congruence.
  rewrite <- Hexit, bool_decide_true by assumption.
  destruct (Z.leb_spec (http_caches_count c circuit_id) 5) as [Hfew | Hmany].
  2:{ eexists. split; [apply on_http_request_too_many; assumption|]. reflexivity. }
  cbn [andb]. destruct conn as [what | | lines rest].
  - eexists. split; [apply on_http_request_connect_fails; assumption|]. reflexivity.
  - eexists. split; [apply on_http_request_connect_stalls; assumption|]. reflexivity.
  - destruct (read_response lines rest []) as [response | e] eqn:Hread.
    + eexists. split; [apply (on_http_request_fetched _ _ _ _ _ lines rest response);
                       assumption|].
      rewrite writer_calls_app.
      destruct (startswith response _ || is_bencoded entry bdecode _).
      * rewrite writer_calls_sends. reflexivity.
      * reflexivity.
    + eexists. split; [apply (on_http_request_read_fails lines rest e); assumption|].
      cbn [is_connected]. reflexivity.
Qed.

(** X8: the writer is closed exactly when it was opened. Whether the peer
    refuses or stalls, or delivers lines and a body of which any read may
    fail or run into the timeout, the calls [on_http_request] makes on a
    writer are, in this order, one [write] of the request and one
    [close], if both guards let the request through and the connection
    was established; otherwise it makes none. *)
Theorem on_http_request_closes_writer conn c :
  writer_calls (trace (snd (on_request conn c)))
  = writer_calls (trace c)
    ++ (if bool_decide (exit_sockets c !! circuit_id ≠ None)
           && (http_caches_count c circuit_id <=? 5) && is_connected conn
        then [WriterWrite (req_request payload); WriterClose] else []).
Proof.
  destruct (on_http_request_writer_calls conn c) as (es & Hrun & Hcalls).
  rewrite Hrun. cbn [snd trace with_trace].
  rewrite writer_calls_app, Hcalls. reflexivity.
Qed.
End ExitFailure.

(** ** The read loop *)

Lemma read_response_lines before :
  Forall (fun line => strip line ≠ []) before ->
  forall more rest acc,
    read_response (map Data before ++ more) rest acc
    = read_response more rest (acc ++ concat before).
Proof.
  induction 1 as [|line before Hline _ IH]; intros more rest acc.
  - cbn. rewrite app_nil_r. reflexivity.
  - cbn [map app read_response concat].
    rewrite bool_decide_false by assumption. rewrite IH, <- app_assoc. reflexivity.
Qed.

(** X9: the read loop takes the lines up to and with the first blank one,
    then at most 1 MiB of what follows, and reads no further: lines after
    the blank one are never asked for, and a body longer than 1 MiB is cut.
    When the stream ends before a blank line, the body follows the last
    line. *)
Theorem read_response_headers_then_body before blank after body :
  Forall (fun line => strip line ≠ []) before ->
  strip blank = [] ->
  read_response (map Data before ++ Data blank :: after) (Data body) []
  = Ret (concat before ++ blank ++ take (Z.to_nat (1024 ^ 2)) body)
  /\ read_response (map Data before) (Data body) []
     = Ret (concat before ++ take (Z.to_nat (1024 ^ 2)) body)
  /\ (length (concat before ++ blank ++ take (Z.to_nat (1024 ^ 2)) body)
      <= length (concat before) + length blank + Z.to_nat (1024 ^ 2))%nat.
Proof.
  intros Hbefore Hblank. split; [|split].
  - rewrite read_response_lines by assumption. cbn [read_response app].
    rewrite bool_decide_true by assumption. cbn [read_body].
    rewrite <- app_assoc. reflexivity.
  - rewrite <- (app_nil_r (map Data before)), read_response_lines by assumption.
    reflexivity.
  - rewrite !length_app, length_take. generalize (Z.to_nat (1024 ^ 2)). lia.
Qed.

(** ** The policy on responses and the blank line *)

Lemma read_response_to_blank before blank after body :
  Forall (fun line => strip line ≠ []) before ->
  strip blank = [] ->
  read_response (map Data before ++ Data blank :: after) (Data body) []
  = Ret (concat before ++ blank ++ take (Z.to_nat (1024 ^ 2)) body).
Proof.
  intros Hbefore Hblank.
  rewrite read_response_lines by assumption. cbn [read_response app].
  rewrite bool_decide_true by assumption. cbn [read_body].
  rewrite <- app_assoc. reflexivity.
Qed.

Section PolicyBypass.
Context (entry : Type) (bdecode : bytes -> option entry).
Context (source_address : address) (payload : HTTPRequestPayload) (circuit_id : Z).

Local Abbreviation on_request :=
  (on_http_request entry bdecode source_address payload circuit_id).
Local Abbreviation is_bencoded := (is_bencoded entry bdecode).

(** C6: the policy is not kept for every response. The read loop ends
    the headers at the first line that is blank after [strip()], a bare
    line feed as well, and what it reads next is the body; the test for
    bencoded data looks at what follows the first CR LF CR LF instead.
    So a response that is no redirect, and whose body after the first
    blank line is not bencoded, is still sent back whole whenever bencoded
    data follows the first CR LF CR LF: every cell of it goes to the
    initiator and no refusal is logged. *)
Theorem on_http_request_passes_unbencoded (before : list bytes) (blank : bytes)
    (after : list read_outcome) (body : bytes) (c : Community) :
  exit_sockets c !! circuit_id ≠ None ->
  http_caches_count c circuit_id <= 5 ->
  Forall (fun line => strip line ≠ []) before ->
  strip blank = [] ->
  let received := take (Z.to_nat (1024 ^ 2)) body in
  let response := concat before ++ blank ++ received in
  startswith response (b_lit "HTTP/1.1 307") = false ->
  is_bencoded received = false ->
  is_bencoded (snd (partition response [x0d; x0a; x0d; x0a])) = true ->
  exists es,
    on_request (Connected (map Data before ++ Data blank :: after) (Data body)) c
    = (Ret tt, with_trace c (trace c ++ es))
    /\ sent_cells es
       = map (pair source_address)
             (response_cells circuit_id (req_identifier payload) response)
    /\ reassembled (sent_cells es) = response
    /\ Log WARNING "Tunnel HTTP request not allowed" ∉ es.
Proof.
  intros Hexit Hfew Hbefore Hblank received response Hstatus Hbody Hcheck.
  eexists. split.
  { rewrite (on_http_request_fetched entry bdecode source_address payload circuit_id
               _ _ response) by (try assumption; apply read_response_to_blank; assumption).
    unfold body_of. rewrite Hstatus, Hcheck. cbn [orb]. reflexivity. }
  rewrite sent_cells_forwarded. split; [reflexivity|]. split.
  - apply reassembled_cells.
  - intros Hin. apply elem_of_app in Hin as [Hin | Hin].
    + repeat (apply elem_of_cons in Hin as [Hin | Hin]; [discriminate Hin|]).
      apply elem_of_nil in Hin. exact Hin.
    + apply list_elem_of_fmap in Hin as (cell & Hcell & _). discriminate Hcell.
Qed.
End PolicyBypass.

Lemma on_http_request_passes_unbencoded_witness :
  is_bencoded unit dictionaries_only Inputs.lenient_body = false
  /\ exists es,
       on_http_request unit dictionaries_only initiator request 1 Inputs.lenient_page
         exit_node
       = (Ret tt, with_trace exit_node (trace exit_node ++ es))
       /\ reassembled (sent_cells es)
          = Inputs.lenient_head ++ Inputs.lf ++ Inputs.lenient_body.
Proof.
  split; [vm_compute; reflexivity|].
  destruct (on_http_request_passes_unbencoded unit dictionaries_only initiator request 1
              [Inputs.lenient_head] Inputs.lf [] Inputs.lenient_body exit_node)
    as (es & Hrun & _ & Hwhole & _).
  - vm_compute. discriminate.
  - apply Z.leb_le. vm_compute. reflexivity.
  - repeat constructor. vm_compute. discriminate.
  - vm_compute. reflexivity.
  - vm_compute. reflexivity.
  - vm_compute. reflexivity.
  - vm_compute. reflexivity.
  - exists es. split; [exact Hrun|]. exact Hwhole.
Defined.

(** ** The lookup infohash *)

Lemma be_bytes_length k x : length (SHA1.be_bytes k x) = k.
Proof.
  revert x. induction k as [|k IH]; intros x; [reflexivity|].
  cbn [SHA1.be_bytes]. rewrite length_app, IH. cbn. lia.
Qed.

(** X10: the lookup infohash of any infohash, of whatever length, is 20
    bytes long, like an infohash. *)
Theorem get_lookup_info_hash_length ih : length (get_lookup_info_hash ih) = 20%nat.
Proof.
  unfold get_lookup_info_hash, SHA1.digest.
  rewrite length_map, !length_app, !be_bytes_length. reflexivity.
Qed.

(** ** Writing the exit-node cache *)

(** X11: with a cache file configured, [cache_exitnodes_to_disk] never
    raises on a failing write: it writes the snapshot of the exit
    candidates, or logs the [OSError] as a warning and writes nothing. *)
Theorem cache_exitnodes_to_disk_logs (Network_snapshot : list address -> bytes) c cache :
  exitnode_cache c = Some cache ->
  cache_exitnodes_to_disk Network_snapshot c
  = (Ret tt,
     with_trace c
       (trace c ++ [Log INFO "Writing exit nodes to cache file";
                    match write_bytes cache (Network_snapshot (exit_candidates c)) with
                    | None => WriteBytes (Network_snapshot (exit_candidates c))
                    | Some what => Log WARNING what
                    end])).
Proof.
  intros Hcache. unfold cache_exitnodes_to_disk, bind, gets, try_except. cbn [id].
  rewrite Hcache. unfold logger. rewrite emit_run.
  destruct (write_bytes cache _); unfold raise; rewrite ?emit_run; cbn [trace with_trace];
    rewrite <- app_assoc; reflexivity.
Qed.

(** ** Finding the download of a hidden swarm *)

Module TorrentProps.
Import Torrents.

Local Abbreviation lookup_hash t := (get_lookup_info_hash (def_infohash (download t))).

Lemma first_download_some downloads ih t :
  first_download downloads ih = Some t -> t ∈ downloads /\ lookup_hash t = ih.
Proof.
  induction downloads as [|t0 rest IH]; cbn [first_download]; [discriminate|].
  case_bool_decide as Heq.
  - intros [= <-]. split; [left | symmetry; exact Heq].
  - intros Hrest. destruct (IH Hrest) as [Hin Hhash]. split; [right; exact Hin | exact Hhash].
Qed.

Lemma first_download_none downloads ih :
  first_download downloads ih = None <-> forall t, t ∈ downloads -> lookup_hash t ≠ ih.
Proof.
  induction downloads as [|t0 rest IH]; cbn [first_download].
  - split; [|reflexivity]. intros _ t Hin. apply elem_of_nil in Hin. contradiction.
  - case_bool_decide as Heq.
    + split; [discriminate|]. intros Hnone. exfalso. apply (Hnone t0); [left | congruence].
    + rewrite IH. split.
      * intros Hrest t Hin. apply elem_of_cons in Hin as [-> | Hin]; [congruence | auto].
      * intros Hall t Hin. apply Hall. right. exact Hin.
Qed.

(** X12: [get_download] answers with a download of the manager whose
    lookup infohash is the one asked for, and with [None] exactly when
    the manager has no such download (or there is no manager); so the
    lookup infohash of every download of the manager finds a download
    with that lookup infohash. *)
Theorem get_download_finds downloads ih :
  (forall t, get_download (Some downloads) ih = Some t ->
             t ∈ downloads /\ lookup_hash t = ih)
  /\ (get_download (Some downloads) ih = None
      <-> forall t, t ∈ downloads -> lookup_hash t ≠ ih)
  /\ (forall t, t ∈ downloads ->
        exists t', get_download (Some downloads) (lookup_hash t) = Some t'
                   /\ lookup_hash t' = lookup_hash t)
  /\ get_download None ih = None.
Proof.
  split; [|split; [|split]].
  - intros t. apply first_download_some.
  - apply first_download_none.
  - intros t Hin. cbn [get_download].
    destruct (first_download downloads (lookup_hash t)) as [t'|] eqn:Hfind.
    + exists t'. split; [reflexivity|]. apply (first_download_some _ _ _ Hfind).
    + exfalso. apply (proj1 (first_download_none _ _) Hfind t Hin). reflexivity.
  - reflexivity.
Qed.

(** X13: [on_e2e_finished] gives the peer to one download of the manager,
    one whose lookup infohash is that of the swarm, and when there is
    none it logs an error and gives the peer to no download. *)
Theorem on_e2e_finished_adds_peer download_manager peer ih :
  (exists downloads t,
     download_manager = Some downloads /\ t ∈ downloads /\ lookup_hash t = ih
     /\ on_e2e_finished download_manager peer ih = [AddPeer (torrent_id t) peer])
  \/ ((forall downloads t, download_manager = Some downloads -> t ∈ downloads ->
                           lookup_hash t ≠ ih)
      /\ on_e2e_finished download_manager peer ih
         = [LogError "Could not find download for adding hidden services peer %s:%d!"]).
Proof.
  unfold on_e2e_finished. destruct download_manager as [downloads|].
  - cbn [get_download]. destruct (first_download downloads ih) as [t|] eqn:Hfind.
    + left. exists downloads, t. destruct (first_download_some _ _ _ Hfind).
      repeat split; assumption.
    + right. split; [|reflexivity]. intros downloads' t [= <-].
      apply (proj1 (first_download_none _ _) Hfind).
  - right. split; [discriminate | reflexivity].
Qed.

(** ** Giving peers back after a circuit died *)

Lemma readd_fold (l : list (nat * gset address)) :
  forall calls m,
    fold_left readd_torrent l (calls, m)
    = (calls ++ flat_map (fun item =>
                            flat_map (fun peer => [LogInfo "Re-adding peer %s to torrent %s";
                                                   AddPeer item.1 peer])
                                     (elements item.2)) l,
       fold_left (fun m item => delete item.1 m) l m).
Proof.
  induction l as [|[t peers] rest IH]; intros calls m.
  - cbn. rewrite app_nil_r. reflexivity.
  - cbn [fold_left flat_map]. unfold readd_torrent at 2. cbn [fst snd].
    rewrite IH, <- app_assoc. reflexivity.
Qed.

Lemma delete_all_lookup (l : list (nat * gset address)) :
  forall (m : peers_by_torrent) k,
    fold_left (fun m item => delete item.1 m) l m !! k
    = if bool_decide (k ∈ l.*1) then None else m !! k.
Proof.
  induction l as [|[t peers] rest IH]; intros m k.
  - cbn. rewrite bool_decide_false; [reflexivity|]. apply not_elem_of_nil.
  - cbn [fold_left fmap list_fmap fst]. rewrite IH.
    destruct (decide (k ∈ rest.*1)) as [Hin | Hout].
    + rewrite !bool_decide_true; [reflexivity | right; exact Hin | exact Hin].
    + rewrite (bool_decide_false (k ∈ rest.*1)) by assumption.
      destruct (decide (k = t)) as [->|Hne].
      * rewrite lookup_delete_eq, bool_decide_true by left. reflexivity.
      * rewrite lookup_delete_ne by congruence.
        rewrite bool_decide_false; [reflexivity|].
        rewrite elem_of_cons. intros [? | ?]; [congruence | contradiction].
Qed.

Lemma elem_of_readd_calls (l : list (nat * gset address)) t p :
  AddPeer t p
  ∈ flat_map (fun item =>
                flat_map (fun peer => [LogInfo "Re-adding peer %s to torrent %s";
                                       AddPeer item.1 peer])
                         (elements item.2)) l
  <-> exists peers, (t, peers) ∈ l /\ p ∈ peers.
Proof.
  rewrite list_elem_of_In, in_flat_map. split.
  - intros ([t' peers] & Hitem & Hin). apply in_flat_map in Hin as (p' & Hp' & Hin).
    cbn in Hin. destruct Hin as [Hin | [Hin | []]]; [discriminate|].
    injection Hin as -> ->. exists peers. split.
    + apply list_elem_of_In. exact Hitem.
    + apply elem_of_elements, list_elem_of_In. exact Hp'.
  - intros (peers & Hitem & Hp). exists (t, peers). split.
    + apply list_elem_of_In. exact Hitem.
    + apply in_flat_map. exists p. split.
      * apply list_elem_of_In, elem_of_elements. exact Hp.
      * cbn. right. left. reflexivity.
Qed.

Lemma readd_empties (bittorrent_peers : peers_by_torrent) :
  snd (readd_bittorrent_peers bittorrent_peers) = ∅.
Proof.
  unfold readd_bittorrent_peers. rewrite readd_fold. cbn [snd].
  apply map_eq. intros k. rewrite delete_all_lookup, lookup_empty.
  case_bool_decide as Hin; [reflexivity|].
  destruct (bittorrent_peers !! k) as [peers|] eqn:Hk; [|reflexivity].
  exfalso. apply Hin. apply list_elem_of_fmap. exists (k, peers).
  split; [reflexivity|]. apply elem_of_map_to_list. exact Hk.
Qed.

Lemma readd_calls (bittorrent_peers : peers_by_torrent) (t : nat) (p : address) :
  AddPeer t p ∈ fst (readd_bittorrent_peers bittorrent_peers)
  <-> exists peers, bittorrent_peers !! t = Some peers /\ p ∈ peers.
Proof.
  unfold readd_bittorrent_peers. rewrite readd_fold. cbn [fst app].
  rewrite elem_of_readd_calls. split.
  - intros (peers & Hitem & Hp). exists peers. split; [|exact Hp].
    apply elem_of_map_to_list. exact Hitem.
  - intros (peers & Hk & Hp). exists peers. split; [|exact Hp].
    apply elem_of_map_to_list. exact Hk.
Qed.

(** X14: [readd_bittorrent_peers] empties [bittorrent_peers] and calls
    [add_peer] for the pairs of download and peer it held, and for no
    other pair. *)
Theorem readd_bittorrent_peers_gives_back (bittorrent_peers : peers_by_torrent) :
  snd (readd_bittorrent_peers bittorrent_peers) = ∅
  /\ forall t p,
       AddPeer t p ∈ fst (readd_bittorrent_peers bittorrent_peers)
       <-> exists peers, bittorrent_peers !! t = Some peers /\ p ∈ peers.
Proof. split; [apply readd_empties | intros t p; apply readd_calls]. Qed.

Lemma update_torrent_waits (peers : gset address) (t : Torrent)
    (bittorrent_peers : peers_by_torrent) (h : TorrentHandle) :
  handle t = Some h -> is_valid h = true ->
  fst (update_torrent false peers t bittorrent_peers) = []
  /\ snd (update_torrent false peers t bittorrent_peers) !! torrent_id t
     = (if bool_decide (peers ∩ list_to_set (peer_info h) ≠ ∅)
        then Some (peers ∩ list_to_set (peer_info h)
                   ∪ default ∅ (bittorrent_peers !! torrent_id t))
        else bittorrent_peers !! torrent_id t)
  /\ forall other, other ≠ torrent_id t ->
       snd (update_torrent false peers t bittorrent_peers) !! other
       = bittorrent_peers !! other.
Proof.
  intros Hsome Hvalid. unfold update_torrent. rewrite Hsome, Hvalid. cbn [negb].
  destruct (bool_decide (peers ∩ list_to_set (peer_info h) ≠ ∅)); [|repeat split].
  cbn [fst snd]. split; [reflexivity|].
  destruct (bittorrent_peers !! torrent_id t) as [old|] eqn:Hold; cbn [default from_option id].
  - split; [apply lookup_insert_eq|]. intros other Hne. apply lookup_insert_ne. congruence.
  - split; [rewrite lookup_insert_eq, union_empty_r_L; reflexivity|].
    intros other Hne. apply lookup_insert_ne. congruence.
Qed.

Lemma update_torrent_readds (peers : gset address) (t : Torrent)
    (bittorrent_peers : peers_by_torrent) (h : TorrentHandle) (p : address) :
  handle t = Some h -> is_valid h = true ->
  p ∈ peers -> p ∈ peer_info h ->
  AddPeer (torrent_id t) p ∈ fst (update_torrent true peers t bittorrent_peers).
Proof.
  intros Hsome Hvalid Hp Hconn. unfold update_torrent. rewrite Hsome, Hvalid. cbn [negb].
  assert (Hin : p ∈ peers ∩ list_to_set (peer_info h)).
  { apply elem_of_intersection. split; [exact Hp|]. apply elem_of_list_to_set. exact Hconn. }
  rewrite bool_decide_true by (intros Hempty; rewrite Hempty in Hin;
                               apply elem_of_empty in Hin; exact Hin).
  apply readd_calls.
  destruct (bittorrent_peers !! torrent_id t) as [old|];
    eexists; rewrite lookup_insert_eq; (split; [reflexivity|]);
    [apply elem_of_union_l|]; exact Hin.
Qed.

(** X15: without a valid handle [update_torrent] does nothing. Without a
    circuit it calls nobody and postpones: of the peers of the dead
    circuit, those the download is still connected to are added to what
    [bittorrent_peers] holds for the download, the others are dropped,
    and the entries of the other downloads stay as they are. *)
Theorem update_torrent_postpones (peers : gset address) (t : Torrent)
    (bittorrent_peers : peers_by_torrent) :
  ((handle t = None \/ exists h, handle t = Some h /\ is_valid h = false) ->
   forall has_circuits,
     update_torrent has_circuits peers t bittorrent_peers = ([], bittorrent_peers))
  /\ (forall h, handle t = Some h -> is_valid h = true ->
        let kept := peers ∩ list_to_set (peer_info h) in
        let after := snd (update_torrent false peers t bittorrent_peers) in
        fst (update_torrent false peers t bittorrent_peers) = []
        /\ after !! torrent_id t
           = (if bool_decide (kept ≠ ∅)
              then Some (kept ∪ default ∅ (bittorrent_peers !! torrent_id t))
              else bittorrent_peers !! torrent_id t)
        /\ forall other, other ≠ torrent_id t ->
                         after !! other = bittorrent_peers !! other).
Proof.
  split.
  - intros [Hnone | (h & Hsome & Hinvalid)] has_circuits; unfold update_torrent.
    + rewrite Hnone. reflexivity.
    + rewrite Hsome, Hinvalid. reflexivity.
  - intros h Hsome Hvalid. apply update_torrent_waits; assumption.
Qed.

(** X16: with a circuit at hand and a valid handle, [update_torrent]
    gives back at once: every peer of the dead circuit the download is
    still connected to gets [add_peer] on that download, as does every
    peer that was waiting, and [bittorrent_peers] is empty afterwards. *)
Theorem update_torrent_gives_back (peers : gset address) (t : Torrent)
    (bittorrent_peers : peers_by_torrent) (h : TorrentHandle) :
  handle t = Some h -> is_valid h = true ->
  peers ∩ list_to_set (peer_info h) ≠ ∅ ->
  snd (update_torrent true peers t bittorrent_peers) = ∅
  /\ (forall p, p ∈ peers -> p ∈ peer_info h ->
        AddPeer (torrent_id t) p ∈ fst (update_torrent true peers t bittorrent_peers))
  /\ (forall t' waiting p, bittorrent_peers !! t' = Some waiting -> p ∈ waiting ->
        AddPeer t' p ∈ fst (update_torrent true peers t bittorrent_peers)).
Proof.
  intros Hsome Hvalid Hkept. split; [|split].
  - unfold update_torrent. rewrite Hsome, Hvalid. cbn [negb].
    rewrite bool_decide_true by assumption. apply readd_empties.
  - intros p Hp Hconn. apply (update_torrent_readds peers t bittorrent_peers h); assumption.
  - intros t' waiting p Hwait Hp. unfold update_torrent. rewrite Hsome, Hvalid. cbn [negb].
    rewrite bool_decide_true by assumption. apply readd_calls.
    destruct (decide (t' = torrent_id t)) as [->|Hne].
    + rewrite Hwait. eexists. rewrite lookup_insert_eq. split; [reflexivity|].
      apply elem_of_union_r. exact Hp.
    + exists waiting. split; [|exact Hp].
      destruct (bittorrent_peers !! torrent_id t);
        rewrite lookup_insert_ne by congruence; exact Hwait.
Qed.

(** X17: [update_torrent] never leaves an empty set of peers behind: if
    no download has an empty set waiting before the call, none has one
    after it. *)
Theorem update_torrent_no_empty_set (has_circuits : bool) (peers : gset address)
    (t : Torrent) (bittorrent_peers : peers_by_torrent) :
  (forall t' waiting, bittorrent_peers !! t' = Some waiting -> waiting ≠ ∅) ->
  forall t' waiting,
    snd (update_torrent has_circuits peers t bittorrent_peers) !! t' = Some waiting ->
    waiting ≠ ∅.
Proof.
  intros Hinv t' waiting. unfold update_torrent.
  destruct (handle t) as [h|]; [|apply Hinv].
  destruct (is_valid h); cbn [negb]; [|apply Hinv].
  case_bool_decide as Hkept; [|apply Hinv].
  destruct has_circuits.
  - rewrite readd_empties, lookup_empty. discriminate.
  - cbn [snd]. destruct (bittorrent_peers !! torrent_id t) as [old|] eqn:Hold.
    + rewrite lookup_insert. case_decide.
      * intros [= <-] Hempty. apply Hkept. apply set_eq. intros x.
        rewrite elem_of_empty. split; [|tauto]. intros Hx.
        assert (Hin : x ∈ peers ∩ list_to_set (peer_info h) ∪ old)
          by (apply elem_of_union_l; exact Hx).
        rewrite Hempty in Hin. apply elem_of_empty in Hin. exact Hin.
      * apply Hinv.
    + rewrite lookup_insert. case_decide.
      * intros [= <-]. exact Hkept.
      * apply Hinv.
Qed.
End TorrentProps.

(** ** The notifier *)

Module NotifierProps.
Import Notifier.

Lemma field_mismatch_none (args : list string) (given : kwargs) :
  field_mismatch args given = ∅
  <-> list_to_set args =@{gset string} list_to_set (map fst given).
Proof.
  unfold field_mismatch. split.
  - intros Hempty. apply set_eq. intros x.
    assert (Hx : x ∉ (list_to_set args ∖ list_to_set (map fst given)
                      ∪ list_to_set (map fst given) ∖ list_to_set args : gset string))
      by (rewrite Hempty; apply not_elem_of_empty).
    rewrite elem_of_union, !elem_of_difference in Hx.
    destruct (decide (x ∈ (list_to_set args : gset string)));
      destruct (decide (x ∈ (list_to_set (map fst given) : gset string))); tauto.
  - intros ->. apply set_eq. intros x.
    rewrite elem_of_union, !elem_of_difference, elem_of_empty. tauto.
Qed.

Lemma call_all_quiet deliver callbacks :
  Forall (fun cb => callback_raises cb = None) callbacks ->
  call_all deliver callbacks = (map (fun cb => deliver (callback_id cb)) callbacks, None).
Proof.
  induction 1 as [|cb rest Hcb _ IH]; [reflexivity|].
  cbn [call_all map]. rewrite Hcb, IH. reflexivity.
Qed.

Lemma call_all_raises deliver before cb after message :
  Forall (fun cb => callback_raises cb = None) before ->
  callback_raises cb = Some message ->
  call_all deliver (before ++ cb :: after)
  = (map (fun cb => deliver (callback_id cb)) (before ++ [cb]),
     Some (CallbackError message)).
Proof.
  intros Hbefore Hcb. induction Hbefore as [|cb0 rest Hcb0 _ IH].
  - cbn. rewrite Hcb. reflexivity.
  - cbn [call_all map app]. rewrite Hcb0, IH. reflexivity.
Qed.



(** X19: when the keyword arguments fit and no callback raises, [notify]
    calls the observers of the topic in the order they were added, each
    once and with the keyword arguments, and then every delegate with the
    topic; an observer just added is called after the earlier ones, and
    observers of other topics are not called. *)
Theorem notify_calls_in_order (n : Notifier) (topic : Notification) (observer : callback)
    (given : kwargs) :
  list_to_set (fields (value topic)) =@{gset string} list_to_set (map fst given) ->
  Forall (fun cb => callback_raises cb = None)
         (observers n topic ++ observer :: delegates n) ->
  notify (add n topic observer) (inl topic) given
  = (map (fun cb => Observed (callback_id cb) given) (observers n topic)
     ++ Observed (callback_id observer) given
     :: map (fun cb => Delegated (callback_id cb) topic given) (delegates n),
     None)
  /\ forall other, other ≠ topic -> observers (add n topic observer) other = observers n other.
Proof.
  intros Hfit Hquiet. apply Forall_app in Hquiet as [Hobs Hrest].
  apply Forall_cons in Hrest as [Hnew Hdel]. split.
  - unfold notify. rewrite bool_decide_false
      by (intros Hne; apply Hne; apply field_mismatch_none; exact Hfit).
    cbn [add observers delegates]. rewrite bool_decide_true by reflexivity.
    rewrite call_all_quiet by (apply Forall_app; split; [exact Hobs | repeat constructor; exact Hnew]).
    rewrite call_all_quiet by exact Hdel.
    rewrite map_app, <- app_assoc. reflexivity.
  - intros other Hne. cbn [add observers]. rewrite bool_decide_false by assumption.
    reflexivity.
Qed.

(** X20: a topic given as a string is looked up by attribute name, and
    every member of [Notification] is found under the name its descriptor
    carries: [notify] by that name is [notify] by the member. A string
    that names no member raises [AttributeError] with nobody called. *)
Theorem notify_by_name (n : Notifier) (given : kwargs) :
  (forall topic, getattr (name (value topic)) = Some topic
                 /\ notify n (inr (name (value topic))) given = notify n (inl topic) given)
  /\ (forall attr, getattr attr = None ->
                   notify n (inr attr) given = ([], Some AttributeError)).
Proof.
  split.
  - intros topic. assert (Hget : getattr (name (value topic)) = Some topic)
      by (destruct topic; vm_compute; reflexivity).
    split; [exact Hget|]. unfold notify. rewrite Hget. reflexivity.
  - intros attr Hnone. unfold notify. rewrite Hnone. reflexivity.
Qed.

(** X21: an observer that raises ends the notification: the observers
    added after it and all the delegates are not called, and its
    exception leaves [notify]. *)
Theorem notify_stops_at_raise (n : Notifier) (topic : Notification) (given : kwargs)
    (before after : list callback) (cb : callback) (message : string) :
  list_to_set (fields (value topic)) =@{gset string} list_to_set (map fst given) ->
  observers n topic = before ++ cb :: after ->
  Forall (fun cb => callback_raises cb = None) before ->
  callback_raises cb = Some message ->
  notify n (inl topic) given
  = (map (fun cb => Observed (callback_id cb) given) (before ++ [cb]),
     Some (CallbackError message)).
Proof.
  intros Hfit Hobs Hbefore Hcb. unfold notify.
  rewrite bool_decide_false
    by (intros Hne; apply Hne; apply field_mismatch_none; exact Hfit).
  rewrite Hobs, (call_all_raises _ before cb after message) by assumption. reflexivity.
Qed.
End NotifierProps.

(** ** Removing circuits, relays and exit sockets *)

Module RemovalProps.
Import Notifier Torrents Removal NotifierProps TorrentProps.

Lemma circuit_removed_fits v additional_info :
  list_to_set (fields (value circuit_removed))
  =@{gset string} list_to_set (map fst (circuit_removed_args v additional_info)).
Proof. reflexivity. Qed.

Lemma notify_circuit_removed n v additional_info :
  Forall (fun cb => callback_raises cb = None)
         (observers n circuit_removed ++ delegates n) ->
  notify n (inl circuit_removed) (circuit_removed_args v additional_info)
  = (map (fun cb => Observed (callback_id cb) (circuit_removed_args v additional_info))
         (observers n circuit_removed)
     ++ map (fun cb => Delegated (callback_id cb) circuit_removed
                                 (circuit_removed_args v additional_info))
            (delegates n),
     None).
Proof.
  intros Hquiet. apply Forall_app in Hquiet as [Hobs Hdel]. unfold notify.
  rewrite bool_decide_false
    by (intros Hne; apply Hne; apply field_mismatch_none; apply circuit_removed_fits).
  rewrite !call_all_quiet by assumption. reflexivity.
Qed.

(** X22: [remove_exit_socket] and [remove_relay] notify [circuit_removed]
    with the fields the topic declares, so no [ValueError] comes of it:
    with well-behaved callbacks every observer of the topic gets the
    exit socket (the relay) and the additional information, and
    [remove_exit_socket] goes on to the superclass. Nothing is notified of
    an exit socket that is not there, of a relay that was not removed, or
    without a notifier. *)
Theorem removal_notifies (c : Community) (n : Notifier) (circuit_id : Z)
    (additional_info : string) :
  Forall (fun cb => callback_raises cb = None)
         (observers n circuit_removed ++ delegates n) ->
  (forall exit_socket, exit_sockets c !! circuit_id = Some exit_socket ->
     remove_exit_socket c (Some n) circuit_id additional_info
     = (map Delivered
            (map (fun cb => Observed (callback_id cb)
                              (circuit_removed_args (KwExitSocket exit_socket) additional_info))
                 (observers n circuit_removed)
             ++ map (fun cb => Delegated (callback_id cb) circuit_removed
                                 (circuit_removed_args (KwExitSocket exit_socket)
                                                       additional_info))
                    (delegates n))
        ++ [SuperRemoveExitSocket circuit_id], None))
  /\ (exit_sockets c !! circuit_id = None ->
      remove_exit_socket c (Some n) circuit_id additional_info
      = ([SuperRemoveExitSocket circuit_id], None))
  /\ remove_exit_socket c None circuit_id additional_info
     = ([SuperRemoveExitSocket circuit_id], None)
  /\ (forall relay,
        remove_relay (Some n) (Some relay) additional_info
        = (map Delivered
               (map (fun cb => Observed (callback_id cb)
                                 (circuit_removed_args (KwRelay relay) additional_info))
                    (observers n circuit_removed)
                ++ map (fun cb => Delegated (callback_id cb) circuit_removed
                                    (circuit_removed_args (KwRelay relay) additional_info))
                       (delegates n)), None))
  /\ remove_relay (Some n) None additional_info = ([], None)
  /\ (forall removed, remove_relay None removed additional_info = ([], None)).
Proof.
  intros Hquiet. repeat split.
  - intros exit_socket Hsock. unfold remove_exit_socket.
    rewrite Hsock, notify_circuit_removed by assumption. reflexivity.
  - intros Hnone. unfold remove_exit_socket. rewrite Hnone. reflexivity.
  - unfold remove_exit_socket. destruct (exit_sockets c !! circuit_id); reflexivity.
  - intros relay. unfold remove_relay. rewrite notify_circuit_removed by assumption.
    reflexivity.
Qed.

Lemma update_torrent_keeps (has_circuits : bool) (peers : gset address)
    (t : Torrents.Torrent) (bp : peers_by_torrent) (t' : nat) (waiting : gset address)
    (p : address) :
  has_circuits = false ->
  bp !! t' = Some waiting -> p ∈ waiting ->
  exists waiting', snd (update_torrent has_circuits peers t bp) !! t' = Some waiting'
                   /\ p ∈ waiting'.
Proof.
  intros -> Hwait Hp. unfold update_torrent.
  destruct (handle t) as [h|]; [|eauto]. destruct (is_valid h); cbn [negb]; [|eauto].
  case_bool_decide; [|eauto]. cbn [snd].
  destruct (decide (t' = torrent_id t)) as [->|Hne].
  - rewrite Hwait, lookup_insert_eq. eexists. split; [reflexivity|].
    apply elem_of_union_r. exact Hp.
  - destruct (bp !! torrent_id t); rewrite lookup_insert_ne by congruence; eauto.
Qed.

Lemma update_torrents_postpones (peers : gset address)
    (downloads : list Torrents.Torrent) :
  forall (bp : peers_by_torrent),
    fst (update_torrents false peers downloads bp) = []
    /\ (forall t' waiting p, bp !! t' = Some waiting -> p ∈ waiting ->
          exists waiting', snd (update_torrents false peers downloads bp) !! t'
                           = Some waiting' /\ p ∈ waiting')
    /\ (forall t h p, t ∈ downloads -> handle t = Some h -> is_valid h = true ->
          p ∈ peers -> p ∈ peer_info h ->
          exists waiting', snd (update_torrents false peers downloads bp) !! torrent_id t
                           = Some waiting' /\ p ∈ waiting').
Proof.
  induction downloads as [|d rest IH]; intros bp.
  - cbn. split; [reflexivity|]. split; [eauto|].
    intros t h p Hin. apply elem_of_nil in Hin. contradiction.
  - cbn [update_torrents].
    assert (Hcalls1 : fst (update_torrent false peers d bp) = []).
    { unfold update_torrent. destruct (handle d) as [h|]; [|reflexivity].
      destruct (is_valid h); cbn [negb]; [|reflexivity].
      destruct (bool_decide _); reflexivity. }
    pose proof (fun t' waiting p => update_torrent_keeps false peers d bp t' waiting p eq_refl)
      as Hkeep1.
    pose proof (fun h => update_torrent_waits peers d bp h) as Hone.
    destruct (update_torrent false peers d bp) as [calls bp1].
    destruct (IH bp1) as (Hcalls & Hkeep & Hnew).
    destruct (update_torrents false peers rest bp1) as [calls' bp2].
    cbn [fst snd] in *. subst calls calls'. split; [reflexivity|]. split.
    + intros t' waiting p Hwait Hp.
      destruct (Hkeep1 t' waiting p Hwait Hp) as (w1 & Hw1 & Hp1).
      eapply Hkeep; eassumption.
    + intros t h p Hin Hh Hvalid Hp Hconn.
      apply elem_of_cons in Hin as [-> | Hin]; [|eapply Hnew; eassumption].
      destruct (Hone h Hh Hvalid) as (_ & Hlook & _).
      assert (Hkept : p ∈ peers ∩ list_to_set (peer_info h)).
      { apply elem_of_intersection. split; [exact Hp|].
        apply elem_of_list_to_set. exact Hconn. }
      rewrite bool_decide_true in Hlook
        by (intros Hempty; rewrite Hempty in Hkept; apply elem_of_empty in Hkept; exact Hkept).
      eapply Hkeep; [exact Hlook | apply elem_of_union_l; exact Hkept].
Qed.

Lemma update_torrents_gives_back (peers : gset address)
    (downloads : list Torrents.Torrent) :
  forall (bp : peers_by_torrent) t h p,
    t ∈ downloads -> handle t = Some h -> is_valid h = true ->
    p ∈ peers -> p ∈ peer_info h ->
    AddPeer (torrent_id t) p ∈ fst (update_torrents true peers downloads bp).
Proof.
  induction downloads as [|d rest IH]; intros bp t h p Hin Hh Hvalid Hp Hconn.
  - apply elem_of_nil in Hin. contradiction.
  - cbn [update_torrents].
    pose proof (update_torrent_readds peers d bp) as Hback.
    destruct (update_torrent true peers d bp) as [calls bp1].
    specialize (IH bp1 t h p).
    destruct (update_torrents true peers rest bp1) as [calls' bp2]. cbn [fst] in *.
    apply elem_of_app. apply elem_of_cons in Hin as [-> | Hin].
    + left. apply (Hback h p); assumption.
    + right. apply IH; assumption.
Qed.

(** X23: [remove_circuit] loses no peer of the dead circuit that a
    download is still connected to: with well-behaved callbacks and a
    known circuit, such a peer is given back to its download at once
    when another circuit is at hand, and otherwise waits in
    [bittorrent_peers] for its download. The method ends with the call of
    the superclass. *)
Theorem remove_circuit_keeps_peers (c : Community) (n : option Notifier)
    (downloads : list Torrents.Torrent) (affected_peers : gset address)
    (circuit_id : Z) (additional_info : string) (bp : peers_by_torrent)
    (circuit : Circuit) :
  circuits c !! circuit_id = Some circuit ->
  (forall notifier, n = Some notifier ->
     Forall (fun cb => callback_raises cb = None)
            (observers notifier circuit_removed ++ delegates notifier)) ->
  (forall t h p, t ∈ downloads -> handle t = Some h -> is_valid h = true ->
     p ∈ affected_peers -> p ∈ peer_info h ->
     Torrent (AddPeer (torrent_id t) p)
     ∈ fst (fst (remove_circuit c n (Some downloads) affected_peers true
                   circuit_id additional_info bp)))
  /\ (forall t h p, t ∈ downloads -> handle t = Some h -> is_valid h = true ->
        p ∈ affected_peers -> p ∈ peer_info h ->
        exists waiting,
          snd (remove_circuit c n (Some downloads) affected_peers false
                 circuit_id additional_info bp) !! torrent_id t = Some waiting
          /\ p ∈ waiting)
  /\ (forall has_circuits,
        last (fst (fst (remove_circuit c n (Some downloads) affected_peers has_circuits
                          circuit_id additional_info bp)))
        = Some (SuperRemoveCircuit circuit_id)).
Proof.
  intros Hknown Hquiet.
  assert (Hnotified : exists made,
    match n with
    | Some notifier => notify notifier (inl circuit_removed)
                         (circuit_removed_args (KwCircuit circuit) additional_info)
    | None => ([], None)
    end = (made, None)).
  { destruct n as [notifier|]; [|eauto].
    rewrite notify_circuit_removed by (apply Hquiet; reflexivity). eauto. }
  destruct Hnotified as [made Hnotified].
  unfold remove_circuit. rewrite Hknown, Hnotified. split; [|split].
  - intros t h p Hin Hh Hvalid Hp Hconn.
    pose proof (update_torrents_gives_back affected_peers downloads bp t h p
                  Hin Hh Hvalid Hp Hconn) as Hback.
    destruct (update_torrents true affected_peers downloads bp) as [calls bp'].
    cbn [fst snd] in *. rewrite !elem_of_app. right. right. left.
    apply list_elem_of_fmap. eauto.
  - intros t h p Hin Hh Hvalid Hp Hconn.
    destruct (update_torrents_postpones affected_peers downloads bp) as (_ & _ & Hnew).
    specialize (Hnew t h p Hin Hh Hvalid Hp Hconn).
    destruct (update_torrents false affected_peers downloads bp) as [calls bp'].
    exact Hnew.
  - intros has_circuits.
    destruct (update_torrents has_circuits affected_peers downloads bp) as [calls bp'].
    cbn [fst]. rewrite !app_assoc. apply last_snoc.
Qed.

(** The other side of X23: a circuit that is not there is only warned about. *)
Lemma remove_circuit_unknown (c : Community) (n : option Notifier)
    (dm : option (list Torrents.Torrent)) (affected : gset address)
    (has_circuits : bool) (circuit_id : Z) (info : string) (bp : peers_by_torrent) :
  circuits c !! circuit_id = None ->
  remove_circuit c n dm affected has_circuits circuit_id info bp
  = ([Warned "Circuit %d not found when trying to remove it"], None, bp).
Proof. intros Hnone. unfold remove_circuit. rewrite Hnone. reflexivity. Qed.
End RemovalProps.

(** ** Binding the SOCKS5 sessions *)

Module SocksProps.
Import Torrents Socks.

Lemma bind_session_cases port session :
  bind_session port session = session
  \/ (port ≠ 0
      /\ udp_connection session = Some {| remote_udp_address := None |}
      /\ bind_session port session
         = {| udp_connection := Some {| remote_udp_address := Some (loopback, port) |} |}).
Proof.
  unfold bind_session. destruct (udp_connection session) as [[remote]|] eqn:Hconn; [|left; reflexivity].
  cbn [remote_udp_address].
  case_bool_decide as Hport; cbn [andb]; [|left; reflexivity].
  case_bool_decide as Hfree; [|left; reflexivity].
  right. subst remote. repeat split. exact Hport.
Qed.

Lemma list_position_lt {A} (l : list A) i n :
  list_position l i = Some n -> (n < length l)%nat.
Proof.
  unfold list_position.
  destruct ((0 <=? i) && (i <? Z.of_nat (length l))) eqn:Hpos.
  - intros [= <-]. apply andb_prop in Hpos as [H0 Hn]. lia.
  - destruct ((i <? 0) && (- Z.of_nat (length l) <=? i)) eqn:Hneg; [|discriminate].
    intros [= <-]. apply andb_prop in Hneg as [H0 Hn]. lia.
Qed.

(** X24: [create_introduction_point] never binds a session anew: when it
    gets as far as the superclass, the servers and their sessions are as
    many as before, and every session is as it was, or else had a UDP
    connection with no remote address and now has the address 127.0.0.1
    with a port that is not 0. A session without a connection, or with a
    remote address, is never changed. *)
Theorem create_introduction_point_binds (dm : option DownloadManager)
    (servers servers' : list Socks5Server) (ih : bytes) :
  create_introduction_point dm servers ih = inr servers' ->
  length servers' = length servers
  /\ forall j server', servers' !! j = Some server' ->
       exists server,
         servers !! j = Some server
         /\ length (sessions server') = length (sessions server)
         /\ forall k s', sessions server' !! k = Some s' ->
              exists s,
                sessions server !! k = Some s
                /\ (s' = s
                    \/ exists port,
                         port ≠ 0
                         /\ udp_connection s = Some {| remote_udp_address := None |}
                         /\ s' = {| udp_connection :=
                                      Some {| remote_udp_address := Some (loopback, port) |} |}).
Proof.
  assert (Hsame : length servers = length servers
                  /\ forall j server', servers !! j = Some server' ->
       exists server,
         servers !! j = Some server
         /\ length (sessions server') = length (sessions server)
         /\ forall k s', sessions server' !! k = Some s' ->
              exists s,
                sessions server !! k = Some s
                /\ (s' = s
                    \/ exists port,
                         port ≠ 0
                         /\ udp_connection s = Some {| remote_udp_address := None |}
                         /\ s' = {| udp_connection :=
                                      Some {| remote_udp_address := Some (loopback, port) |} |})).
  { split; [reflexivity|]. intros j server' Hj. exists server'. repeat split; eauto. }
  unfold create_introduction_point.
  destruct dm as [dm|]; [|intros [= <-]; exact Hsame].
  destruct (get_download _ ih) as [dl|]; [|intros [= <-]; exact Hsame].
  case_bool_decide; [intros [= <-]; exact Hsame|].
  destruct (dict_get (listen_ports dm) _) as [interfaces|]; [|discriminate].
  destruct (list_position servers _) as [i|] eqn:Hi; [|discriminate].
  destruct (servers !! i) as [server|] eqn:Hserver; [|discriminate].
  intros [= <-]. clear Hsame. split; [apply length_insert|].
  intros j server' Hj. destruct (decide (j = i)) as [->|Hne].
  - rewrite list_lookup_insert_eq in Hj by (apply lookup_lt_Some in Hserver; exact Hserver).
    injection Hj as <-. exists server. split; [exact Hserver|]. cbn [sessions].
    split; [apply length_map|]. intros k s' Hk.
    rewrite list_lookup_fmap in Hk. destruct (sessions server !! k) as [s|]; [|discriminate].
    injection Hk as <-. exists s. split; [reflexivity|].
    destruct (bind_session_cases (lt_listen_port dm interfaces (config_hops (download dl))) s)
      as [-> | (Hport & Hconn & ->)]; [left; reflexivity|].
    right. eexists. repeat split; eassumption.
  - rewrite list_lookup_insert_ne in Hj by congruence.
    exists server'. repeat split; eauto.
Qed.

Lemma dict_get_first {V} (before : list (string * V)) iface p rest :
  Forall (fun kv => kv.1 ≠ iface) before ->
  dict_get (before ++ (iface, p) :: rest) iface = Some p.
Proof.
  induction 1 as [|[k v] before Hk _ IH]; cbn [dict_get app].
  - destruct (decide (iface = iface)); [reflexivity | contradiction].
  - cbn in Hk. destruct (decide (k = iface)); [contradiction | exact IH].
Qed.

(** X25: the port a session is bound to is that of the first interface
    of the hop count that is not 127.0.0.1, whatever comes after it and
    however many loopback entries come before; when that port is 0, or
    every interface is the loopback, it is the port the libtorrent session
    reports. *)
Theorem lt_listen_port_choice (dm : DownloadManager) (hops : Z)
    (before rest : list (string * Z)) (iface : string) (p : Z) :
  Forall (fun kv => kv.1 = loopback) before ->
  iface ≠ loopback ->
  lt_listen_port dm (before ++ (iface, p) :: rest) hops
  = (if bool_decide (p ≠ 0) then p else session_listen_port dm hops)
  /\ lt_listen_port dm before hops = session_listen_port dm hops.
Proof.
  intros Hloop Hiface. unfold lt_listen_port.
  assert (Hfilter : forall tail,
    List.filter (fun k => negb (bool_decide (k = loopback))) (map fst (before ++ tail))
    = List.filter (fun k => negb (bool_decide (k = loopback))) (map fst tail)).
  { intros tail. induction Hloop as [|[k v] before Hk _ IH]; [reflexivity|].
    cbn in Hk. subst k. cbn [app map fst List.filter].
    rewrite bool_decide_true by reflexivity. exact IH. }
  split.
  - rewrite Hfilter. cbn [map fst List.filter].
    rewrite bool_decide_false by assumption. cbn [negb].
    rewrite dict_get_first; [reflexivity|].
    eapply Forall_impl; [exact Hloop|]. intros kv ->. congruence.
  - rewrite <- (app_nil_r before), Hfilter. reflexivity.
Qed.

(** X26: which server is bound, and when the method fails. With a
    download found for the infohash and some SOCKS5 server: the sessions
    bound are those of server [hops - 1], and for [hops = 0] those of the
    last server; a hop count beyond the number of servers raises
    [IndexError], and one libtorrent listens on no port for raises
    [AttributeError]. Without a download manager or without a server
    nothing is bound. *)
Theorem create_introduction_point_server (dm : DownloadManager)
    (servers : list Socks5Server) (ih : bytes) (dl : Torrent) :
  get_download (Some (downloads dm)) ih = Some dl ->
  servers ≠ [] ->
  let hops := config_hops (download dl) in
  (dict_get (listen_ports dm) hops = None ->
   create_introduction_point (Some dm) servers ih = inl AttributeError)
  /\ (forall interfaces, dict_get (listen_ports dm) hops = Some interfaces ->
        (Z.of_nat (length servers) < hops ->
         create_introduction_point (Some dm) servers ih = inl IndexError)
        /\ (forall server, 1 <= hops -> servers !! Z.to_nat (hops - 1) = Some server ->
              create_introduction_point (Some dm) servers ih
              = inr (<[Z.to_nat (hops - 1) :=
                         {| sessions := map (bind_session (lt_listen_port dm interfaces hops))
                                            (sessions server) |}]> servers))
        /\ (forall server, hops = 0 -> last servers = Some server ->
              create_introduction_point (Some dm) servers ih
              = inr (<[pred (length servers) :=
                         {| sessions := map (bind_session (lt_listen_port dm interfaces hops))
                                            (sessions server) |}]> servers)))
  /\ create_introduction_point None servers ih = inr servers
  /\ create_introduction_point (Some dm) [] ih = inr [].
Proof.
  intros Hdl Hservers hops. unfold create_introduction_point. rewrite Hdl.
  rewrite (bool_decide_false (servers = [])) by assumption. fold hops.
  split; [intros ->; reflexivity|]. split; [|split; [reflexivity|]].
  - intros interfaces ->. split; [|split].
    + intros Hmany. unfold list_position.
      rewrite (proj2 (andb_false_iff _ _)) by (right; apply Z.ltb_ge; lia).
      rewrite (proj2 (andb_false_iff _ _)) by (left; apply Z.ltb_ge; lia). reflexivity.
    + intros server Hhops Hserver. unfold list_position.
      pose proof (lookup_lt_Some _ _ _ Hserver) as Hlt.
      rewrite (proj2 (andb_true_iff _ _))
        by (split; [apply Z.leb_le | apply Z.ltb_lt]; lia).
      rewrite Hserver. reflexivity.
    + intros server Hzero Hlast. unfold list_position. rewrite Hzero.
      assert (Hlen : (0 < length servers)%nat) by (destruct servers; [contradiction | cbn; lia]).
      change (0 - 1) with (-1). cbn [Z.leb Z.compare andb].
      rewrite (proj2 (andb_true_iff _ _))
        by (split; [reflexivity | apply Z.leb_le; lia]).
      replace (Z.to_nat (-1 + Z.of_nat (length servers))) with (pred (length servers)) by lia.
      rewrite <- last_lookup, Hlast. reflexivity.
  - destruct (first_download (downloads dm) ih); reflexivity.
Qed.
End SocksProps.

(** ** HTTP responses coming back *)

(** X27: [on_http_response] drops, with a warning and the request cache
    untouched, a response whose identifier no request waits for, and one
    whose circuit field is not the circuit of the request; otherwise it
    removes the request from the cache exactly when the response is
    complete. It never touches another entry, and the circuit the cell
    came in on plays no part. *)
Theorem on_http_response_guards (complete : Cache -> HTTPResponsePayload -> bool)
    (source_address : address) (payload : HTTPResponsePayload) (circuit_id : Z)
    (c : Community) :
  let key := ("http-request"%string, resp_identifier payload) in
  let after := snd (on_http_response complete source_address payload circuit_id c) in
  (request_cache c !! key = None ->
   on_http_response complete source_address payload circuit_id c
   = (Ret tt, with_trace c (trace c ++ [Log WARNING "Received unexpected http-response"])))
  /\ (forall cid, request_cache c !! key = Some (HTTPRequestCache cid) ->
        cid ≠ resp_circuit_id payload ->
        on_http_response complete source_address payload circuit_id c
        = (Ret tt,
           with_trace c
             (trace c ++ [Log WARNING "Received http-response from wrong circuit %s != %s"])))
  /\ (request_cache c !! key = Some (HTTPRequestCache (resp_circuit_id payload)) ->
      request_cache after
      = if complete (HTTPRequestCache (resp_circuit_id payload)) payload
        then delete key (request_cache c) else request_cache c)
  /\ (forall other, other ≠ key -> request_cache after !! other = request_cache c !! other)
  /\ (forall circuit_id',
        on_http_response complete source_address payload circuit_id' c
        = on_http_response complete source_address payload circuit_id c).
Proof.
  cbn zeta. unfold on_http_response, bind, gets. cbn [id].
  split; [intros ->; reflexivity|]. split; [|split; [|split; [|reflexivity]]].
  - intros cid -> Hne. rewrite bool_decide_true by assumption. reflexivity.
  - intros ->. rewrite bool_decide_false by (intros Hne; apply Hne; reflexivity).
    unfold logger. rewrite emit_run. destruct (complete _ payload); reflexivity.
  - intros other Hne.
    destruct (request_cache c !! ("http-request"%string, resp_identifier payload))
      as [[cid|prefix]|]; [|reflexivity..].
    case_bool_decide; [reflexivity|].
    unfold logger. rewrite emit_run. destruct (complete _ payload); [|reflexivity].
    cbn [snd request_cache Scenario.with_request_cache with_trace].
    apply lookup_delete_ne. congruence.
Qed.

(** ** The properties above, at work *)

Module CaseProps.
Import Scenario Cases.

Lemma monitor_hidden_swarms_leaves_witness :
  exists es,
    monitor_hidden_swarms ∅ ∅ stopped_tracking
    = (Ret tt, with_trace stopped_tracking (trace stopped_tracking ++ es))
    /\ count_events (is_leave lookup) es = 1%nat.
Proof.
  destruct (monitor_hidden_swarms_leaves ∅ ∅ stopped_tracking) as (es & Hrun & Hcount).
  - rewrite dom_empty_L. reflexivity.
  - exists es. split; [exact Hrun|].
    destruct (Hcount lookup) as [-> _].
    + apply elem_of_union_r, elem_of_dom. vm_compute. eauto.
    + vm_compute. reflexivity.
Defined.

Lemma monitor_hidden_swarms_introductions_witness :
  exists es,
    monitor_hidden_swarms seeding one_hop idle = (Ret tt, with_trace idle (trace idle ++ es))
    /\ count_events (is_introduction lookup) es = 1%nat.
Proof.
  destruct (monitor_hidden_swarms_introductions seeding one_hop idle) as (es & Hrun & Hcount).
  - unfold seeding, one_hop. rewrite !dom_singleton_L. reflexivity.
  - exists es. split; [exact Hrun|]. rewrite Hcount. vm_compute. reflexivity.
Defined.

Lemma on_http_request_failed_fetch_witness :
  exists es,
    on_http_request unit dictionaries_only initiator request 1 (ConnectFails "refused")
      exit_node
    = (Ret tt, with_trace exit_node (trace exit_node ++ es))
    /\ sent_cells es = [].
Proof.
  destruct (on_http_request_failed_fetch unit dictionaries_only initiator request 1
              (ConnectFails "refused") exit_node) as (es & Hrun & Hnone & _).
  - vm_compute. discriminate.
  - apply Z.leb_le. vm_compute. reflexivity.
  - intros lines rest Hconn. discriminate Hconn.
  - exists es. split; assumption.
Defined.

Lemma read_response_headers_then_body_witness :
  read_response (map Data [status_line] ++ Data crlf :: [Data (b_lit "never read")])
                (Data (b_lit "de")) []
  = Ret (status_line ++ crlf ++ b_lit "de").
Proof.
  destruct (read_response_headers_then_body [status_line] crlf
              [Data (b_lit "never read")] (b_lit "de")) as (Hread & _ & _).
  - repeat constructor. vm_compute. discriminate.
  - vm_compute. reflexivity.
  - rewrite Hread. vm_compute. reflexivity.
Defined.

Lemma cache_exitnodes_to_disk_logs_witness :
  cache_exitnodes_to_disk empty_snapshot (with_exitnode_cache idle (Some unreadable))
  = (Ret tt,
     with_trace (with_exitnode_cache idle (Some unreadable))
       [Log INFO "Writing exit nodes to cache file"; Log WARNING "Permission denied"]).
Proof.
  rewrite (cache_exitnodes_to_disk_logs empty_snapshot
             (with_exitnode_cache idle (Some unreadable)) unreadable); reflexivity.
Defined.

Lemma update_torrent_gives_back_witness :
  snd (Torrents.update_torrent true {[peer1; peer2]} connected waiting) = ∅
  /\ Torrents.AddPeer 3 peer1
     ∈ fst (Torrents.update_torrent true {[peer1; peer2]} connected waiting)
  /\ Torrents.AddPeer 7 peer2
     ∈ fst (Torrents.update_torrent true {[peer1; peer2]} connected waiting).
Proof.
  destruct (TorrentProps.update_torrent_gives_back {[peer1; peer2]} connected waiting
              {| Torrents.is_valid := true; Torrents.peer_info := [peer1] |})
    as (Hempty & Hnew & Hold).
  - reflexivity.
  - reflexivity.
  - vm_compute. discriminate.
  - split; [exact Hempty|]. split.
    + apply Hnew; [apply elem_of_union_l, elem_of_singleton; reflexivity | left].
    + apply (Hold 7%nat {[peer2]}); [reflexivity | apply elem_of_singleton; reflexivity].
Defined.

Lemma update_torrent_no_empty_set_witness :
  (forall t' peers, waiting !! t' = Some peers -> peers ≠ ∅)
  /\ forall t' peers,
       snd (Torrents.update_torrent false {[peer1]} connected waiting) !! t' = Some peers ->
       peers ≠ ∅.
Proof.
  assert (Hinv : forall t' peers, waiting !! t' = Some peers -> peers ≠ ∅).
  { intros t' peers Hlook. unfold waiting in Hlook.
    apply lookup_singleton_Some in Hlook as [_ <-]. vm_compute. discriminate. }
  split; [exact Hinv|].
  exact (TorrentProps.update_torrent_no_empty_set false {[peer1]} connected waiting Hinv).
Defined.

Lemma notify_calls_in_order_witness :
  Notifier.notify one_observer (inl Notifier.circuit_removed)
    (Removal.circuit_removed_args (Notifier.KwCircuit a_circuit) "timeout")
  = ([Notifier.Observed 1
        (Removal.circuit_removed_args (Notifier.KwCircuit a_circuit) "timeout")], None).
Proof.
  apply (NotifierProps.notify_calls_in_order Notifier.init Notifier.circuit_removed (quiet 1)).
  - reflexivity.
  - repeat constructor.
Defined.

Lemma notify_stops_at_raise_witness :
  Notifier.notify failing_first (inl Notifier.circuit_removed)
    (Removal.circuit_removed_args (Notifier.KwCircuit a_circuit) "timeout")
  = ([Notifier.Observed 1
        (Removal.circuit_removed_args (Notifier.KwCircuit a_circuit) "timeout")],
     Some (Notifier.CallbackError "boom")).
Proof.
  apply (NotifierProps.notify_stops_at_raise failing_first Notifier.circuit_removed _
           [] [quiet 2] (failing 1) "boom").
  - reflexivity.
  - reflexivity.
  - constructor.
  - reflexivity.
Defined.

Lemma removal_notifies_witness :
  Removal.remove_exit_socket exit_node (Some one_observer) 1 "timeout"
  = ([Removal.Delivered
        (Notifier.Observed 1
           (Removal.circuit_removed_args
              (Notifier.KwExitSocket {| exit_circuit_id := 1; exit_peer := initiator |})
              "timeout"));
      Removal.SuperRemoveExitSocket 1], None).
Proof.
  destruct (RemovalProps.removal_notifies exit_node one_observer 1 "timeout") as (Hknown & _).
  - repeat constructor.
  - apply (Hknown {| exit_circuit_id := 1; exit_peer := initiator |}). reflexivity.
Defined.

Lemma remove_circuit_keeps_peers_witness :
  Removal.Torrent (Torrents.AddPeer 3 peer1)
  ∈ fst (fst (Removal.remove_circuit one_circuit (Some one_observer) (Some [connected])
                {[peer1; peer2]} true 9 "timeout" ∅)).
Proof.
  destruct (RemovalProps.remove_circuit_keeps_peers one_circuit (Some one_observer)
              [connected] {[peer1; peer2]} 9 "timeout" ∅ a_circuit) as (Hback & _).
  - reflexivity.
  - intros notifier [= <-]. repeat constructor.
  - apply (Hback connected {| Torrents.is_valid := true; Torrents.peer_info := [peer1] |});
      [left | reflexivity | reflexivity
      | apply elem_of_union_l, elem_of_singleton; reflexivity | left].
Defined.

Lemma create_introduction_point_binds_witness :
  Socks.create_introduction_point (Some manager) one_server lookup
  = inr [{| Socks.sessions :=
              [bound_session;
               {| Socks.udp_connection :=
                    Some {| Socks.remote_udp_address := Some ("127.0.0.1"%string, 6881) |} |};
               idle_session] |}]
  /\ length one_server = 1%nat.
Proof.
  assert (Hrun : Socks.create_introduction_point (Some manager) one_server lookup
                 = inr [{| Socks.sessions :=
                             [bound_session;
                              {| Socks.udp_connection :=
                                   Some {| Socks.remote_udp_address :=
                                             Some ("127.0.0.1"%string, 6881) |} |};
                              idle_session] |}])
    by (vm_compute; reflexivity).
  split; [exact Hrun|].
  destruct (SocksProps.create_introduction_point_binds _ _ _ _ Hrun) as [Hlen _].
  rewrite <- Hlen. reflexivity.
Defined.

Lemma lt_listen_port_choice_witness :
  Socks.lt_listen_port manager [("127.0.0.1"%string, 1000); ("0.0.0.0"%string, 6881)] 1
  = 6881.
Proof.
  destruct (SocksProps.lt_listen_port_choice manager 1 [("127.0.0.1"%string, 1000)] []
              "0.0.0.0" 6881) as [Hport _].
  - repeat constructor.
  - discriminate.
  - exact Hport.
Defined.

Lemma create_introduction_point_server_witness :
  Socks.create_introduction_point (Some manager) (one_server ++ one_server) lookup
  = inr (<[0%nat := {| Socks.sessions :=
                         map (Socks.bind_session 6881)
                             [bound_session; free_session; idle_session] |}]>
           (one_server ++ one_server)).
Proof.
  destruct (SocksProps.create_introduction_point_server manager (one_server ++ one_server)
              lookup connected) as (_ & Hfound & _).
  - vm_compute. reflexivity.
  - discriminate.
  - destruct (Hfound [("127.0.0.1"%string, 1000); ("0.0.0.0"%string, 6881)])
      as (_ & Hbind & _); [reflexivity|].
    apply (Hbind {| Socks.sessions := [bound_session; free_session; idle_session] |});
      [vm_compute; discriminate | reflexivity].
Defined.
End CaseProps.
